(** * Pizza Haven backend: admin guard and order lifecycle

    A shallow embedding of the Express application in [src/server.js] and
    of the earlier revisions of the same file kept in
    [src/unnamed/part_000], together with the statements of the
    specification that concern them.

    Layout:
    - [JsValue]: the JavaScript values the handlers see (request bodies,
      row columns, response bodies);
    - [JSON_parse]: the text-to-value direction of JSON, used by the order
      listing;
    - [Builtins]: the library functions the handlers and the database
      driver call, kept abstract;
    - [DB], [exec]: the persistence collaborator, at the level of the SQL
      statements the handlers issue, with the column types of
      [src/createTables.js] and the driver's conversions in both
      directions;
    - [World], [Eff]: server state and the state-and-exception monad in
      which the handlers run;
    - [Server]: [src/server.js]; [Rev1], [Rev2], [Rev3]: the three
      revisions of [server.js] in [src/unnamed/part_000], as far as the
      statements need them;
    - the vocabulary of the statements, example states, and the
      properties. *)

From Stdlib Require Import ZArith QArith Ascii String DecimalString List Bool Lia.
From stdpp Require Import base option list sorting gmap.
Import ListNotations.

Local Open Scope string_scope.
Local Open Scope list_scope.
Local Open Scope Z_scope.

(** ** JavaScript values *)

Set Warnings "-register-all".

(** Numbers are kept as exact rationals, the numbers that the text of a
    JSON body denotes: a body cannot carry [NaN] or an infinity.  The
    handlers only ask whether a number is zero, or hand it on. *)
Inductive JsValue : Type :=
| JUndefined
| JNull
| JBool (b : bool)
| JNum (q : Q)
| JStr (s : string)
| JArr (xs : list JsValue)
| JObj (fields : list (string * JsValue)).

(** [typeof v === "string"] *)
Definition typeof_string (v : JsValue) : bool :=
  match v with JStr _ => true | _ => false end.

(** JavaScript truthiness ([ToBoolean]). *)
Definition truthy (v : JsValue) : bool :=
  match v with
  | JUndefined | JNull => false
  | JBool b => b
  | JNum q => negb (Qnum q =? 0)
  | JStr s => negb (String.eqb s "")
  | JArr _ | JObj _ => true
  end.

(** [a || b] *)
Definition js_or (a b : JsValue) : JsValue := if truthy a then a else b.

(** [v === s] for a string literal [s]: strict equality never coerces. *)
Definition strict_eq_str (v : JsValue) (s : string) : bool :=
  match v with JStr t => String.eqb t s | _ => false end.

Fixpoint assoc (k : string) (fields : list (string * JsValue)) : option JsValue :=
  match fields with
  | [] => None
  | (k', v) :: rest => if String.eqb k k' then Some v else assoc k rest
  end.

(** Property read [o.k] on a value that is not [undefined] or [null]; the
    keys read by the handlers are never array or string own properties. *)
Definition get_prop (o : JsValue) (k : string) : JsValue :=
  match o with
  | JObj fields => default JUndefined (assoc k fields)
  | _ => JUndefined
  end.

(** The keys that are array indices: canonical decimal numerals below
    [2 ^ 32 - 1].  An object enumerates them first, in ascending order,
    and its other keys after them, in the order of their creation. *)
Fixpoint index_value (s : string) (acc : Z) : option Z :=
  match s with
  | EmptyString => Some acc
  | String c r =>
      let n := Z.of_N (N_of_ascii c) in
      if (48 <=? n) && (n <=? 57) then index_value r (acc * 10 + (n - 48)) else None
  end.

Definition array_index (k : string) : option Z :=
  match k with
  | EmptyString => None
  | String c r =>
      if (c =? "0")%char && negb (String.eqb r "") then None
      else
        match index_value k 0 with
        | Some n => if n <? 2 ^ 32 - 1 then Some n else None
        | None => None
        end
  end.

(** Whether a new key [k] is enumerated before the key [k']. *)
Definition precedes (k k' : string) : bool :=
  match array_index k, array_index k' with
  | Some a, Some b => a <? b
  | Some _, None => true
  | None, _ => false
  end.

(** [o[k] = v] on the list of the own properties of [o], kept in the
    order of enumeration: written in place when [o] already has [k]. *)
Fixpoint put (k : string) (v : JsValue) (fields : list (string * JsValue))
  : list (string * JsValue) :=
  match fields with
  | [] => [(k, v)]
  | (k', v') :: rest =>
      if String.eqb k k' then (k, v) :: rest
      else if precedes k k' then (k, v) :: fields
      else (k', v') :: put k v rest
  end.

(** [{ ...o, k: v }]: the spread copies the own properties of [o], then
    [k] is written. *)
Definition spread_with (o : JsValue) (k : string) (v : JsValue) : JsValue :=
  match o with
  | JObj fields => JObj (put k v fields)
  | _ => JObj [(k, v)]
  end.

(** Destructuring [const { ... } = v] throws a [TypeError] exactly when [v]
    is [undefined] or [null]. *)
Definition destructurable (v : JsValue) : bool :=
  match v with JUndefined | JNull => false | _ => true end.

(** What [Number(v)] can yield, beyond the numbers a JSON body carries. *)
Inductive JsNumber : Type :=
| Finite (q : Q)
| NaN
| Infinity (negative : bool).

(** ** JSON text to value ([JSON.parse])

    Strings are byte strings; a [\uXXXX] escape decodes to the UTF-8 bytes
    of its code unit.  Number literals denote exact rationals.  [None]
    stands for the [SyntaxError] that [JSON.parse] throws. *)

(** The double quote character. *)
Definition dquote : ascii := "034"%char.

Module Json.

Definition is_ws (c : ascii) : bool :=
  (c =? " ")%char || (c =? "009")%char || (c =? "010")%char || (c =? "013")%char.

Fixpoint skip_ws (s : string) : string :=
  match s with
  | String c r => if is_ws c then skip_ws r else s
  | EmptyString => s
  end.

Definition code (c : ascii) : Z := Z.of_N (N_of_ascii c).
Definition chr (n : Z) : ascii := ascii_of_N (Z.to_N n).

Definition digit_val (c : ascii) : option Z :=
  if (48 <=? code c) && (code c <=? 57) then Some (code c - 48) else None.

Definition hex_val (c : ascii) : option Z :=
  let n := code c in
  if (48 <=? n) && (n <=? 57) then Some (n - 48)
  else if (65 <=? n) && (n <=? 70) then Some (n - 55)
  else if (97 <=? n) && (n <=? 102) then Some (n - 87)
  else None.

(** UTF-8 bytes of a 16-bit code unit. *)
Definition utf8 (cp : Z) : string :=
  if cp <? 128 then String (chr cp) ""
  else if cp <? 2048 then
    String (chr (192 + cp / 64)) (String (chr (128 + cp mod 64)) "")
  else
    String (chr (224 + cp / 4096))
      (String (chr (128 + (cp / 64) mod 64)) (String (chr (128 + cp mod 64)) "")).

Definition simple_escape (c : ascii) : option ascii :=
  if (c =? dquote)%char then Some dquote
  else if (c =? "\")%char then Some "\"%char
  else if (c =? "/")%char then Some "/"%char
  else if (c =? "b")%char then Some "008"%char
  else if (c =? "f")%char then Some "012"%char
  else if (c =? "n")%char then Some "010"%char
  else if (c =? "r")%char then Some "013"%char
  else if (c =? "t")%char then Some "009"%char
  else None.

(** The characters of a string literal after its opening quote, up to and
    including the closing quote. *)
Fixpoint string_body (s : string) : option (string * string) :=
  match s with
  | EmptyString => None
  | String c r =>
      if (c =? dquote)%char then Some ("", r)
      else if (c =? "\")%char then
        match r with
        | EmptyString => None
        | String e r1 =>
            if (e =? "u")%char then
              match r1 with
              | String h1 (String h2 (String h3 (String h4 r2))) =>
                  a ← hex_val h1; b ← hex_val h2; c ← hex_val h3; d ← hex_val h4;
                  '(t, rest) ← string_body r2;
                  Some ((utf8 (((a * 16 + b) * 16 + c) * 16 + d) ++ t)%string, rest)
              | _ => None
              end
            else
              x ← simple_escape e;
              '(t, rest) ← string_body r1;
              Some (String x t, rest)
        end
      else if code c <? 32 then None
      else '(t, rest) ← string_body r; Some (String c t, rest)
  end.

(** A maximal run of decimal digits. *)
Fixpoint digits (s : string) : list Z * string :=
  match s with
  | EmptyString => ([], s)
  | String c r =>
      match digit_val c with
      | Some d => let '(ds, rest) := digits r in (d :: ds, rest)
      | None => ([], s)
      end
  end.

Definition of_digits (ds : list Z) : Z := fold_left (fun acc d => acc * 10 + d) ds 0.

Definition scale10 (m k : Z) : Q :=
  if 0 <=? k then (m * 10 ^ k) # 1 else m # Z.to_pos (10 ^ (- k)).

(** An optional minus sign. *)
Definition minus (s : string) : bool * string :=
  match s with
  | String c r => if (c =? "-")%char then (true, r) else (false, s)
  | EmptyString => (false, s)
  end.

(** An optional fraction: a point and at least one digit. *)
Definition fraction (s : string) : option (list Z * string) :=
  match s with
  | String c r =>
      if (c =? ".")%char then
        let '(fs, r') := digits r in
        match fs with [] => None | _ => Some (fs, r') end
      else Some ([], s)
  | EmptyString => Some ([], s)
  end.

(** An optional sign of the exponent. *)
Definition sign (s : string) : Z * string :=
  match s with
  | String c r =>
      if (c =? "-")%char then (-1, r)
      else if (c =? "+")%char then (1, r)
      else (1, s)
  | EmptyString => (1, s)
  end.

(** An optional exponent: [e] or [E], an optional sign, at least one
    digit. *)
Definition exponent (s : string) : option (Z * string) :=
  match s with
  | String c r =>
      if (c =? "e")%char || (c =? "E")%char then
        let '(sg, r1) := sign r in
        let '(es, r2) := digits r1 in
        match es with [] => None | _ => Some (sg * of_digits es, r2) end
      else Some (0, s)
  | EmptyString => Some (0, s)
  end.

(** [-? int frac? exp?], with no leading zero in [int]. *)
Definition number (s : string) : option (Q * string) :=
  let '(neg, s1) := minus s in
  let '(ds, s2) := digits s1 in
  match ds with
  | [] => None
  | 0 :: _ :: _ => None
  | _ =>
      '(fs, s3) ← fraction s2;
      '(e, s4) ← exponent s3;
      let m := of_digits (ds ++ fs) in
      Some (scale10 (if neg : bool then - m else m) (e - Z.of_nat (length fs)), s4)
  end.

Definition keyword (kw : string) (v : JsValue) (s : string) : option (JsValue * string) :=
  if String.prefix kw s
  then Some (v, String.substring (String.length kw) (String.length s - String.length kw) s)
  else None.

Fixpoint value (fuel : nat) (s : string) : option (JsValue * string) :=
  match fuel with
  | O => None
  | S n =>
      match skip_ws s with
      | EmptyString => None
      | String c r =>
          if (c =? dquote)%char then
            '(t, rest) ← string_body r; Some (JStr t, rest)
          else if (c =? "[")%char then
            match skip_ws r with
            | String c' r' =>
                if (c' =? "]")%char then Some (JArr [], r')
                else '(xs, rest) ← elements n r; Some (JArr xs, rest)
            | EmptyString => None
            end
          else if (c =? "{")%char then
            match skip_ws r with
            | String c' r' =>
                if (c' =? "}")%char then Some (JObj [], r')
                else '(ms, rest) ← members n r []; Some (JObj ms, rest)
            | EmptyString => None
            end
          else if (c =? "t")%char then keyword "true" (JBool true) (String c r)
          else if (c =? "f")%char then keyword "false" (JBool false) (String c r)
          else if (c =? "n")%char then keyword "null" JNull (String c r)
          else '(q, rest) ← number (String c r); Some (JNum q, rest)
      end
  end
with elements (fuel : nat) (s : string) : option (list JsValue * string) :=
  match fuel with
  | O => None
  | S n =>
      '(v, r1) ← value n s;
      match skip_ws r1 with
      | String c r2 =>
          if (c =? ",")%char then '(vs, r3) ← elements n r2; Some (v :: vs, r3)
          else if (c =? "]")%char then Some ([v], r2)
          else None
      | EmptyString => None
      end
  end
with members (fuel : nat) (s : string) (acc : list (string * JsValue))
  : option (list (string * JsValue) * string) :=
  match fuel with
  | O => None
  | S n =>
      match skip_ws s with
      | String q r =>
          if (q =? dquote)%char then
            '(k, r1) ← string_body r;
            match skip_ws r1 with
            | String c r2 =>
                if (c =? ":")%char then
                  '(v, r3) ← value n r2;
                  match skip_ws r3 with
                  | String c' r4 =>
                      if (c' =? ",")%char then members n r4 (put k v acc)
                      else if (c' =? "}")%char then Some (put k v acc, r4)
                      else None
                  | EmptyString => None
                  end
                else None
            | EmptyString => None
            end
          else None
      | EmptyString => None
      end
  end.

(** Every call of [value], [elements] or [members] reads at least one
    character before the next call of the same function, so twice the
    length of the text is enough fuel. *)
Definition parse (s : string) : option JsValue :=
  match value (2 * String.length s + 2) s with
  | Some (v, rest) =>
      match skip_ws rest with EmptyString => Some v | String _ _ => None end
  | None => None
  end.

End Json.

Definition JSON_parse : string -> option JsValue := Json.parse.

(** ** What the runtime supplies

    Library functions whose results the handlers and the store pass on
    without looking inside:
    - [bcrypt.compare] ([None]: the promise rejects);
    - [Number] and [JSON.stringify];
    - [Number.prototype.toString], by which the driver turns a number
      parameter into text;
    - the input routine of the store's [NUMERIC] type, together with the
      text the driver returns for the stored number ([None]: the text is
      not a number);
    - the JSON form of the [Date] the driver returns for a [TIMESTAMP]. *)
Class Builtins := {
  bcrypt_compare : JsValue -> string -> option bool;
  js_Number : JsValue -> JsNumber;
  JSON_stringify : JsValue -> JsValue;
  Number_toString : JsNumber -> string;
  numeric_in : string -> option string;
  Date_toJSON : Z -> string
}.

(** ** The persistence collaborator

    Three tables with the columns of [src/createTables.js], for every
    version of the server.  A parameter reaches the store as text, or as
    SQL [NULL]; the store reads the text by the type of its column and
    refuses what does not fit.  A row holds, for each column, the value
    the driver hands back to the handlers: a string for [VARCHAR], [TEXT]
    and [NUMERIC], the parsed document for [JSON], [null] for SQL [NULL].
    Keys come from the table's sequence and [created_at] from the store's
    clock, in milliseconds. *)

Record Pizza := {
  pz_id : Z;
  pz_name : JsValue;
  pz_price : JsValue;
  pz_image : JsValue
}.

Record Order := {
  id : Z;
  name : JsValue;
  phone : JsValue;
  address : JsValue;
  items : JsValue;
  total : JsValue;
  payment_method : JsValue;
  payment_status : JsValue;
  transaction_id : JsValue;
  status : JsValue;
  created_at : Z
}.

Record Message := {
  msg_id : Z;
  msg_name : JsValue;
  msg_email : JsValue;
  msg_message : JsValue;
  msg_created_at : Z
}.

Record DB := {
  pizzas : list Pizza;
  orders : list Order;
  messages : list Message;
  pizzas_id_seq : Z;
  orders_id_seq : Z;
  messages_id_seq : Z;
  current_timestamp : Z;
  online : bool
}.

Definition with_pizzas (d : DB) (l : list Pizza) (seq : Z) : DB :=
  {| pizzas := l; orders := orders d; messages := messages d;
     pizzas_id_seq := seq; orders_id_seq := orders_id_seq d;
     messages_id_seq := messages_id_seq d;
     current_timestamp := current_timestamp d; online := online d |}.

Definition with_orders (d : DB) (l : list Order) (seq : Z) : DB :=
  {| pizzas := pizzas d; orders := l; messages := messages d;
     pizzas_id_seq := pizzas_id_seq d; orders_id_seq := seq;
     messages_id_seq := messages_id_seq d;
     current_timestamp := current_timestamp d; online := online d |}.

Definition with_messages (d : DB) (l : list Message) (seq : Z) : DB :=
  {| pizzas := pizzas d; orders := orders d; messages := l;
     pizzas_id_seq := pizzas_id_seq d; orders_id_seq := orders_id_seq d;
     messages_id_seq := seq;
     current_timestamp := current_timestamp d; online := online d |}.

(** The statements issued through [pool.query], with their parameters as
    the handlers pass them. *)
Inductive Sql :=
| SelectPizzas
| InsertPizza (name : JsValue) (price : JsNumber) (image : JsValue)
| DeletePizza (id : string)
| SelectOrders
| InsertOrder (name phone address items total payment_method payment_status : JsValue)
| UpdateOrderPaymentStatus (payment_status : JsValue) (id : string)
| UpdateOrderStatus (status : JsValue) (id : string)
| ConfirmPayment (transaction_id : JsValue) (id : string)
| DeleteOrder (id : string)
| SelectMessages
| InsertMessage (name email message : JsValue)
| DeleteMessage (id : string).

Record QueryResult := { rows : list JsValue; rowCount : nat }.

Definition is_null (v : JsValue) : bool :=
  match v with JNull => true | _ => false end.

(** *** Column types

    Text is a byte string in UTF-8; the store counts characters, that is,
    the bytes that do not continue a character. *)

Fixpoint has_nul (s : string) : bool :=
  match s with
  | EmptyString => false
  | String c r => (c =? "000")%char || has_nul r
  end.

Definition is_continuation (c : ascii) : bool :=
  (128 <=? Json.code c) && (Json.code c <? 192).

Fixpoint char_length (s : string) : nat :=
  match s with
  | EmptyString => O
  | String c r => if is_continuation c then char_length r else S (char_length r)
  end.

(** The first [n] characters of a text, and what follows them. *)
Fixpoint split_chars (n : nat) (s : string) : string * string :=
  match s with
  | EmptyString => ("", "")
  | String c r =>
      if is_continuation c then
        let '(kept, excess) := split_chars n r in (String c kept, excess)
      else
        match n with
        | O => ("", s)
        | S m => let '(kept, excess) := split_chars m r in (String c kept, excess)
        end
  end.

Fixpoint all_blanks (s : string) : bool :=
  match s with
  | EmptyString => true
  | String c r => (c =? " ")%char && all_blanks r
  end.

(** [TEXT]: any text without a zero byte. *)
Definition as_text (t : option string) : option JsValue :=
  match t with
  | None => Some JNull
  | Some s => if has_nul s then None else Some (JStr s)
  end.

(** [VARCHAR(n)]: a text of at most [n] characters; a longer one is
    refused, unless what exceeds [n] characters is blanks only, which are
    then dropped. *)
Definition as_varchar (n : nat) (t : option string) : option JsValue :=
  match t with
  | None => Some JNull
  | Some s =>
      if has_nul s then None
      else if (char_length s <=? n)%nat then Some (JStr s)
      else
        let '(kept, excess) := split_chars n s in
        if all_blanks excess then Some (JStr kept) else None
  end.

(** [JSON]: the text of a JSON document; the driver returns the document
    parsed. *)
Definition as_json (t : option string) : option JsValue :=
  match t with
  | None => Some JNull
  | Some s => JSON_parse s
  end.

Definition is_space (c : ascii) : bool :=
  (c =? " ")%char || ((9 <=? Json.code c) && (Json.code c <=? 13)).

Fixpoint trim_left (s : string) : string :=
  match s with
  | String c r => if is_space c then trim_left r else s
  | EmptyString => s
  end.

Fixpoint all_space (s : string) : bool :=
  match s with
  | String c r => is_space c && all_space r
  | EmptyString => true
  end.

(** Coercion of a text parameter to the [SERIAL] key type: optional
    blanks, an optional sign, decimal digits, optional blanks, within the
    32-bit range.  [None] is the store's "invalid input syntax" or "out of
    range" error.  (From version 16 on PostgreSQL also reads integers
    written with a [0x], [0o] or [0b] prefix or with underscores; the
    statements that depend on a key assume it is read here.) *)
Definition pg_int (s : string) : option Z :=
  let s0 := trim_left s in
  let '(sg, s1) := Json.sign s0 in
  let '(ds, rest) := Json.digits s1 in
  match ds with
  | [] => None
  | _ =>
      let n := sg * Json.of_digits ds in
      if all_space rest && (- 2 ^ 31 <=? n) && (n <? 2 ^ 31) then Some n else None
  end.

Arguments pg_int : simpl never.

Definition int (n : Z) : JsValue := JNum (n # 1).

Definition set_payment_status (v : JsValue) (o : Order) : Order :=
  {| id := id o; name := name o; phone := phone o; address := address o;
     items := items o; total := total o; payment_method := payment_method o;
     payment_status := v; transaction_id := transaction_id o;
     status := status o; created_at := created_at o |}.

Definition set_status (v : JsValue) (o : Order) : Order :=
  {| id := id o; name := name o; phone := phone o; address := address o;
     items := items o; total := total o; payment_method := payment_method o;
     payment_status := payment_status o; transaction_id := transaction_id o;
     status := v; created_at := created_at o |}.

Definition set_transaction_id (v : JsValue) (o : Order) : Order :=
  {| id := id o; name := name o; phone := phone o; address := address o;
     items := items o; total := total o; payment_method := payment_method o;
     payment_status := payment_status o; transaction_id := v;
     status := status o; created_at := created_at o |}.

(** [UPDATE orders SET ... WHERE id = k] *)
Definition update_where (k : Z) (f : Order -> Order) (l : list Order) : list Order :=
  map (fun o => if id o =? k then f o else o) l.

Definition matching (k : Z) (l : list Order) : nat :=
  length (List.filter (fun o => id o =? k) l).

(** [ORDER BY id], [ORDER BY created_at DESC]. *)
Definition by_id (a b : Pizza) : Prop := pz_id a <= pz_id b.
Definition newest_first (a b : Order) : Prop := created_at b <= created_at a.
Definition newest_msg_first (a b : Message) : Prop := msg_created_at b <= msg_created_at a.

#[global] Instance by_id_dec a b : Decision (by_id a b) := Z_le_dec _ _.
#[global] Instance newest_first_dec a b : Decision (newest_first a b) := Z_le_dec _ _.
#[global] Instance newest_msg_first_dec a b : Decision (newest_msg_first a b) := Z_le_dec _ _.

Section Store.
Context {B : Builtins}.

(** *** Parameters as the driver sends them

    The driver's [prepareValue]: [null] and [undefined] become SQL
    [NULL]; a string goes as it is, a number and a boolean as their
    [toString]; an array goes as an array literal, whose elements are
    [NULL], nested literals, or quoted texts with [\] and the quote
    escaped; any other object goes as its JSON text.

    A string of the program is a sequence of 16-bit code units; the bytes
    [ED A0..BF xx] stand for a code unit of a surrogate pair.  On the wire
    a pair is one character of four bytes, and a code unit of a pair that
    stands alone is replaced by U+FFFD. *)

Definition high_surrogate (a b c : ascii) : bool :=
  (Json.code a =? 237) && (160 <=? Json.code b) && (Json.code b <=? 175)
  && is_continuation c.

Definition low_surrogate (a b c : ascii) : bool :=
  (Json.code a =? 237) && (176 <=? Json.code b) && (Json.code b <=? 191)
  && is_continuation c.

(** The four bytes of the character that a pair stands for. *)
Definition astral (b c e f : ascii) : string :=
  let cp := 65536 + ((Json.code b - 160) * 64 + (Json.code c - 128)) * 1024
            + ((Json.code e - 176) * 64 + (Json.code f - 128)) in
  String (Json.chr (240 + cp / 262144))
    (String (Json.chr (128 + (cp / 4096) mod 64))
      (String (Json.chr (128 + (cp / 64) mod 64))
        (String (Json.chr (128 + cp mod 64)) ""))).

Definition replacement : string :=
  String (Json.chr 239) (String (Json.chr 191) (String (Json.chr 189) "")).

Fixpoint utf8_wire (s : string) : string :=
  match s with
  | EmptyString => ""
  | String a r =>
      match r with
      | String b (String c r3) =>
          if high_surrogate a b c then
            match r3 with
            | String d (String e (String f r6)) =>
                if low_surrogate d e f then (astral b c e f ++ utf8_wire r6)%string
                else (replacement ++ utf8_wire r3)%string
            | _ => (replacement ++ utf8_wire r3)%string
            end
          else if low_surrogate a b c then (replacement ++ utf8_wire r3)%string
          else String a (utf8_wire r)
      | _ => String a (utf8_wire r)
      end
  end.

Fixpoint escape_element (s : string) : string :=
  match s with
  | EmptyString => ""
  | String c r =>
      if (c =? "\")%char || (c =? dquote)%char
      then String "\" (String c (escape_element r))
      else String c (escape_element r)
  end.

Definition quote_element (s : string) : string :=
  String dquote (escape_element s ++ String dquote "").

Fixpoint prepareValue (v : JsValue) : option string :=
  match v with
  | JUndefined | JNull => None
  | JBool true => Some "true"
  | JBool false => Some "false"
  | JNum q => Some (Number_toString (Finite q))
  | JStr s => Some (utf8_wire s)
  | JArr xs =>
      Some ("{" ++
            (fix elements (l : list JsValue) : string :=
               match l with
               | [] => ""
               | x :: r =>
                   (match x with
                    | JUndefined | JNull => "NULL"
                    | JArr _ => default "" (prepareValue x)
                    | _ => quote_element (default "" (prepareValue x))
                    end) ++
                   (match r with [] => "" | _ :: _ => "," ++ elements r end)
               end) xs ++ "}")%string
  | JObj _ => match JSON_stringify v with JStr s => Some (utf8_wire s) | _ => None end
  end.

(** [NUMERIC]: a text the store reads as a number; the driver returns the
    number as the text the store prints for it. *)
Definition as_numeric (t : option string) : option JsValue :=
  match t with
  | None => Some JNull
  | Some s => if has_nul s then None else r ← numeric_in s; Some (JStr r)
  end.

(** *** Rows as the driver returns them

    The key is a number; a [TIMESTAMP] is a [Date], shown here as the
    string it becomes in a JSON response. *)

Definition timestamp (t : Z) : JsValue := JStr (Date_toJSON t).

Definition pizza_row (p : Pizza) : JsValue :=
  JObj [("id", int (pz_id p)); ("name", pz_name p); ("price", pz_price p);
        ("image", pz_image p)].

Definition order_row (o : Order) : JsValue :=
  JObj [("id", int (id o)); ("name", name o); ("phone", phone o);
        ("address", address o); ("items", items o); ("total", total o);
        ("payment_method", payment_method o);
        ("payment_status", payment_status o);
        ("transaction_id", transaction_id o); ("status", status o);
        ("created_at", timestamp (created_at o))].

Definition message_row (m : Message) : JsValue :=
  JObj [("id", int (msg_id m)); ("name", msg_name m); ("email", msg_email m);
        ("message", msg_message m); ("created_at", timestamp (msg_created_at m))].

(** *** The rows an [INSERT] builds

    [None] when a parameter does not fit the type of its column:
    [pizzas (name VARCHAR(100), price NUMERIC, image TEXT)],
    [orders (name VARCHAR(100), phone VARCHAR(20), address TEXT,
    items JSON, total NUMERIC, payment_method VARCHAR(50),
    payment_status VARCHAR(20))],
    [messages (name VARCHAR(100), email VARCHAR(100), message TEXT)]. *)

Definition new_pizza (d : DB) (n : JsValue) (p : JsNumber) (i : JsValue) : option Pizza :=
  n' ← as_varchar 100 (prepareValue n);
  p' ← as_numeric (Some (Number_toString p));
  i' ← as_text (prepareValue i);
  Some {| pz_id := pizzas_id_seq d; pz_name := n'; pz_price := p'; pz_image := i' |}.

Definition new_order (d : DB) (n p a i t pm ps : JsValue) : option Order :=
  n' ← as_varchar 100 (prepareValue n);
  p' ← as_varchar 20 (prepareValue p);
  a' ← as_text (prepareValue a);
  i' ← as_json (prepareValue i);
  t' ← as_numeric (prepareValue t);
  pm' ← as_varchar 50 (prepareValue pm);
  ps' ← as_varchar 20 (prepareValue ps);
  Some {| id := orders_id_seq d; name := n'; phone := p'; address := a';
          items := i'; total := t'; payment_method := pm'; payment_status := ps';
          transaction_id := JNull; status := JNull;
          created_at := current_timestamp d |}.

Definition new_message (d : DB) (n e m : JsValue) : option Message :=
  n' ← as_varchar 100 (prepareValue n);
  e' ← as_varchar 100 (prepareValue e);
  m' ← as_text (prepareValue m);
  Some {| msg_id := messages_id_seq d; msg_name := n'; msg_email := e';
          msg_message := m'; msg_created_at := current_timestamp d |}.

(** [UPDATE orders SET col = $1 WHERE id = $2], with [col] of type
    [VARCHAR(n)]: both parameters are read before any row is looked at. *)
Definition update_order (d : DB) (n : nat) (v : JsValue) (i : string)
    (set : JsValue -> Order -> Order) : option QueryResult * DB :=
  match pg_int i, as_varchar n (prepareValue v) with
  | Some k, Some c =>
      (Some {| rows := []; rowCount := matching k (orders d) |},
       with_orders d (update_where k (set c) (orders d)) (orders_id_seq d))
  | _, _ => (None, d)
  end.

(** One statement against the store: the result, or [None] when the
    statement throws (store unreachable, malformed key, a value that does
    not fit its column, [NOT NULL] violated), and the state it leaves.  A
    statement that throws leaves the tables as they were; an [INSERT]
    that is refused for a [NULL] in a [NOT NULL] column has already drawn
    its key from the sequence. *)
Definition exec (q : Sql) (d : DB) : option QueryResult * DB :=
  if negb (online d) then (None, d) else
  match q with
  | SelectPizzas =>
      let l := merge_sort by_id (pizzas d) in
      (Some {| rows := map pizza_row l; rowCount := length l |}, d)
  | InsertPizza n p i =>
      match new_pizza d n p i with
      | Some row =>
          if is_null (pz_name row) || is_null (pz_price row)
          then (None, with_pizzas d (pizzas d) (pizzas_id_seq d + 1))
          else (Some {| rows := []; rowCount := 1 |},
                with_pizzas d (pizzas d ++ [row]) (pizzas_id_seq d + 1))
      | None => (None, d)
      end
  | DeletePizza i =>
      match pg_int i with
      | Some k =>
          let kept := List.filter (fun p => negb (pz_id p =? k)) (pizzas d) in
          (Some {| rows := []; rowCount := (length (pizzas d) - length kept)%nat |},
           with_pizzas d kept (pizzas_id_seq d))
      | None => (None, d)
      end
  | SelectOrders =>
      let l := merge_sort newest_first (orders d) in
      (Some {| rows := map order_row l; rowCount := length l |}, d)
  | InsertOrder n p a i t pm ps =>
      match new_order d n p a i t pm ps with
      | Some row =>
          (Some {| rows := [JObj [("id", int (orders_id_seq d))]]; rowCount := 1 |},
           with_orders d (orders d ++ [row]) (orders_id_seq d + 1))
      | None => (None, d)
      end
  | UpdateOrderPaymentStatus v i => update_order d 20 v i set_payment_status
  | UpdateOrderStatus v i => update_order d 50 v i set_status
  | ConfirmPayment t i =>
      update_order d 100 t i
        (fun c o => set_payment_status (JStr "Paid") (set_transaction_id c o))
  | DeleteOrder i =>
      match pg_int i with
      | Some k =>
          let kept := List.filter (fun o => negb (id o =? k)) (orders d) in
          (Some {| rows := []; rowCount := (length (orders d) - length kept)%nat |},
           with_orders d kept (orders_id_seq d))
      | None => (None, d)
      end
  | SelectMessages =>
      let l := merge_sort newest_msg_first (messages d) in
      (Some {| rows := map message_row l; rowCount := length l |}, d)
  | InsertMessage n e m =>
      match new_message d n e m with
      | Some row =>
          (Some {| rows := []; rowCount := 1 |},
           with_messages d (messages d ++ [row]) (messages_id_seq d + 1))
      | None => (None, d)
      end
  | DeleteMessage i =>
      match pg_int i with
      | Some k =>
          let kept := List.filter (fun m => negb (msg_id m =? k)) (messages d) in
          (Some {| rows := []; rowCount := (length (messages d) - length kept)%nat |},
           with_messages d kept (messages_id_seq d))
      | None => (None, d)
      end
  end.

End Store.

(** ** Sessions

    The session middleware ([express-session] with its in-memory store)
    keeps one record per session id; the client holds the id in the
    [pizza.sid] cookie.  A record is live while the clock is before its
    expiry. *)

Record Session := { admin : JsValue; expires : Z }.

(** [req.session]: the id of the live session it was loaded from ([None]
    for the fresh, unsaved session of a request without a live one) and
    its [admin] property. *)
Record ReqSession := { loaded_from : option positive; session_admin : JsValue }.

Definition maxAge : Z := 1000 * 60 * 60.

(** ** Server state and the handler monad *)

Inductive Event :=
| EvGuard
| EvQuery (q : Sql).

Record World := {
  db : DB;
  sessions : gmap positive Session;
  clock : Z;
  trace : list Event
}.

Inductive Result (A : Type) :=
| Ok (a : A)
| Thrown.
Arguments Ok {A} a.
Arguments Thrown {A}.

(** State plus exceptions: a computation either yields a value or throws,
    and leaves a new [World] behind in both cases. *)
Definition Eff (A : Type) : Type := World -> Result A * World.

Definition ret {A} (a : A) : Eff A := fun w => (Ok a, w).

Definition throw {A} : Eff A := fun w => (Thrown, w).

Definition bind {A B} (m : Eff A) (k : A -> Eff B) : Eff B :=
  fun w =>
    match m w with
    | (Ok a, w') => k a w'
    | (Thrown, w') => (Thrown, w')
    end.

(** [try { body } catch (err) { handler }] *)
Definition try_catch {A} (body : Eff A) (handler : Eff A) : Eff A :=
  fun w =>
    match body w with
    | (Ok a, w') => (Ok a, w')
    | (Thrown, w') => handler w'
    end.

Notation "'let*' x ':=' m 'in' k" := (bind m (fun x => k))
  (at level 10, x name, m at level 100, k at level 200).
Notation "m ';;' k" := (bind m (fun _ => k))
  (at level 100, k at level 200, right associativity).

Definition of_option {A} (o : option A) : Eff A :=
  match o with Some a => ret a | None => throw end.

Definition emit (e : Event) : Eff unit :=
  fun w => (Ok tt, {| db := db w; sessions := sessions w; clock := clock w;
                      trace := trace w ++ [e] |}).

(** [await pool.query(...)]: the promise resolves to the result or
    rejects; the store is left as the statement left it. *)
Definition pool_query {B : Builtins} (q : Sql) : Eff QueryResult :=
  emit (EvQuery q) ;;
  fun w =>
    (match fst (exec q (db w)) with Some r => Ok r | None => Thrown end,
     {| db := snd (exec q (db w)); sessions := sessions w; clock := clock w;
        trace := trace w |}).

Definition set_sessions (m : gmap positive Session) : Eff unit :=
  fun w => (Ok tt, {| db := db w; sessions := m; clock := clock w;
                      trace := trace w |}).

(** The session middleware: the live record named by the cookie, or a
    fresh empty session. *)
Definition load_session (w : World) (cookie : option positive) : ReqSession :=
  match cookie with
  | Some i =>
      match sessions w !! i with
      | Some s =>
          if clock w <? expires s
          then {| loaded_from := Some i; session_admin := admin s |}
          else {| loaded_from := None; session_admin := JUndefined |}
      | None => {| loaded_from := None; session_admin := JUndefined |}
      end
  | None => {| loaded_from := None; session_admin := JUndefined |}
  end.

(** [req.session.admin = true], saved when the response ends: into the
    record the session was loaded from, or into a new record under a
    fresh id.  Yields the id the cookie carries afterwards. *)
Definition save_admin (s : option ReqSession) : Eff positive :=
  match s with
  | None => throw
  | Some rs =>
      fun w =>
        let i := match loaded_from rs with
                 | Some i => i
                 | None => fresh (dom (sessions w))
                 end in
        (Ok i, {| db := db w;
                  sessions := <[i := {| admin := JBool true;
                                        expires := clock w + maxAge |}]> (sessions w);
                  clock := clock w; trace := trace w |})
  end.

(** [req.session.destroy(callback)] *)
Definition destroy_session (s : option ReqSession) : Eff unit :=
  match s with
  | None => throw
  | Some rs =>
      match loaded_from rs with
      | Some i => fun w => set_sessions (delete i (sessions w)) w
      | None => ret tt
      end
  end.

(** ** Requests, responses, routing *)

Inductive CookieOp :=
| CookieUntouched
| CookieSet (i : positive)
| CookieCleared.

Record Response := { code : Z; json : JsValue; cookie_op : CookieOp }.

(** [res.status(c).json(v)]; [res.json(v)] is [respond 200 v]. *)
Definition respond (c : Z) (v : JsValue) : Response :=
  {| code := c; json := v; cookie_op := CookieUntouched |}.

Record Req := {
  body : JsValue;
  params_id : string;
  session : option ReqSession
}.

Inductive Step :=
| Next
| Done (r : Response).

Definition Middleware : Type := Req -> Eff Step.

Definition final (h : Req -> Eff Response) : Middleware :=
  fun req => let* r := h req in ret (Done r).

Inductive Method := GET | POST | PATCH | DELETE.

Definition method_eqb (a b : Method) : bool :=
  match a, b with
  | GET, GET | POST, POST | PATCH, PATCH | DELETE, DELETE => true
  | _, _ => false
  end.

Inductive Segment :=
| Lit (s : string)
| Param.

Record Route := {
  route_method : Method;
  route_path : list Segment;
  route_chain : list Middleware
}.

Record HttpRequest := {
  http_method : Method;
  http_path : list string;
  http_body : JsValue;
  http_cookie : option positive
}.

(** Matching a path against a pattern with at most one [:id] segment;
    yields the text bound to [:id] (empty when the pattern has none). *)
Fixpoint match_path (pat : list Segment) (path : list string) (bound : string)
  : option string :=
  match pat, path with
  | [], [] => Some bound
  | Lit s :: pat', x :: path' =>
      if String.eqb s x then match_path pat' path' bound else None
  | Param :: pat', x :: path' => match_path pat' path' x
  | _, _ => None
  end.

Fixpoint find_route (rs : list Route) (m : Method) (path : list string)
  : option (Route * string) :=
  match rs with
  | [] => None
  | r :: rest =>
      if method_eqb (route_method r) m then
        match match_path (route_path r) path "" with
        | Some i => Some (r, i)
        | None => find_route rest m path
        end
      else find_route rest m path
  end.

(** The router's own answer when no handler responded. *)
Definition not_found : Response := respond 404 JUndefined.

Fixpoint run_chain (ms : list Middleware) (req : Req) : Eff Response :=
  match ms with
  | [] => ret not_found
  | m :: rest =>
      let* s := m req in
      match s with
      | Next => run_chain rest req
      | Done r => ret r
      end
  end.

(** The router: the first route that matches runs its chain on the
    request as the middleware in front of the routes hand it over -
    [http_body] is [req.body] as [express.json] delivered it, the session
    is the one [express-session] loaded.  [Ok] is the response a handler
    sent; [Thrown] means that a handler threw, or its promise rejected,
    without sending one: what the framework then does with the request
    is outside this model. *)
Definition dispatch (rs : list Route) (h : HttpRequest) : Eff Response :=
  fun w =>
    match find_route rs (http_method h) (http_path h) with
    | Some (r, i) =>
        run_chain (route_chain r)
          {| body := http_body h; params_id := i;
             session := Some (load_session w (http_cookie h)) |} w
    | None => (Ok not_found, w)
    end.

Definition obj1 (k : string) (v : JsValue) : JsValue := JObj [(k, v)].

(** [rows[0].id] *)
Definition first_row_id (r : QueryResult) : Eff JsValue :=
  match rows r with
  | o :: _ => if destructurable o then ret (get_prop o "id") else throw
  | [] => throw
  end.

(** [const { ... } = req.body] *)
Definition destructure (req : Req) : Eff JsValue :=
  if destructurable (body req) then ret (body req) else throw.

(** ** [src/server.js] *)

Module Server.
Section Handlers.
Context {B : Builtins}.

Definition adminUser_username : string := "Owner".
Definition adminUser_passwordHash : string :=
  "$2a$10$Yk.2KdOdPUENankA9Y.p8.oRkqAO0vQfJB.msmQG4Fh.tLopedroW".

Definition unauthorized : Response := respond 401 (obj1 "error" (JStr "Unauthorized")).

(** [if (req.session && req.session.admin) return next();] *)
Definition adminAuth : Middleware :=
  fun req =>
    emit EvGuard ;;
    match session req with
    | Some s => if truthy (session_admin s) then ret Next else ret (Done unauthorized)
    | None => ret (Done unauthorized)
    end.

Definition login (req : Req) : Eff Response :=
  try_catch
    (let* b := destructure req in
     let username := get_prop b "username" in
     let password := get_prop b "password" in
     if negb (strict_eq_str username adminUser_username) then
       ret (respond 401 (obj1 "success" (JBool false)))
     else
       let* matched := of_option (bcrypt_compare password adminUser_passwordHash) in
       if negb matched then
         ret (respond 401 (obj1 "success" (JBool false)))
       else
         let* i := save_admin (session req) in
         ret {| code := 200; json := obj1 "success" (JBool true);
                cookie_op := CookieSet i |})
    (ret (respond 500 (obj1 "success" (JBool false)))).

Definition logout (req : Req) : Eff Response :=
  destroy_session (session req) ;;
  ret {| code := 200; json := obj1 "success" (JBool true);
         cookie_op := CookieCleared |}.

Definition get_pizzas (_ : Req) : Eff Response :=
  try_catch
    (let* r := pool_query SelectPizzas in
     ret (respond 200 (JArr (rows r))))
    (ret (respond 500 (JArr []))).

Definition post_pizzas (req : Req) : Eff Response :=
  try_catch
    (let* b := destructure req in
     let name := get_prop b "name" in
     let price := get_prop b "price" in
     let image := get_prop b "image" in
     if negb (truthy name) || negb (truthy price) || negb (truthy image) then
       ret (respond 400 (obj1 "error" (JStr "Missing fields")))
     else
       pool_query (InsertPizza name (js_Number price) image) ;;
       ret (respond 200 (obj1 "success" (JBool true))))
    (ret (respond 500 (obj1 "error" (JStr "Failed to add pizza")))).

Definition delete_pizza (req : Req) : Eff Response :=
  try_catch
    (pool_query (DeletePizza (params_id req)) ;;
     ret (respond 200 (obj1 "success" (JBool true))))
    (ret (respond 500 (obj1 "success" (JBool false)))).

(** [{ ...o, items: typeof o.items === "string" ? JSON.parse(o.items) : o.items }] *)
Definition fix_items (o : JsValue) : option JsValue :=
  if destructurable o then
    let it := get_prop o "items" in
    match it with
    | JStr s => v ← JSON_parse s; Some (spread_with o "items" v)
    | _ => Some (spread_with o "items" it)
    end
  else None.

Definition get_orders (_ : Req) : Eff Response :=
  try_catch
    (let* r := pool_query SelectOrders in
     let* fixed := of_option (mapM fix_items (rows r)) in
     ret (respond 200 (JArr fixed)))
    (ret (respond 500 (JArr []))).

Definition post_orders (req : Req) : Eff Response :=
  try_catch
    (let* b := destructure req in
     let name := get_prop b "name" in
     let phone := get_prop b "phone" in
     let address := get_prop b "address" in
     let items := get_prop b "items" in
     let total := get_prop b "total" in
     let paymentMethod := get_prop b "paymentMethod" in
     let payment_method := js_or paymentMethod (JStr "COD") in
     let payment_status :=
       if strict_eq_str payment_method "COD" then JStr "Paid" else JStr "Pending" in
     let* r := pool_query
                 (InsertOrder name phone address (JSON_stringify items) total
                    payment_method payment_status) in
     let* i := first_row_id r in
     ret (respond 200
            (JObj [("orderId", i);
                   ("paymentRequired", JBool (negb (strict_eq_str payment_method "COD")))])))
    (ret (respond 500 (obj1 "success" (JBool false)))).

Definition patch_order (req : Req) : Eff Response :=
  try_catch
    (let* b := destructure req in
     let payment_status := get_prop b "payment_status" in
     pool_query (UpdateOrderPaymentStatus payment_status (params_id req)) ;;
     ret (respond 200 (obj1 "success" (JBool true))))
    (ret (respond 500 (obj1 "success" (JBool false)))).

Definition delete_order (req : Req) : Eff Response :=
  try_catch
    (pool_query (DeleteOrder (params_id req)) ;;
     ret (respond 200 (obj1 "success" (JBool true))))
    (ret (respond 500 (obj1 "success" (JBool false)))).

Definition get_messages (_ : Req) : Eff Response :=
  try_catch
    (let* r := pool_query SelectMessages in
     ret (respond 200 (JArr (rows r))))
    (ret (respond 500 (JArr []))).

Definition post_messages (req : Req) : Eff Response :=
  try_catch
    (let* b := destructure req in
     let name := get_prop b "name" in
     let email := get_prop b "email" in
     let message := get_prop b "message" in
     pool_query (InsertMessage name email message) ;;
     ret (respond 200 (obj1 "success" (JBool true))))
    (ret (respond 500 (obj1 "success" (JBool false)))).

Definition health (_ : Req) : Eff Response :=
  ret (respond 200 (obj1 "status" (JStr "ok"))).

(** The route registrations, in source order. *)
Definition app : list Route :=
  [ {| route_method := POST; route_path := [Lit "admin"; Lit "login"];
       route_chain := [final login] |};
    {| route_method := POST; route_path := [Lit "admin"; Lit "logout"];
       route_chain := [final logout] |};
    {| route_method := GET; route_path := [Lit "api"; Lit "pizzas"];
       route_chain := [final get_pizzas] |};
    {| route_method := POST; route_path := [Lit "api"; Lit "pizzas"];
       route_chain := [adminAuth; final post_pizzas] |};
    {| route_method := DELETE; route_path := [Lit "api"; Lit "pizzas"; Param];
       route_chain := [adminAuth; final delete_pizza] |};
    {| route_method := GET; route_path := [Lit "api"; Lit "orders"];
       route_chain := [adminAuth; final get_orders] |};
    {| route_method := POST; route_path := [Lit "api"; Lit "orders"];
       route_chain := [final post_orders] |};
    {| route_method := PATCH; route_path := [Lit "api"; Lit "orders"; Param];
       route_chain := [adminAuth; final patch_order] |};
    {| route_method := DELETE; route_path := [Lit "api"; Lit "orders"; Param];
       route_chain := [adminAuth; final delete_order] |};
    {| route_method := GET; route_path := [Lit "api"; Lit "messages"];
       route_chain := [adminAuth; final get_messages] |};
    {| route_method := POST; route_path := [Lit "api"; Lit "messages"];
       route_chain := [final post_messages] |};
    {| route_method := GET; route_path := [Lit "health"];
       route_chain := [final health] |} ].

End Handlers.
End Server.

(** ** The revisions of [server.js] in [src/unnamed/part_000] *)

(** First revision (lines 60-265): the guard and the order listing. *)
Module Rev1.
Section Handlers.
Context {B : Builtins}.

(** [req.session.admin === true] *)
Definition strict_true (v : JsValue) : bool :=
  match v with JBool true => true | _ => false end.

(** [if (req.session.admin === true) return next();] *)
Definition adminAuth : Middleware :=
  fun req =>
    emit EvGuard ;;
    let* s := of_option (session req) in
    if strict_true (session_admin s) then ret Next
    else ret (Done (respond 401 (obj1 "success" (JBool false)))).

Definition get_orders (_ : Req) : Eff Response :=
  try_catch
    (let* r := pool_query SelectOrders in
     ret (respond 200 (JArr (rows r))))
    (ret (respond 500 (obj1 "error" (JStr "Database error")))).

End Handlers.
End Rev1.

(** Second revision (lines 266-476): destructuring happens before the
    [try], the payment confirmation is public, updates answer 404 when no
    row matched. *)
Module Rev2.
Section Handlers.
Context {B : Builtins}.

Definition adminUser_username : string := "Owner".
Definition adminUser_passwordHash : string :=
  "$2a$10$Yk.2KdOdPUENankA9Y.p8.oRkqAO0vQfJB.msmQG4Fh.tLopedroW".

Definition database_error : Response := respond 500 (obj1 "error" (JStr "Database error")).

(** [if (req.session.admin) return next();] *)
Definition adminAuth : Middleware :=
  fun req =>
    emit EvGuard ;;
    let* s := of_option (session req) in
    if truthy (session_admin s) then ret Next
    else ret (Done (respond 401 (obj1 "success" (JBool false)))).

Definition login (req : Req) : Eff Response :=
  let* b := destructure req in
  let username := get_prop b "username" in
  let password := get_prop b "password" in
  let denied := ret (respond 401 (obj1 "success" (JBool false))) in
  if strict_eq_str username adminUser_username then
    let* matched := of_option (bcrypt_compare password adminUser_passwordHash) in
    if matched : bool then
      let* i := save_admin (session req) in
      ret {| code := 200; json := obj1 "success" (JBool true);
             cookie_op := CookieSet i |}
    else denied
  else denied.

Definition logout (req : Req) : Eff Response :=
  destroy_session (session req) ;;
  ret (respond 200 (obj1 "success" (JBool true))).

Definition get_pizzas (_ : Req) : Eff Response :=
  try_catch
    (let* r := pool_query SelectPizzas in
     ret (respond 200 (JArr (rows r))))
    (ret database_error).

Definition post_pizzas (req : Req) : Eff Response :=
  let* b := destructure req in
  let name := get_prop b "name" in
  let price := get_prop b "price" in
  let image := get_prop b "image" in
  try_catch
    (pool_query (InsertPizza name (js_Number price) image) ;;
     ret (respond 200 (obj1 "message" (JStr "Pizza added"))))
    (ret database_error).

Definition delete_pizza (req : Req) : Eff Response :=
  try_catch
    (pool_query (DeletePizza (params_id req)) ;;
     ret (respond 200 (obj1 "message" (JStr "Deleted"))))
    (ret database_error).

Definition get_orders (_ : Req) : Eff Response :=
  try_catch
    (let* r := pool_query SelectOrders in
     ret (respond 200 (JArr (rows r))))
    (ret database_error).

Definition post_orders (req : Req) : Eff Response :=
  let* b := destructure req in
  let name := get_prop b "name" in
  let phone := get_prop b "phone" in
  let address := get_prop b "address" in
  let items := get_prop b "items" in
  let total := get_prop b "total" in
  let paymentMethod := get_prop b "paymentMethod" in
  let paymentStatus :=
    if strict_eq_str paymentMethod "COD" then JStr "COD" else JStr "Pending" in
  try_catch
    (let* r := pool_query
                 (InsertOrder name phone address (JSON_stringify items) total
                    paymentMethod paymentStatus) in
     let* i := first_row_id r in
     ret (respond 200
            (JObj [("orderId", i);
                   ("paymentRequired", JBool (negb (strict_eq_str paymentMethod "COD")))])))
    (ret database_error).

(** [const { transactionId = "N/A" } = req.body]: the default applies to
    [undefined] only. *)
Definition or_default (v d : JsValue) : JsValue :=
  match v with JUndefined => d | _ => v end.

Definition confirm_payment (req : Req) : Eff Response :=
  let* b := destructure req in
  let transactionId := or_default (get_prop b "transactionId") (JStr "N/A") in
  try_catch
    (let* r := pool_query (ConfirmPayment transactionId (params_id req)) in
     if Nat.eqb (rowCount r) 0 then ret (respond 404 (obj1 "success" (JBool false)))
     else ret (respond 200 (obj1 "success" (JBool true))))
    (ret database_error).

Definition patch_order (req : Req) : Eff Response :=
  let* b := destructure req in
  let status := get_prop b "status" in
  try_catch
    (let* r := pool_query (UpdateOrderStatus status (params_id req)) in
     if Nat.eqb (rowCount r) 0 then ret (respond 404 (obj1 "success" (JBool false)))
     else ret (respond 200 (obj1 "success" (JBool true))))
    (ret database_error).

Definition delete_order (req : Req) : Eff Response :=
  try_catch
    (pool_query (DeleteOrder (params_id req)) ;;
     ret (respond 200 (obj1 "message" (JStr "Deleted"))))
    (ret database_error).

Definition get_messages (_ : Req) : Eff Response :=
  try_catch
    (let* r := pool_query SelectMessages in
     ret (respond 200 (JArr (rows r))))
    (ret database_error).

Definition post_messages (req : Req) : Eff Response :=
  let* b := destructure req in
  let name := get_prop b "name" in
  let email := get_prop b "email" in
  let message := get_prop b "message" in
  try_catch
    (pool_query (InsertMessage name email message) ;;
     ret (respond 200 (obj1 "message" (JStr "Saved"))))
    (ret database_error).

Definition delete_message (req : Req) : Eff Response :=
  try_catch
    (pool_query (DeleteMessage (params_id req)) ;;
     ret (respond 200 (obj1 "message" (JStr "Deleted"))))
    (ret database_error).

Definition app : list Route :=
  [ {| route_method := POST; route_path := [Lit "admin"; Lit "login"];
       route_chain := [final login] |};
    {| route_method := POST; route_path := [Lit "admin"; Lit "logout"];
       route_chain := [final logout] |};
    {| route_method := GET; route_path := [Lit "api"; Lit "pizzas"];
       route_chain := [final get_pizzas] |};
    {| route_method := POST; route_path := [Lit "api"; Lit "pizzas"];
       route_chain := [adminAuth; final post_pizzas] |};
    {| route_method := DELETE; route_path := [Lit "api"; Lit "pizzas"; Param];
       route_chain := [adminAuth; final delete_pizza] |};
    {| route_method := GET; route_path := [Lit "api"; Lit "orders"];
       route_chain := [adminAuth; final get_orders] |};
    {| route_method := POST; route_path := [Lit "api"; Lit "orders"];
       route_chain := [final post_orders] |};
    {| route_method := POST; route_path := [Lit "api"; Lit "confirm-payment"; Param];
       route_chain := [final confirm_payment] |};
    {| route_method := PATCH; route_path := [Lit "api"; Lit "orders"; Param];
       route_chain := [adminAuth; final patch_order] |};
    {| route_method := DELETE; route_path := [Lit "api"; Lit "orders"; Param];
       route_chain := [adminAuth; final delete_order] |};
    {| route_method := GET; route_path := [Lit "api"; Lit "messages"];
       route_chain := [adminAuth; final get_messages] |};
    {| route_method := POST; route_path := [Lit "api"; Lit "messages"];
       route_chain := [final post_messages] |};
    {| route_method := DELETE; route_path := [Lit "api"; Lit "messages"; Param];
       route_chain := [adminAuth; final delete_message] |} ].

End Handlers.
End Rev2.

(** Third revision (lines 477-722): a password hash of its own, a guard
    that reads [req.session.admin] directly, and the message deletion;
    its other handlers read as those of [src/server.js]. *)
Module Rev3.
Section Handlers.
Context {B : Builtins}.

Definition adminUser_username : string := "Owner".
Definition adminUser_passwordHash : string :=
  "$2a$12$eJsy0AZdlsajWH4wCXGKD.1ZQ5b6xe9PGRwG6HlgTcddSKP3rEpnC".

Definition login (req : Req) : Eff Response :=
  try_catch
    (let* b := destructure req in
     let username := get_prop b "username" in
     let password := get_prop b "password" in
     if negb (strict_eq_str username adminUser_username) then
       ret (respond 401 (obj1 "success" (JBool false)))
     else
       let* matched := of_option (bcrypt_compare password adminUser_passwordHash) in
       if negb matched then
         ret (respond 401 (obj1 "success" (JBool false)))
       else
         let* i := save_admin (session req) in
         ret {| code := 200; json := obj1 "success" (JBool true);
                cookie_op := CookieSet i |})
    (ret (respond 500 (obj1 "success" (JBool false)))).

(** [if (req.session.admin) return next();] *)
Definition adminAuth : Middleware :=
  fun req =>
    emit EvGuard ;;
    let* s := of_option (session req) in
    if truthy (session_admin s) then ret Next else ret (Done Server.unauthorized).

Definition delete_message (req : Req) : Eff Response :=
  try_catch
    (pool_query (DeleteMessage (params_id req)) ;;
     ret (respond 200 (obj1 "success" (JBool true))))
    (ret (respond 500 (obj1 "success" (JBool false)))).

Definition app : list Route :=
  [ {| route_method := POST; route_path := [Lit "admin"; Lit "login"];
       route_chain := [final login] |};
    {| route_method := POST; route_path := [Lit "admin"; Lit "logout"];
       route_chain := [final Server.logout] |};
    {| route_method := GET; route_path := [Lit "api"; Lit "pizzas"];
       route_chain := [final Server.get_pizzas] |};
    {| route_method := POST; route_path := [Lit "api"; Lit "pizzas"];
       route_chain := [adminAuth; final Server.post_pizzas] |};
    {| route_method := DELETE; route_path := [Lit "api"; Lit "pizzas"; Param];
       route_chain := [adminAuth; final Server.delete_pizza] |};
    {| route_method := POST; route_path := [Lit "api"; Lit "orders"];
       route_chain := [final Server.post_orders] |};
    {| route_method := GET; route_path := [Lit "api"; Lit "orders"];
       route_chain := [adminAuth; final Server.get_orders] |};
    {| route_method := PATCH; route_path := [Lit "api"; Lit "orders"; Param];
       route_chain := [adminAuth; final Server.patch_order] |};
    {| route_method := DELETE; route_path := [Lit "api"; Lit "orders"; Param];
       route_chain := [adminAuth; final Server.delete_order] |};
    {| route_method := POST; route_path := [Lit "api"; Lit "messages"];
       route_chain := [final Server.post_messages] |};
    {| route_method := GET; route_path := [Lit "api"; Lit "messages"];
       route_chain := [adminAuth; final Server.get_messages] |};
    {| route_method := DELETE; route_path := [Lit "api"; Lit "messages"; Param];
       route_chain := [adminAuth; final delete_message] |};
    {| route_method := GET; route_path := [Lit "health"];
       route_chain := [final Server.health] |} ].

End Handlers.
End Rev3.

(** ** A concrete runtime for closed examples

    Executable stand-ins for the library functions, used by the closed
    examples only; every theorem is stated for an arbitrary [Builtins].
    Numbers are the decimal numbers a JSON text denotes, printed with all
    their digits. *)

Module Runtime.

Definition decimal (n : Z) : string := NilZero.string_of_int (Z.to_int n).

Fixpoint zeros (n : nat) : string :=
  match n with O => "" | S m => String "0" (zeros m) end.

(** *** [Number.prototype.toString] *)

(** The least [k] from [k0] on with [d] dividing [10 ^ k]. *)
Fixpoint decimal_places (fuel : nat) (d k : Z) : option Z :=
  match fuel with
  | O => None
  | S n => if (10 ^ k) mod d =? 0 then Some k else decimal_places n d (k + 1)
  end.

(** [m = s * 10 ^ t] with [s] not a multiple of ten. *)
Fixpoint strip_zeros (fuel : nat) (m t : Z) : Z * Z :=
  match fuel with
  | O => (m, t)
  | S n =>
      if (m mod 10 =? 0) && negb (m =? 0) then strip_zeros n (m / 10) (t + 1)
      else (m, t)
  end.

Definition sub (from len : Z) (s : string) : string :=
  String.substring (Z.to_nat from) (Z.to_nat len) s.

(** The digits [ds] of a number [0.ds * 10 ^ n], laid out as the
    language prescribes. *)
Definition layout (ds : string) (n : Z) : string :=
  let k := Z.of_nat (String.length ds) in
  if (k <=? n) && (n <=? 21) then (ds ++ zeros (Z.to_nat (n - k)))%string
  else if (0 <? n) && (n <=? 21) then (sub 0 n ds ++ "." ++ sub n (k - n) ds)%string
  else if (-6 <? n) && (n <=? 0) then ("0." ++ zeros (Z.to_nat (- n)) ++ ds)%string
  else
    let e := n - 1 in
    let sg := if 0 <=? e then "+" else "-" in
    let es := (sg ++ decimal (Z.abs e))%string in
    if k =? 1 then (ds ++ "e" ++ es)%string
    else (sub 0 1 ds ++ "." ++ sub 1 (k - 1) ds ++ "e" ++ es)%string.

(** A rational with no finite decimal expansion, which no JSON text
    denotes, is cut after 17 places. *)
Definition print_rational (q : Q) : string :=
  let d := Zpos (Qden q) in
  let k0 := default 17 (decimal_places (S (Pos.size_nat (Qden q))) d 0) in
  let m := Z.abs (Qnum q) * 10 ^ k0 / d in
  if m =? 0 then "0"
  else
    let '(s, t) := strip_zeros (String.length (decimal m)) m 0 in
    let ds := decimal s in
    let sg := if Qnum q <? 0 then "-" else "" in
    (sg ++ layout ds (Z.of_nat (String.length ds) + t - k0))%string.

Definition number_toString (n : JsNumber) : string :=
  match n with
  | Finite q => print_rational q
  | NaN => "NaN"
  | Infinity false => "Infinity"
  | Infinity true => "-Infinity"
  end.

(** *** [JSON.stringify] *)

Definition hex_digit (n : Z) : ascii :=
  if n <? 10 then Json.chr (48 + n) else Json.chr (87 + n).

Definition u_escape (cp : Z) : string :=
  String "\" (String "u"
    (String (hex_digit (cp / 4096)) (String (hex_digit ((cp / 256) mod 16))
      (String (hex_digit ((cp / 16) mod 16)) (String (hex_digit (cp mod 16)) ""))))).

(** Quote, backslash and the control characters are escaped; so is a code
    unit of a surrogate pair that stands alone. *)
Fixpoint escape (s : string) : string :=
  match s with
  | EmptyString => ""
  | String c r =>
      let n := Json.code c in
      if (c =? dquote)%char then String "\" (String dquote (escape r))
      else if (c =? "\")%char then String "\" (String "\" (escape r))
      else if n =? 8 then String "\" (String "b" (escape r))
      else if n =? 9 then String "\" (String "t" (escape r))
      else if n =? 10 then String "\" (String "n" (escape r))
      else if n =? 12 then String "\" (String "f" (escape r))
      else if n =? 13 then String "\" (String "r" (escape r))
      else if n <? 32 then (u_escape n ++ escape r)%string
      else
        match r with
        | String c2 (String c3 r3) =>
            let unit := 53248 + (Json.code c2 - 128) * 64 + (Json.code c3 - 128) in
            if high_surrogate c c2 c3 then
              match r3 with
              | String d (String e (String f r6)) =>
                  if low_surrogate d e f
                  then String c (String c2 (String c3
                         (String d (String e (String f (escape r6))))))
                  else (u_escape unit ++ escape r3)%string
              | _ => (u_escape unit ++ escape r3)%string
              end
            else if low_surrogate c c2 c3 then (u_escape unit ++ escape r3)%string
            else String c (escape r)
        | _ => String c (escape r)
        end
  end.

Definition quote (s : string) : string :=
  String dquote (escape s ++ String dquote "").

(** A property whose value is [undefined] is left out; in an array
    [undefined] is printed as [null].  Properties are printed in the order
    in which the object holds them. *)
Fixpoint print (v : JsValue) : string :=
  match v with
  | JUndefined | JNull => "null"
  | JBool true => "true"
  | JBool false => "false"
  | JNum q => print_rational q
  | JStr s => quote s
  | JArr xs =>
      ("[" ++
       (fix go (l : list JsValue) : string :=
          match l with
          | [] => ""
          | [x] => print x
          | x :: r => print x ++ "," ++ go r
          end) xs ++ "]")%string
  | JObj fs =>
      ("{" ++
       (fix go (first : bool) (l : list (string * JsValue)) : string :=
          match l with
          | [] => ""
          | (k, x) :: r =>
              match x with
              | JUndefined => go first r
              | _ => (if first then "" else ",") ++ quote k ++ ":" ++ print x
                     ++ go false r
              end
          end) true fs ++ "}")%string
  end.

Definition stringify (v : JsValue) : JsValue :=
  match v with JUndefined => JUndefined | _ => JStr (print v) end.

(** *** [Number] *)

(** One white space or line terminator at the head of a text. *)
Definition after_space (s : string) : option string :=
  match s with
  | String c r =>
      let n := Json.code c in
      if (n =? 32) || ((9 <=? n) && (n <=? 13)) then Some r
      else
        match r with
        | String c2 r2 =>
            let n2 := Json.code c2 in
            if (n =? 194) && (n2 =? 160) then Some r2
            else
              match r2 with
              | String c3 r3 =>
                  let n3 := Json.code c3 in
                  if (n =? 225) && (n2 =? 154) && (n3 =? 128) then Some r3
                  else if (n =? 226) && (n2 =? 128) &&
                          (((128 <=? n3) && (n3 <=? 138)) || (n3 =? 168) || (n3 =? 169)
                           || (n3 =? 175)) then Some r3
                  else if (n =? 226) && (n2 =? 129) && (n3 =? 159) then Some r3
                  else if (n =? 227) && (n2 =? 128) && (n3 =? 128) then Some r3
                  else if (n =? 239) && (n2 =? 187) && (n3 =? 191) then Some r3
                  else None
              | EmptyString => None
              end
        | EmptyString => None
        end
  | EmptyString => None
  end.

Fixpoint skip_spaces (fuel : nat) (s : string) : string :=
  match fuel with
  | O => s
  | S n => match after_space s with Some r => skip_spaces n r | None => s end
  end.

Definition trim_start (s : string) : string := skip_spaces (String.length s) s.

(** A maximal run of digits of the base [b]. *)
Fixpoint digits_of (b : Z) (s : string) : list Z * string :=
  match s with
  | EmptyString => ([], s)
  | String c r =>
      match Json.hex_val c with
      | Some d =>
          if d <? b then let '(ds, rest) := digits_of b r in (d :: ds, rest)
          else ([], s)
      | None => ([], s)
      end
  end.

Definition of_base (b : Z) (ds : list Z) : Z := fold_left (fun acc d => acc * b + d) ds 0.

Definition prefixed (s : string) : option (JsNumber * string) :=
  match s with
  | String z (String x r) =>
      if (z =? "0")%char then
        let b := if (x =? "x")%char || (x =? "X")%char then 16
                 else if (x =? "o")%char || (x =? "O")%char then 8
                 else if (x =? "b")%char || (x =? "B")%char then 2
                 else 0 in
        if b =? 0 then None
        else
          let '(ds, rest) := digits_of b r in
          match ds with
          | [] => None
          | _ => Some (Finite (of_base b ds # 1), rest)
          end
      else None
  | _ => None
  end.

(** An exponent part, if one follows. *)
Definition exponent_part (s : string) : Z * string :=
  match s with
  | String c r =>
      if (c =? "e")%char || (c =? "E")%char then
        let '(sg, r1) := Json.sign r in
        let '(es, r2) := Json.digits r1 in
        match es with [] => (0, s) | _ => (sg * Json.of_digits es, r2) end
      else (0, s)
  | EmptyString => (0, s)
  end.

(** Digits with an optional fraction, or a fraction alone, and an optional
    exponent: the mantissa, the number of places to shift it, the number
    of digits after the point, and the rest of the text. *)
Definition decimal_digits (s : string) : option (Z * Z * nat * string) :=
  let '(ds, s1) := Json.digits s in
  let '(fs, s2) :=
    match s1 with
    | String c r => if (c =? ".")%char then Json.digits r else ([], s1)
    | EmptyString => ([], s1)
    end in
  match ds, fs with
  | [], [] => None
  | _, _ =>
      let '(e, s3) := exponent_part s2 in
      Some (Json.of_digits (ds ++ fs), e - Z.of_nat (length fs), length fs, s3)
  end.

Definition signed_literal (s : string) : option (JsNumber * string) :=
  let '(sg, s1) := Json.sign s in
  if String.prefix "Infinity" s1 then
    Some (Infinity (sg =? -1), String.substring 8 (String.length s1 - 8) s1)
  else
    match decimal_digits s1 with
    | Some (m, k, _, rest) => Some (Finite (Json.scale10 (sg * m) k), rest)
    | None => None
    end.

Definition string_to_number (s : string) : JsNumber :=
  match trim_start s with
  | EmptyString => Finite 0
  | s1 =>
      match (match prefixed s1 with Some r => Some r | None => signed_literal s1 end) with
      | Some (n, rest) =>
          match trim_start rest with EmptyString => n | String _ _ => NaN end
      | None => NaN
      end
  end.

(** [String(v)], as an array's [toString] joins its elements. *)
Fixpoint to_string (v : JsValue) : string :=
  match v with
  | JUndefined => "undefined"
  | JNull => "null"
  | JBool true => "true"
  | JBool false => "false"
  | JNum q => print_rational q
  | JStr s => s
  | JArr xs =>
      (fix go (l : list JsValue) : string :=
         match l with
         | [] => ""
         | x :: r =>
             (match x with JUndefined | JNull => "" | _ => to_string x end ++
              match r with [] => "" | _ :: _ => "," ++ go r end)%string
         end) xs
  | JObj _ => "[object Object]"
  end.

Definition to_number (v : JsValue) : JsNumber :=
  match v with
  | JUndefined => NaN
  | JNull => Finite 0
  | JBool true => Finite 1
  | JBool false => Finite 0
  | JNum q => Finite q
  | JStr s => string_to_number s
  | JArr _ => string_to_number (to_string v)
  | JObj _ => NaN
  end.

(** *** The store's [NUMERIC]

    Blanks, a sign, digits with an optional fraction and exponent, or one
    of the names [NaN] and [Infinity]; the number is printed with as many
    places as it was written with. *)

Definition lower (c : ascii) : ascii :=
  let n := Json.code c in if (65 <=? n) && (n <=? 90) then Json.chr (n + 32) else c.

Fixpoint lowercase (s : string) : string :=
  match s with
  | EmptyString => ""
  | String c r => String (lower c) (lowercase r)
  end.

Definition pad_left (n : nat) (s : string) : string :=
  (zeros (n - String.length s) ++ s)%string.

Definition print_numeric (negative : bool) (m k : Z) : string :=
  let body :=
    if 0 <=? k then decimal (m * 10 ^ k)
    else
      let p := 10 ^ (- k) in
      (decimal (m / p) ++ "." ++ pad_left (Z.to_nat (- k)) (decimal (m mod p)))%string in
  let sg := if negative && negb (m =? 0) then "-" else "" in
  (sg ++ body)%string.

Definition numeric (s : string) : option string :=
  let s0 := trim_left s in
  let name := lowercase s0 in
  let '(sg, s1) := Json.sign s0 in
  let named (n : string) (len : nat) (out : string) : option string :=
    if String.prefix n (lowercase s1) &&
       all_space (String.substring len (String.length s1 - len) s1)
    then Some out else None in
  if String.prefix "nan" name &&
     all_space (String.substring 3 (String.length s0 - 3) s0) then Some "NaN"
  else
    match named "infinity" 8%nat (if sg =? -1 then "-Infinity" else "Infinity") with
    | Some out => Some out
    | None =>
        match named "inf" 3%nat (if sg =? -1 then "-Infinity" else "Infinity") with
        | Some out => Some out
        | None =>
            match decimal_digits s1 with
            | Some (m, k, _, rest) =>
                if all_space rest
                then Some (print_numeric (sg =? -1) m k)
                else None
            | None => None
            end
        end
    end.

(** *** The JSON form of a [Date]

    The timestamp counts milliseconds from the epoch, in UTC; the years
    are those of four digits. *)

Definition pad (n : nat) (v : Z) : string := pad_left n (decimal v).

Definition to_ISO (t : Z) : string :=
  let days := t / 86400000 in
  let ms := t mod 86400000 in
  let z := days + 719468 in
  let era := z / 146097 in
  let doe := z - era * 146097 in
  let yoe := (doe - doe / 1460 + doe / 36524 - doe / 146096) / 365 in
  let doy := doe - (365 * yoe + yoe / 4 - yoe / 100) in
  let mp := (5 * doy + 2) / 153 in
  let d := doy - (153 * mp + 2) / 5 + 1 in
  let m := if mp <? 10 then mp + 3 else mp - 9 in
  let y := yoe + era * 400 + (if m <=? 2 then 1 else 0) in
  (pad 4 y ++ "-" ++ pad 2 m ++ "-" ++ pad 2 d ++ "T" ++
   pad 2 (ms / 3600000) ++ ":" ++ pad 2 ((ms / 60000) mod 60) ++ ":" ++
   pad 2 ((ms / 1000) mod 60) ++ "." ++ pad 3 (ms mod 1000) ++ "Z")%string.

(** *** [bcrypt.compare]

    The promise rejects unless the password is a string.  The hash of
    [src/server.js] is the hash of the password below (the comment beside
    it in the source names another one, which it does not match); for a
    hash outside the table no password is known, and each one is
    refused. *)

Definition known_passwords : list (string * string) :=
  [ (Server.adminUser_passwordHash, "Atif123") ].

Definition compare (password : JsValue) (hash : string) : option bool :=
  match password with
  | JStr s =>
      Some (existsb (fun hp => String.eqb (fst hp) hash && String.eqb (snd hp) s)
              known_passwords)
  | _ => None
  end.

Definition builtins : Builtins :=
  {| bcrypt_compare := compare; js_Number := to_number; JSON_stringify := stringify;
     Number_toString := number_toString; numeric_in := numeric; Date_toJSON := to_ISO |}.

End Runtime.

(** * Vocabulary of the statements *)

(** ** Responses the handlers send *)

Definition success : Response := respond 200 (obj1 "success" (JBool true)).
Definition failure : Response := respond 500 (obj1 "success" (JBool false)).
Definition login_denied : Response := respond 401 (obj1 "success" (JBool false)).
Definition missing_fields : Response := respond 400 (obj1 "error" (JStr "Missing fields")).

Definition paymentRequired (r : Response) : JsValue :=
  get_prop (json r) "paymentRequired".

(** ** Requests as the routes receive them *)

(** The request the session middleware hands to the handlers. *)
Definition incoming (w : World) (cookie : option positive) (b : JsValue) (i : string) : Req :=
  {| body := b; params_id := i; session := Some (load_session w cookie) |}.

Definition post_pizzas_request (b : JsValue) (cookie : option positive) : HttpRequest :=
  {| http_method := POST; http_path := ["api"; "pizzas"]; http_body := b;
     http_cookie := cookie |}.

Definition confirm_request (i : string) (b : JsValue) (cookie : option positive)
  : HttpRequest :=
  {| http_method := POST; http_path := ["api"; "confirm-payment"; i];
     http_body := b; http_cookie := cookie |}.

(** The catalog, order and message operations of the API. *)
Inductive Endpoint :=
| CatalogList | CatalogCreate | CatalogDelete
| OrderList | OrderCreate | OrderUpdate | OrderDelete
| MessageList | MessageCreate | MessageDelete.

Definition privileged (e : Endpoint) : bool :=
  match e with
  | CatalogCreate | CatalogDelete
  | OrderList | OrderUpdate | OrderDelete
  | MessageList | MessageDelete => true
  | CatalogList | OrderCreate | MessageCreate => false
  end.

Definition endpoint_request (e : Endpoint) (i : string) (b : JsValue)
    (cookie : option positive) : HttpRequest :=
  let '(m, p) :=
    match e with
    | CatalogList => (GET, ["api"; "pizzas"])
    | CatalogCreate => (POST, ["api"; "pizzas"])
    | CatalogDelete => (DELETE, ["api"; "pizzas"; i])
    | OrderList => (GET, ["api"; "orders"])
    | OrderCreate => (POST, ["api"; "orders"])
    | OrderUpdate => (PATCH, ["api"; "orders"; i])
    | OrderDelete => (DELETE, ["api"; "orders"; i])
    | MessageList => (GET, ["api"; "messages"])
    | MessageCreate => (POST, ["api"; "messages"])
    | MessageDelete => (DELETE, ["api"; "messages"; i])
    end in
  {| http_method := m; http_path := p; http_body := b; http_cookie := cookie |}.

(** ** Sessions and the guard *)

(** The cookie names a stored, unexpired session whose [admin] is [true]. *)
Definition admin_session (w : World) (cookie : option positive) : Prop :=
  exists i s,
    cookie = Some i /\ sessions w !! i = Some s /\
    clock w < expires s /\ admin s = JBool true.

(** The [admin] property of every stored session is a boolean, or absent. *)
Definition is_flag (v : JsValue) : bool :=
  match v with JBool _ | JUndefined => true | _ => false end.

Definition sessions_typed (w : World) : Prop :=
  map_Forall (fun _ s => is_flag (admin s) = true) (sessions w).

Definition keeps_typed (w w' : World) : Prop :=
  sessions_typed w -> sessions_typed w'.

(** The state after the guard ran, and after a statement that changed
    nothing. *)
Definition guard_ran (w : World) : World :=
  {| db := db w; sessions := sessions w; clock := clock w;
     trace := trace w ++ [EvGuard] |}.

Definition after_query (q : Sql) (w : World) : World :=
  {| db := db w; sessions := sessions w; clock := clock w;
     trace := trace w ++ [EvQuery q] |}.

(** ** Traces *)

(** [steps R m]: from every state, running [m] leads to an [R]-related
    state. *)
Definition steps (R : World -> World -> Prop) {A} (m : Eff A) : Prop :=
  forall w, R w (snd (m w)).

Definition is_query (e : Event) : Prop :=
  match e with EvQuery _ => True | EvGuard => False end.

(** The state moved on by store queries only: no guard ran. *)
Definition queried (w w' : World) : Prop :=
  exists t, trace w' = trace w ++ t /\ Forall is_query t.

(** The guard was the first thing that happened, with only store queries
    after it. *)
Definition guard_first (w w' : World) : Prop :=
  exists t, trace w' = trace w ++ EvGuard :: t /\ Forall is_query t.

(** In [app], every privileged endpoint that is registered runs the guard
    first, and no public endpoint runs it. *)
Definition guards (app : list Route) (registered : Endpoint -> Prop) : Prop :=
  forall e i b cookie w,
    let w' := snd (dispatch app (endpoint_request e i b cookie) w) in
    (privileged e = true -> registered e -> guard_first w w') /\
    (privileged e = false -> queried w w').

(** A guard middleware: it logs itself and answers without throwing. *)
Definition guard_step (g : Middleware) : Prop :=
  forall req w s,
    session req = Some s ->
    exists st, g req w = (Ok st, guard_ran w).

Definition chain_keeps_typed (r : Route) : Prop :=
  Forall (fun m : Middleware => forall req, steps keeps_typed (m req)) (route_chain r).

(** ** Rows *)

(** The order appended by a request that took the state from [w] to [w']. *)
Definition created (w w' : World) (o : Order) : Prop :=
  orders (db w') = orders (db w) ++ [o].

(** No row of the table has the key that the text [i] denotes. *)
Definition no_pizza (i : string) (d : DB) : Prop :=
  forall k, pg_int i = Some k -> Forall (fun p => pz_id p <> k) (pizzas d).
Definition no_order (i : string) (d : DB) : Prop :=
  forall k, pg_int i = Some k -> Forall (fun o => id o <> k) (orders d).
Definition no_message (i : string) (d : DB) : Prop :=
  forall k, pg_int i = Some k -> Forall (fun m => msg_id m <> k) (messages d).

(** The store is reachable and accepts [i] as a key. *)
Definition executes (i : string) (d : DB) : bool :=
  online d && match pg_int i with Some _ => true | None => false end.




(** The store accepts the values of a new order: each one fits the type
    of its column. *)
Definition order_accepted {B : Builtins} (n p a i t pm : JsValue) : Prop :=
  is_Some (as_varchar 100 (prepareValue n)) /\
  is_Some (as_varchar 20 (prepareValue p)) /\
  is_Some (as_text (prepareValue a)) /\
  is_Some (as_json (prepareValue i)) /\
  is_Some (as_numeric (prepareValue t)) /\
  is_Some (as_varchar 50 (prepareValue pm)).

(** The same for a new message. *)
Definition message_accepted {B : Builtins} (n e m : JsValue) : Prop :=
  is_Some (as_varchar 100 (prepareValue n)) /\
  is_Some (as_varchar 100 (prepareValue e)) /\
  is_Some (as_text (prepareValue m)).

(** What the listing of [src/server.js] returns for a stored order: the
    columns other than [items] as the driver returns them; for an [items]
    document that is a string, the value the string parses to, which is
    not that string, and which is a string only if the text starts with a
    quote; any other document as it is. *)
Definition listed {B : Builtins} (o : Order) (out : JsValue) : Prop :=
  (forall k, k <> "items" -> get_prop out k = get_prop (order_row o) k) /\
  (forall s, items o = JStr s ->
     exists v, JSON_parse s = Some v /\ get_prop out "items" = v /\ v <> JStr s /\
               (typeof_string v = true -> exists r, Json.skip_ws s = String dquote r)) /\
  (typeof_string (items o) = false -> get_prop out "items" = items o).

(** Every [items] document that is a string holds JSON text. *)
Definition items_parse (d : DB) : Prop :=
  Forall (fun o => forall s, items o = JStr s -> is_Some (JSON_parse s)) (orders d).

(** * Example states and requests *)

Definition empty_db : DB :=
  {| pizzas := []; orders := []; messages := [];
     pizzas_id_seq := 1; orders_id_seq := 1; messages_id_seq := 1;
     current_timestamp := 1000; online := true |}.

Definition world0 : World :=
  {| db := empty_db; sessions := ∅; clock := 1000; trace := [] |}.

(** One live admin session, under the id 1. *)
Definition admin_store : gmap positive Session :=
  {[ 1%positive := {| admin := JBool true; expires := 5000 |} ]}.

Definition world_admin : World :=
  {| db := empty_db; sessions := admin_store; clock := 1000; trace := [] |}.

(** A request without a live session. *)
Definition anonymous (b : JsValue) (i : string) : Req :=
  {| body := b; params_id := i;
     session := Some {| loaded_from := None; session_admin := JUndefined |} |}.

Definition order_body (pm : list (string * JsValue)) : JsValue :=
  JObj ([("name", JStr "A"); ("phone", JStr "1"); ("address", JStr "x");
         ("items", JArr [JObj [("id", int 1); ("qty", int 2)]]);
         ("total", int 20)] ++ pm).

Definition order_with_empty_method : Req :=
  anonymous (order_body [("paymentMethod", JStr "")]) "".

Definition order_paid_online : Req :=
  anonymous (order_body [("paymentMethod", JStr "Online")]) "".

Definition order_without_method : Req := anonymous (order_body []) "".

Definition login_body (u p : JsValue) : JsValue :=
  JObj [("username", u); ("password", p)].

Definition login_as_stranger : Req :=
  anonymous (login_body (JStr "Mallory") (JStr "Atif123")) "".

Definition login_without_password : Req :=
  anonymous (JObj [("username", JStr "Owner")]) "".

Definition login_with_bad_password : Req :=
  anonymous (login_body (JStr "Owner") (JStr "guess")) "".

Definition free_pizza : JsValue :=
  JObj [("name", JStr "Free"); ("price", int 0); ("image", JStr "free.png")].

Definition pizza_without_image : JsValue :=
  JObj [("name", JStr "Margherita"); ("price", int 9)].

Definition margherita : JsValue :=
  JObj [("name", JStr "Margherita"); ("price", int 9); ("image", JStr "m.png")].

(** Two stored pizzas, the later one first in the table. *)
Definition margherita_row : Pizza :=
  {| pz_id := 1; pz_name := JStr "Margherita"; pz_price := JStr "9";
     pz_image := JStr "m.png" |}.

Definition funghi_row : Pizza :=
  {| pz_id := 2; pz_name := JStr "Funghi"; pz_price := JStr "10.50";
     pz_image := JStr "f.png" |}.

Definition stored_order (it pm ps : JsValue) : Order :=
  {| id := 7; name := JStr "A"; phone := JStr "1"; address := JStr "x";
     items := it; total := JStr "20"; payment_method := pm;
     payment_status := ps; transaction_id := JNull; status := JNull;
     created_at := 900 |}.

Definition paid_order : Order := stored_order (JArr []) (JStr "Online") (JStr "Paid").
Definition pending_order : Order := stored_order (JArr []) (JStr "Online") (JStr "Pending").

(** The text of the JSON string literal whose value is the text [[1]]. *)
Definition quoted_items : string := String dquote ("[1]" ++ String dquote "").

(** A stored order whose [items] document is the string [[1]]. *)
Definition order_with_text_items : Order :=
  stored_order (JStr "[1]") (JStr "COD") (JStr "Paid").

Definition world_with_order (o : Order) : World :=
  {| db := with_orders empty_db [o] 8; sessions := ∅; clock := 1000; trace := [] |}.

(** The same, with the live admin session of [world_admin]. *)
Definition world_admin_with_order (o : Order) : World :=
  {| db := with_orders empty_db [o] 8; sessions := admin_store; clock := 1000;
     trace := [] |}.

Definition world_admin_with_catalog : World :=
  {| db := with_pizzas empty_db [funghi_row; margherita_row] 3;
     sessions := admin_store; clock := 1000; trace := [] |}.


Definition revert_to_pending : JsValue := JObj [("payment_status", JStr "Pending")].


(** An order whose [items] is not a list but the text of the JSON string
    literal for [[1]]. *)
Definition quoted_items_request : HttpRequest :=
  {| http_method := POST; http_path := ["api"; "orders"];
     http_body := JObj [("name", JStr "A"); ("phone", JStr "1"); ("address", JStr "x");
                        ("items", JStr quoted_items); ("total", int 20)];
     http_cookie := None |}.

(** The requests of the end-to-end scenarios. *)
Definition cod_order_request : HttpRequest :=
  {| http_method := POST; http_path := ["api"; "orders"];
     http_body := order_body [("paymentMethod", JStr "COD")]; http_cookie := None |}.

Definition list_orders_as_admin : HttpRequest :=
  {| http_method := GET; http_path := ["api"; "orders"];
     http_body := JUndefined; http_cookie := Some 1%positive |}.

Definition bad_login : HttpRequest :=
  {| http_method := POST; http_path := ["admin"; "login"];
     http_body := login_body (JStr "Owner") (JStr "guess"); http_cookie := None |}.

Definition good_login : HttpRequest :=
  {| http_method := POST; http_path := ["admin"; "login"];
     http_body := login_body (JStr "Owner") (JStr "Atif123"); http_cookie := None |}.

(** The responses of [app] to a sequence of requests, and the state they
    lead to. *)
Fixpoint serve (app : list Route) (hs : list HttpRequest) (w : World)
  : list (Result Response) * World :=
  match hs with
  | [] => ([], w)
  | h :: rest =>
      let '(r, w1) := dispatch app h w in
      let '(rs, w2) := serve app rest w1 in
      (r :: rs, w2)
  end.

(** * Further vocabulary: sessions, failures, keys *)

Definition login_request (b : JsValue) (cookie : option positive) : HttpRequest :=
  {| http_method := POST; http_path := ["admin"; "login"]; http_body := b;
     http_cookie := cookie |}.

Definition logout_request (b : JsValue) (cookie : option positive) : HttpRequest :=
  {| http_method := POST; http_path := ["admin"; "logout"]; http_body := b;
     http_cookie := cookie |}.

Definition health_request (b : JsValue) (cookie : option positive) : HttpRequest :=
  {| http_method := GET; http_path := ["health"]; http_body := b;
     http_cookie := cookie |}.

Definition logged_in (i : positive) : Response :=
  {| code := 200; json := obj1 "success" (JBool true); cookie_op := CookieSet i |}.

Definition logged_out : Response :=
  {| code := 200; json := obj1 "success" (JBool true); cookie_op := CookieCleared |}.

(** The cookie names a stored, unexpired session. *)
Definition live_session (w : World) (cookie : option positive) : Prop :=
  exists i s, cookie = Some i /\ sessions w !! i = Some s /\ clock w < expires s.

(** A computation that never throws. *)
Definition answers {A} (m : Eff A) : Prop :=
  forall w, exists a w', m w = (Ok a, w').

(** The session store and the clock are as before. *)
Definition same_sessions (w w' : World) : Prop :=
  sessions w' = sessions w /\ clock w' = clock w.

(** The store is as before. *)
Definition same_db (w w' : World) : Prop := db w' = db w.

(** Every key of a table lies below the table's sequence, and no two rows
    share a key. *)
Definition keys_fresh (d : DB) : Prop :=
  (Forall (fun p => pz_id p < pizzas_id_seq d) (pizzas d) /\
   NoDup (map pz_id (pizzas d))) /\
  (Forall (fun o => id o < orders_id_seq d) (orders d) /\
   NoDup (map id (orders d))) /\
  (Forall (fun m => msg_id m < messages_id_seq d) (messages d) /\
   NoDup (map msg_id (messages d))).

(** The sequences never go back. *)
Definition seqs_grow (d d' : DB) : Prop :=
  pizzas_id_seq d <= pizzas_id_seq d' /\
  orders_id_seq d <= orders_id_seq d' /\
  messages_id_seq d <= messages_id_seq d'.

Definition keeps_keys (w w' : World) : Prop :=
  keys_fresh (db w) -> keys_fresh (db w') /\ seqs_grow (db w) (db w').

(** Nothing stored was changed or removed: the catalog is the same, and
    the orders and the messages were at most extended at the end. *)
Definition appends_only (w w' : World) : Prop :=
  pizzas (db w') = pizzas (db w) /\
  orders (db w) `prefix_of` orders (db w') /\
  messages (db w) `prefix_of` messages (db w').

Definition appending (q : Sql) : bool :=
  match q with
  | SelectPizzas | SelectOrders | SelectMessages
  | InsertOrder _ _ _ _ _ _ _ | InsertMessage _ _ _ => true
  | _ => false
  end.

(** The body carries the administrator's name and a password that
    [bcrypt.compare] accepts against the stored hash. *)
Definition presents_credentials {B : Builtins} (b : JsValue) : Prop :=
  destructurable b = true /\
  get_prop b "username" = JStr Server.adminUser_username /\
  bcrypt_compare (get_prop b "password") Server.adminUser_passwordHash = Some true.

(** The same against the hash of the third revision. *)
Definition presents_rev3_credentials {B : Builtins} (b : JsValue) : Prop :=
  destructurable b = true /\
  get_prop b "username" = JStr Rev3.adminUser_username /\
  bcrypt_compare (get_prop b "password") Rev3.adminUser_passwordHash = Some true.

Definition good_login_body : JsValue := login_body (JStr "Owner") (JStr "Atif123").

(** An order posted with a string that is not JSON text as its [items],
    the order the store then holds, and the state after the request. *)
Definition oops_request : HttpRequest :=
  {| http_method := POST; http_path := ["api"; "orders"];
     http_body := JObj [("name", JStr "A"); ("phone", JStr "1"); ("address", JStr "x");
                        ("items", JStr "oops"); ("total", int 20)];
     http_cookie := None |}.

Definition unparsable_order : Order :=
  {| id := 1; name := JStr "A"; phone := JStr "1"; address := JStr "x";
     items := JStr "oops"; total := JStr "20"; payment_method := JStr "COD";
     payment_status := JStr "Paid"; transaction_id := JNull; status := JNull;
     created_at := 1000 |}.

Definition world_after_oops : World :=
  snd (dispatch (Server.app (B := Runtime.builtins)) oops_request world_admin).

(** The store of [empty_db] while it cannot be reached, and a world with
    one live admin session over it. *)
Definition unreachable_db : DB :=
  {| pizzas := []; orders := []; messages := [];
     pizzas_id_seq := 1; orders_id_seq := 1; messages_id_seq := 1;
     current_timestamp := 1000; online := false |}.

Definition world_admin_offline : World :=
  {| db := unreachable_db; sessions := admin_store; clock := 1000; trace := [] |}.

(** * Properties *)

(** ** Values *)

Lemma strict_eq_str_spec (v : JsValue) (s : string) :
  strict_eq_str v s = true <-> v = JStr s.
Proof.
  destruct v; cbn; try (split; [discriminate | congruence]).
  rewrite String.eqb_eq. split; congruence.
Qed.

Lemma strict_eq_str_false (v : JsValue) (s : string) :
  strict_eq_str v s = false <-> v <> JStr s.
Proof.
  rewrite <- strict_eq_str_spec. destruct (strict_eq_str v s); split; congruence.
Qed.

Lemma js_or_truthy (a b : JsValue) : truthy a = true -> js_or a b = a.
Proof. unfold js_or. intros ->. reflexivity. Qed.


(** The falsy values a JSON body can carry for [paymentMethod]. *)
Lemma falsy_values (v : JsValue) :
  truthy v = false <->
  v = JUndefined \/ v = JNull \/ v = JBool false \/ v = JStr "" \/
  (exists q, v = JNum q /\ Qnum q = 0).
Proof.
  split.
  - destruct v as [| |b|q|s|xs|fs]; cbn; intros H; auto; try discriminate.
    + destruct b; [discriminate | auto].
    + right; right; right; right. exists q. split; [reflexivity|].
      apply negb_false_iff in H. apply Z.eqb_eq in H. exact H.
    + apply negb_false_iff in H. apply String.eqb_eq in H. subst. auto.
  - intros [->|[->|[->|[->|(q & -> & Hq)]]]]; cbn; try reflexivity.
    rewrite Hq. reflexivity.
Qed.

(** ** Running a handler *)

(** Unfolds the monad so that a handler becomes a function of the state. *)
Ltac run :=
  cbv beta iota delta
    [bind try_catch ret throw of_option emit pool_query set_sessions
     destructure first_row_id final];
  cbn [db sessions clock trace fst snd].

(** ** Order creation *)

Section OrderCreation.
Context {B : Builtins}.


Lemma new_order_columns (d : DB) (n p a i t pm ps : JsValue) (o : Order) :
  new_order d n p a i t pm ps = Some o ->
  id o = orders_id_seq d /\
  as_varchar 100 (prepareValue n) = Some (name o) /\
  as_varchar 20 (prepareValue p) = Some (phone o) /\
  as_text (prepareValue a) = Some (address o) /\
  as_json (prepareValue i) = Some (items o) /\
  as_numeric (prepareValue t) = Some (total o) /\
  as_varchar 50 (prepareValue pm) = Some (payment_method o) /\
  as_varchar 20 (prepareValue ps) = Some (payment_status o) /\
  transaction_id o = JNull /\ status o = JNull /\
  created_at o = current_timestamp d.
Proof.
  unfold new_order. intros H.
  destruct (as_varchar 100 (prepareValue n)); [|discriminate].
  destruct (as_varchar 20 (prepareValue p)); [|discriminate].
  destruct (as_text (prepareValue a)); [|discriminate].
  destruct (as_json (prepareValue i)); [|discriminate].
  destruct (as_numeric (prepareValue t)); [|discriminate].
  destruct (as_varchar 50 (prepareValue pm)); [|discriminate].
  destruct (as_varchar 20 (prepareValue ps)); [|discriminate].
  cbn in H. injection H as <-. cbn. repeat split.
Qed.

Lemma new_order_accepted (d : DB) (n p a i t pm ps : JsValue) :
  is_Some (as_varchar 20 (prepareValue ps)) ->
  is_Some (new_order d n p a i t pm ps) <-> order_accepted n p a i t pm.
Proof.
  intros [c Hc]. unfold new_order, order_accepted. rewrite Hc.
  destruct (as_varchar 100 (prepareValue n));
    [|cbn; split; [intros [? [=]] | intros ([? [=]] & _)]].
  destruct (as_varchar 20 (prepareValue p));
    [|cbn; split; [intros [? [=]] | intros (_ & [? [=]] & _)]].
  destruct (as_text (prepareValue a));
    [|cbn; split; [intros [? [=]] | intros (_ & _ & [? [=]] & _)]].
  destruct (as_json (prepareValue i));
    [|cbn; split; [intros [? [=]] | intros (_ & _ & _ & [? [=]] & _)]].
  destruct (as_numeric (prepareValue t));
    [|cbn; split; [intros [? [=]] | intros (_ & _ & _ & _ & [? [=]] & _)]].
  destruct (as_varchar 50 (prepareValue pm));
    [|cbn; split; [intros [? [=]] | intros (_ & _ & _ & _ & _ & [? [=]])]].
  cbn. split; intros _; repeat split; eexists; reflexivity.
Qed.

(** One [INSERT INTO orders] against a reachable store. *)
Lemma insert_order_run (n p a i t pm ps : JsValue) (w : World) :
  online (db w) = true ->
  pool_query (InsertOrder n p a i t pm ps) w =
    match new_order (db w) n p a i t pm ps with
    | Some o =>
        (Ok {| rows := [JObj [("id", int (orders_id_seq (db w)))]]; rowCount := 1 |},
         {| db := with_orders (db w) (orders (db w) ++ [o]) (orders_id_seq (db w) + 1);
            sessions := sessions w; clock := clock w;
            trace := trace w ++ [EvQuery (InsertOrder n p a i t pm ps)] |})
    | None => (Thrown, after_query (InsertOrder n p a i t pm ps) w)
    end.
Proof.
  intros Hon. run. unfold exec. rewrite Hon. cbn [negb].
  destruct (new_order (db w) n p a i t pm ps); reflexivity.
Qed.

(** The parameters [src/server.js] passes for a body. *)
Lemma post_orders_run (req : Req) (w : World) :
  destructurable (body req) = true ->
  online (db w) = true ->
  let b := body req in
  let pm := js_or (get_prop b "paymentMethod") (JStr "COD") in
  let ps := if strict_eq_str pm "COD" then JStr "Paid" else JStr "Pending" in
  let q := InsertOrder (get_prop b "name") (get_prop b "phone") (get_prop b "address")
             (JSON_stringify (get_prop b "items")) (get_prop b "total") pm ps in
  Server.post_orders req w =
    match new_order (db w) (get_prop b "name") (get_prop b "phone") (get_prop b "address")
            (JSON_stringify (get_prop b "items")) (get_prop b "total") pm ps with
    | Some o =>
        (Ok (respond 200
               (JObj [("orderId", int (orders_id_seq (db w)));
                      ("paymentRequired", JBool (negb (strict_eq_str pm "COD")))])),
         {| db := with_orders (db w) (orders (db w) ++ [o]) (orders_id_seq (db w) + 1);
            sessions := sessions w; clock := clock w;
            trace := trace w ++ [EvQuery q] |})
    | None => (Ok failure, after_query q w)
    end.
Proof.
  intros Hb Hon b pm ps q. subst b pm ps q.
  unfold Server.post_orders, try_catch, bind, destructure, first_row_id, ret.
  rewrite Hb, (insert_order_run _ _ _ _ _ _ _ w Hon).
  destruct (new_order _ _ _ _ _ _ _ _); reflexivity.
Qed.

(** Whether the order is created, and with which payment columns. *)
Lemma post_orders_outcome (req : Req) (w : World) :
  destructurable (body req) = true ->
  online (db w) = true ->
  let b := body req in
  let pm := js_or (get_prop b "paymentMethod") (JStr "COD") in
  exists resp w',
    Server.post_orders req w = (Ok resp, w') /\
    (code resp = 200 <->
     order_accepted (get_prop b "name") (get_prop b "phone") (get_prop b "address")
       (JSON_stringify (get_prop b "items")) (get_prop b "total") pm) /\
    (code resp = 200 ->
     exists o, created w w' o /\
       as_varchar 50 (prepareValue pm) = Some (payment_method o) /\
       payment_status o =
         (if strict_eq_str pm "COD" then JStr "Paid" else JStr "Pending") /\
       paymentRequired resp = JBool (negb (strict_eq_str pm "COD"))) /\
    (code resp <> 200 -> resp = failure /\ orders (db w') = orders (db w)).
Proof.
  intros Hb Hon b pm. rewrite (post_orders_run req w Hb Hon). fold b pm.
  set (ps := if strict_eq_str pm "COD" then JStr "Paid" else JStr "Pending").
  assert (Hps : as_varchar 20 (prepareValue ps) = Some ps).
  { subst ps. destruct (strict_eq_str pm "COD"); reflexivity. }
  pose proof (new_order_accepted (db w) (get_prop b "name") (get_prop b "phone")
                (get_prop b "address") (JSON_stringify (get_prop b "items"))
                (get_prop b "total") pm ps (ex_intro _ _ Hps)) as Hacc.
  destruct (new_order _ _ _ _ _ _ _ _) as [o|] eqn:E.
  - eexists _, _. split; [reflexivity|]. split; [|split].
    + split; [intros _; apply Hacc; eexists; reflexivity | reflexivity].
    + intros _. exists o. split; [reflexivity|].
      apply new_order_columns in E as (_ & _ & _ & _ & _ & _ & Hpm & Hs & _).
      split; [exact Hpm|]. split; [congruence | reflexivity].
    + intros H. contradiction H. reflexivity.
  - eexists _, _. split; [reflexivity|]. split; [|split].
    + split; [discriminate|]. intros H. apply Hacc in H as [? [=]].
    + discriminate.
    + intros _. split; reflexivity.
Qed.

End OrderCreation.

(** C1, as stated, fails: a request whose [paymentMethod] is the empty
    string, which is a value other than ["COD"], creates an order that is
    already ["Paid"] and answers [paymentRequired = false]. *)
Lemma post_orders_empty_method_settled :
  exists o resp w',
    Server.post_orders (B := Runtime.builtins) order_with_empty_method world0
      = (Ok resp, w') /\
    code resp = 200 /\
    created world0 w' o /\
    get_prop (body order_with_empty_method) "paymentMethod" <> JStr "COD" /\
    payment_status o = JStr "Paid" /\
    payment_status o <> JStr "Pending" /\
    paymentRequired resp = JBool false /\
    paymentRequired resp <> JBool true.
Proof.
  eexists _, _, _. split; [vm_compute; reflexivity|].
  split; [reflexivity|]. split; [reflexivity|].
  vm_compute. repeat split; discriminate.
Qed.

(** C1, amended: a POST /api/orders that reaches the store is answered 200
    exactly when the store accepts the values of the order (each fits its
    column); the order then created has [payment_status = "Paid"] and the
    response carries [paymentRequired = false] when [paymentMethod] is
    ["COD"], and it has [payment_status = "Pending"] and
    [paymentRequired = true] when [paymentMethod] is any other truthy
    value.  Otherwise the answer is 500 and no order is created. *)
Theorem post_orders_payment_rule {B : Builtins} (req : Req) (w : World) :
  destructurable (body req) = true ->
  online (db w) = true ->
  let b := body req in
  exists resp w',
    Server.post_orders req w = (Ok resp, w') /\
    (code resp = 200 <->
     order_accepted (get_prop b "name") (get_prop b "phone") (get_prop b "address")
       (JSON_stringify (get_prop b "items")) (get_prop b "total")
       (js_or (get_prop b "paymentMethod") (JStr "COD"))) /\
    (code resp = 200 ->
     exists o, created w w' o /\
       (get_prop b "paymentMethod" = JStr "COD" ->
          payment_status o = JStr "Paid" /\ paymentRequired resp = JBool false) /\
       (truthy (get_prop b "paymentMethod") = true ->
        get_prop b "paymentMethod" <> JStr "COD" ->
          payment_status o = JStr "Pending" /\ paymentRequired resp = JBool true)) /\
    (code resp <> 200 -> resp = failure /\ orders (db w') = orders (db w)).
Proof.
  intros Hb Hon b.
  destruct (post_orders_outcome req w Hb Hon) as (resp & w' & Hrun & Hacc & Hok & Hko).
  exists resp, w'. split; [exact Hrun|]. split; [exact Hacc|]. split; [|exact Hko].
  intros Hc. destruct (Hok Hc) as (o & Hcr & _ & Hps & Hpr).
  exists o. split; [exact Hcr|]. fold b in Hps, Hpr. rewrite Hps, Hpr. split.
  - intros ->. cbn. split; reflexivity.
  - intros Ht Hne. rewrite (js_or_truthy _ _ Ht).
    apply strict_eq_str_false in Hne. rewrite Hne. split; reflexivity.
Qed.

Lemma post_orders_payment_rule_witness :
  destructurable (body order_paid_online) = true /\
  online (db world0) = true /\
  exists resp w',
    Server.post_orders (B := Runtime.builtins) order_paid_online world0 = (Ok resp, w') /\
    code resp = 200 /\
    exists o, created world0 w' o /\
      payment_status o = JStr "Pending" /\ paymentRequired resp = JBool true.
Proof.
  split; [reflexivity|]. split; [reflexivity|].
  destruct (post_orders_payment_rule (B := Runtime.builtins) order_paid_online world0
              eq_refl eq_refl) as (resp & w' & Hrun & Hacc & Hok & _).
  exists resp, w'. split; [exact Hrun|].
  assert (Hc : code resp = 200).
  { apply Hacc. vm_compute. repeat split; eexists; reflexivity. }
  split; [exact Hc|].
  destruct (Hok Hc) as (o & Hcr & _ & Hp).
  exists o. split; [exact Hcr|]. apply Hp; [reflexivity | discriminate].
Defined.



(** ** The admin guard *)

Lemma adminAuth_run (req : Req) (w : World) :
  Server.adminAuth req w =
    (Ok (match session req with
         | Some s => if truthy (session_admin s) then Next else Done Server.unauthorized
         | None => Done Server.unauthorized
         end), guard_ran w).
Proof.
  unfold Server.adminAuth. run.
  destruct (session req) as [s|]; [destruct (truthy _)|]; reflexivity.
Qed.

Lemma load_session_admin (w : World) (cookie : option positive) :
  sessions_typed w ->
  truthy (session_admin (load_session w cookie)) = true <-> admin_session w cookie.
Proof.
  intros Hty. unfold load_session, admin_session. split.
  - destruct cookie as [i|]; [|discriminate].
    destruct (sessions w !! i) as [s|] eqn:Hs; [|discriminate].
    destruct (clock w <? expires s) eqn:Hc; [|discriminate].
    cbn. intros Ht. exists i, s. repeat split; try assumption.
    + apply Z.ltb_lt. exact Hc.
    + specialize (Hty i s Hs). cbn in Hty.
      destruct (admin s) as [| |[|]| | | |]; cbn in *; congruence.
  - intros (i & s & -> & Hs & Hc & Ha). rewrite Hs.
    apply Z.ltb_lt in Hc. rewrite Hc. cbn. rewrite Ha. reflexivity.
Qed.

(** C4: the guard lets a request through exactly when its cookie names a
    stored, unexpired session with [admin = true]; every other request -
    no cookie, unknown session id, expired session, [admin = false] - is
    answered 401. *)
Theorem adminAuth_allows_iff (w : World) (cookie : option positive)
    (b : JsValue) (i : string) :
  sessions_typed w ->
  let answer := fst (Server.adminAuth (incoming w cookie b i) w) in
  let denied := Ok (Done Server.unauthorized) in
  (answer = Ok Next <-> admin_session w cookie) /\
  (~ admin_session w cookie -> answer = denied) /\
  code Server.unauthorized = 401 /\
  (cookie = None -> answer = denied) /\
  (forall k, cookie = Some k -> sessions w !! k = None -> answer = denied) /\
  (forall k s, cookie = Some k -> sessions w !! k = Some s ->
     expires s <= clock w -> answer = denied) /\
  (forall k s, cookie = Some k -> sessions w !! k = Some s ->
     admin s = JBool false -> answer = denied).
Proof.
  intros Hty answer denied. subst answer denied. rewrite adminAuth_run.
  cbn [fst session incoming].
  pose proof (load_session_admin w cookie Hty) as Hiff.
  assert (Hdeny : ~ admin_session w cookie ->
            Ok (if truthy (session_admin (load_session w cookie))
                then Next else Done Server.unauthorized)
            = Ok (Done Server.unauthorized)).
  { intros Hn. destruct (truthy _); [|reflexivity]. exfalso. apply Hn, Hiff. reflexivity. }
  split; [|split; [exact Hdeny | split; [reflexivity|]]].
  - rewrite <- Hiff. destruct (truthy _); split; congruence.
  - repeat split; intros; apply Hdeny; intros (i' & s' & ? & ? & ? & ?); simplify_eq;
      solve [lia | congruence].
Qed.

Lemma admin_store_typed : sessions_typed world_admin.
Proof.
  intros k s Hs. cbn in Hs. unfold admin_store in Hs.
  apply lookup_singleton_Some in Hs as [_ <-]. reflexivity.
Qed.

Lemma adminAuth_allows_iff_witness :
  sessions_typed world_admin /\
  (fst (Server.adminAuth (incoming world_admin (Some 1%positive) JNull "") world_admin)
     = Ok Next <-> admin_session world_admin (Some 1%positive)).
Proof.
  split; [exact admin_store_typed|].
  exact (proj1 (adminAuth_allows_iff world_admin (Some 1%positive) JNull ""
                  admin_store_typed)).
Defined.

(** ** Login *)

Section Login.
Context {B : Builtins}.

Lemma login_unknown_user (req : Req) (w : World) :
  destructurable (body req) = true ->
  get_prop (body req) "username" <> JStr Server.adminUser_username ->
  Server.login req w = (Ok login_denied, w).
Proof.
  intros Hb Hu. unfold Server.login. run. rewrite Hb.
  apply strict_eq_str_false in Hu. rewrite Hu. reflexivity.
Qed.

Lemma login_wrong_password (req : Req) (w : World) :
  destructurable (body req) = true ->
  get_prop (body req) "username" = JStr Server.adminUser_username ->
  bcrypt_compare (get_prop (body req) "password") Server.adminUser_passwordHash
    = Some false ->
  Server.login req w = (Ok login_denied, w).
Proof.
  intros Hb Hu Hp. unfold Server.login. run. rewrite Hb.
  apply strict_eq_str_spec in Hu. rewrite Hu. cbn. rewrite Hp. reflexivity.
Qed.

(** When [bcrypt.compare] rejects (the password is absent or not a
    string), the handler's [catch] answers 500, not 401. *)
Lemma login_compare_rejects (req : Req) (w : World) :
  destructurable (body req) = true ->
  get_prop (body req) "username" = JStr Server.adminUser_username ->
  bcrypt_compare (get_prop (body req) "password") Server.adminUser_passwordHash
    = None ->
  Server.login req w = (Ok (respond 500 (obj1 "success" (JBool false))), w).
Proof.
  intros Hb Hu Hp. unfold Server.login. run. rewrite Hb.
  apply strict_eq_str_spec in Hu. rewrite Hu. cbn. rewrite Hp. reflexivity.
Qed.

End Login.

(** C3, as stated, fails: a login under the administrator's name whose
    body carries no password is a failing login, and it is answered 500,
    where a login under another name is answered 401. *)
Lemma login_without_password_differs :
  get_prop (body login_as_stranger) "username" <> JStr Server.adminUser_username /\
  get_prop (body login_without_password) "username" = JStr Server.adminUser_username /\
  Server.login (B := Runtime.builtins) login_as_stranger world0
    = (Ok login_denied, world0) /\
  Server.login (B := Runtime.builtins) login_without_password world0
    = (Ok failure, world0) /\
  code login_denied = 401 /\ code failure = 500.
Proof. split; [discriminate|]. repeat split. Qed.

(** C3, amended: a login with a username other than the administrator's
    is answered 401 with body [{success: false}] and no cookie.  A login
    with the administrator's username and a password that
    [bcrypt.compare] does not accept gets the same response when the
    comparison resolves, and 500 with the same body when it rejects (the
    password is absent or not a string).  No failing login changes the
    server state. *)
Theorem login_failure_responses {B : Builtins}
    (req1 req2 : Req) (w1 w2 : World) :
  destructurable (body req1) = true ->
  destructurable (body req2) = true ->
  get_prop (body req1) "username" <> JStr Server.adminUser_username ->
  get_prop (body req2) "username" = JStr Server.adminUser_username ->
  bcrypt_compare (get_prop (body req2) "password") Server.adminUser_passwordHash
    <> Some true ->
  fst (Server.login req1 w1) = Ok login_denied /\
  code login_denied = 401 /\
  json login_denied = JObj [("success", JBool false)] /\
  cookie_op login_denied = CookieUntouched /\
  snd (Server.login req1 w1) = w1 /\
  snd (Server.login req2 w2) = w2 /\
  (bcrypt_compare (get_prop (body req2) "password") Server.adminUser_passwordHash
     = Some false ->
   fst (Server.login req2 w2) = fst (Server.login req1 w1)) /\
  (bcrypt_compare (get_prop (body req2) "password") Server.adminUser_passwordHash
     = None ->
   fst (Server.login req2 w2) = Ok failure /\
   fst (Server.login req2 w2) <> fst (Server.login req1 w1) /\
   code failure = 500 /\ json failure = json login_denied).
Proof.
  intros Hb1 Hb2 Hu1 Hu2 Hp.
  rewrite (login_unknown_user req1 w1 Hb1 Hu1).
  destruct (bcrypt_compare (get_prop (body req2) "password")
              Server.adminUser_passwordHash) as [[|]|] eqn:E.
  - contradiction Hp. reflexivity.
  - rewrite (login_wrong_password req2 w2 Hb2 Hu2 E).
    repeat split; try reflexivity; discriminate.
  - rewrite (login_compare_rejects req2 w2 Hb2 Hu2 E).
    repeat split; try reflexivity; discriminate.
Qed.

Lemma login_failure_responses_witness :
  fst (Server.login (B := Runtime.builtins) login_as_stranger world0) = Ok login_denied /\
  fst (Server.login (B := Runtime.builtins) login_with_bad_password world_admin)
    = fst (Server.login (B := Runtime.builtins) login_as_stranger world0) /\
  snd (Server.login (B := Runtime.builtins) login_with_bad_password world_admin)
    = world_admin.
Proof.
  assert (Hu : get_prop (body login_as_stranger) "username"
               <> JStr Server.adminUser_username) by discriminate.
  assert (Hp : bcrypt_compare (Builtins := Runtime.builtins)
                 (get_prop (body login_with_bad_password) "password")
                 Server.adminUser_passwordHash <> Some true) by discriminate.
  pose proof (login_failure_responses (B := Runtime.builtins)
                login_as_stranger login_with_bad_password world0 world_admin
                eq_refl eq_refl Hu eq_refl Hp) as (H1 & _ & _ & _ & _ & H2 & H3 & _).
  split; [exact H1|]. split; [exact (H3 eq_refl) | exact H2].
Defined.

(** ** Guarded routes *)

Lemma guarded_allowed (h : Req -> Eff Response) (req : Req) (w : World) (s : ReqSession) :
  session req = Some s ->
  truthy (session_admin s) = true ->
  run_chain [Server.adminAuth; final h] req w = h req (guard_ran w).
Proof.
  intros Hs Ht. cbn [run_chain]. unfold bind at 1. rewrite adminAuth_run, Hs, Ht.
  run. destruct (h req (guard_ran w)) as [[r|] w']; reflexivity.
Qed.

Lemma guarded_denied (h : Req -> Eff Response) (req : Req) (w : World) (s : ReqSession) :
  session req = Some s ->
  truthy (session_admin s) = false ->
  run_chain [Server.adminAuth; final h] req w = (Ok Server.unauthorized, guard_ran w).
Proof.
  intros Hs Ht. cbn [run_chain]. unfold bind at 1. rewrite adminAuth_run, Hs, Ht.
  reflexivity.
Qed.

Lemma admin_session_truthy (w : World) (cookie : option positive) :
  admin_session w cookie ->
  truthy (session_admin (load_session w cookie)) = true.
Proof.
  intros (i & s & -> & Hs & Hc & Ha). unfold load_session. rewrite Hs.
  apply Z.ltb_lt in Hc. rewrite Hc. cbn. rewrite Ha. reflexivity.
Qed.

Lemma no_admin_session_falsy (w : World) (cookie : option positive) :
  sessions_typed w ->
  ~ admin_session w cookie ->
  truthy (session_admin (load_session w cookie)) = false.
Proof.
  intros Hty Hn. apply not_true_is_false. intros Ht. apply Hn.
  apply load_session_admin; assumption.
Qed.

Lemma world_admin_session (d : DB) (t : list Event) :
  admin_session {| db := d; sessions := admin_store; clock := 1000; trace := t |}
    (Some 1%positive).
Proof.
  exists 1%positive, {| admin := JBool true; expires := 5000 |}. repeat split.
Qed.

Lemma rev3_guarded_allowed (h : Req -> Eff Response) (req : Req) (w : World)
    (s : ReqSession) :
  session req = Some s ->
  truthy (session_admin s) = true ->
  run_chain [Rev3.adminAuth; final h] req w = h req (guard_ran w).
Proof.
  intros Hs Ht. cbn [run_chain]. unfold Rev3.adminAuth. run. rewrite Hs, Ht.
  fold (guard_ran w). destruct (h req (guard_ran w)) as [[r|] w']; reflexivity.
Qed.

Lemma admin_passes (h : Req -> Eff Response) (w : World) (cookie : option positive)
    (b : JsValue) (i : string) :
  truthy (session_admin (load_session w cookie)) = true ->
  run_chain [Server.adminAuth; final h] (incoming w cookie b i) w =
    h (incoming w cookie b i) (guard_ran w).
Proof.
  intros Ha.
  exact (guarded_allowed h (incoming w cookie b i) w (load_session w cookie) eq_refl Ha).
Qed.

Lemma rev3_admin_passes (h : Req -> Eff Response) (w : World) (cookie : option positive)
    (b : JsValue) (i : string) :
  truthy (session_admin (load_session w cookie)) = true ->
  run_chain [Rev3.adminAuth; final h] (incoming w cookie b i) w =
    h (incoming w cookie b i) (guard_ran w).
Proof.
  intros Ha.
  exact (rev3_guarded_allowed h (incoming w cookie b i) w (load_session w cookie)
           eq_refl Ha).
Qed.

(** ** Catalog creation *)

Section Catalog.
Context {B : Builtins}.

Lemma dispatch_post_pizzas (b : JsValue) (cookie : option positive) (w : World) :
  dispatch Server.app (post_pizzas_request b cookie) w =
    run_chain [Server.adminAuth; final Server.post_pizzas] (incoming w cookie b "") w.
Proof. reflexivity. Qed.

Lemma post_pizzas_falsy (req : Req) (w : World) :
  destructurable (body req) = true ->
  truthy (get_prop (body req) "name") = false \/
  truthy (get_prop (body req) "price") = false \/
  truthy (get_prop (body req) "image") = false ->
  Server.post_pizzas req w = (Ok missing_fields, w).
Proof.
  intros Hb Hf. unfold Server.post_pizzas. run. rewrite Hb.
  destruct Hf as [-> | [-> | ->]]; cbn; rewrite ?orb_true_r; reflexivity.
Qed.

Lemma post_pizzas_truthy (req : Req) (w : World) :
  destructurable (body req) = true ->
  truthy (get_prop (body req) "name") = true ->
  truthy (get_prop (body req) "price") = true ->
  truthy (get_prop (body req) "image") = true ->
  exists resp w',
    Server.post_pizzas req w = (Ok resp, w') /\
    (code resp = 200 \/ code resp = 500).
Proof.
  intros Hb Hn Hp Hi. unfold Server.post_pizzas. run. rewrite Hb, Hn, Hp, Hi. cbn.
  destruct (fst (exec _ (db w))) as [r|]; eexists _, _; (split; [reflexivity|]); cbn; auto.
Qed.

End Catalog.

(** C8, as stated, fails in its last part: an administrator's request that
    carries all three fields, with [price] equal to [0], is answered 400. *)
Lemma post_pizzas_zero_price_rejected :
  admin_session world_admin (Some 1%positive) /\
  get_prop free_pizza "name" <> JUndefined /\
  get_prop free_pizza "price" <> JUndefined /\
  get_prop free_pizza "image" <> JUndefined /\
  exists w',
    dispatch (Server.app (B := Runtime.builtins))
      (post_pizzas_request free_pizza (Some 1%positive)) world_admin
      = (Ok missing_fields, w') /\
    code missing_fields = 400.
Proof.
  split.
  { exists 1%positive, {| admin := JBool true; expires := 5000 |}.
    repeat split. }
  repeat (split; [discriminate|]).
  eexists. split; [vm_compute; reflexivity | reflexivity].
Qed.

(** C8, amended: on POST /api/pizzas a caller without an admin session
    gets 401 from the guard whatever the body, with no validation and no
    query; an administrator whose body lacks [name], [price] or [image],
    or carries a falsy value for one of them, gets 400; an administrator
    whose three fields are all truthy never gets 400. *)
Theorem post_pizzas_guard_then_validation {B : Builtins}
    (b : JsValue) (cookie : option positive) (w : World) :
  sessions_typed w ->
  let answer := dispatch Server.app (post_pizzas_request b cookie) w in
  (~ admin_session w cookie ->
     answer = (Ok Server.unauthorized, guard_ran w) /\
     code Server.unauthorized = 401) /\
  (admin_session w cookie ->
     destructurable b = true ->
     get_prop b "name" = JUndefined \/ get_prop b "price" = JUndefined \/
     get_prop b "image" = JUndefined ->
     answer = (Ok missing_fields, guard_ran w) /\ code missing_fields = 400) /\
  (admin_session w cookie ->
     destructurable b = true ->
     truthy (get_prop b "name") = false \/ truthy (get_prop b "price") = false \/
     truthy (get_prop b "image") = false ->
     answer = (Ok missing_fields, guard_ran w)) /\
  (admin_session w cookie ->
     destructurable b = true ->
     truthy (get_prop b "name") = true ->
     truthy (get_prop b "price") = true ->
     truthy (get_prop b "image") = true ->
     exists resp w', answer = (Ok resp, w') /\ code resp <> 400).
Proof.
  intros Hty answer. subst answer. rewrite dispatch_post_pizzas.
  split; [|split; [|split]].
  - intros Hn. split; [|reflexivity].
    apply guarded_denied with (s := load_session w cookie); [reflexivity|].
    apply no_admin_session_falsy; assumption.
  - intros Ha Hb Hm. split; [|reflexivity].
    rewrite (admin_passes _ _ _ _ _ (admin_session_truthy _ _ Ha)).
    apply post_pizzas_falsy; [exact Hb|].
    cbn [body incoming]. destruct Hm as [-> | [-> | ->]]; auto.
  - intros Ha Hb Hf.
    rewrite (admin_passes _ _ _ _ _ (admin_session_truthy _ _ Ha)).
    apply post_pizzas_falsy; assumption.
  - intros Ha Hb Hn Hp Hi.
    rewrite (admin_passes _ _ _ _ _ (admin_session_truthy _ _ Ha)).
    destruct (post_pizzas_truthy (incoming w cookie b "") (guard_ran w) Hb Hn Hp Hi)
      as (resp & w' & Hrun & Hc).
    exists resp, w'. split; [exact Hrun|]. destruct Hc as [-> | ->]; discriminate.
Qed.

Lemma post_pizzas_guard_then_validation_witness :
  sessions_typed world_admin /\
  (dispatch (Server.app (B := Runtime.builtins))
     (post_pizzas_request pizza_without_image None) world_admin
     = (Ok Server.unauthorized, guard_ran world_admin)) /\
  (dispatch (Server.app (B := Runtime.builtins))
     (post_pizzas_request pizza_without_image (Some 1%positive)) world_admin
     = (Ok missing_fields, guard_ran world_admin)).
Proof.
  split; [exact admin_store_typed|]. split.
  - refine (proj1 (proj1 (post_pizzas_guard_then_validation (B := Runtime.builtins)
                     pizza_without_image None world_admin admin_store_typed) _)).
    intros (i & s & Hc & _). discriminate Hc.
  - refine (proj1 (proj1 (proj2 (post_pizzas_guard_then_validation (B := Runtime.builtins)
                     pizza_without_image (Some 1%positive) world_admin
                     admin_store_typed)) (world_admin_session _ _) eq_refl _)).
    right. right. reflexivity.
Defined.

(** ** What a computation may do to the state

    [steps R m]: from every state, running [m] leads to an [R]-related
    state.  For a preorder [R] this is closed under the monad's
    combinators, which lets a handler be checked piece by piece. *)

Section Steps.
Context (R : World -> World -> Prop) `{!PreOrder R}.

Lemma steps_ret {A} (a : A) : steps R (ret a).
Proof. intros w. reflexivity. Qed.

Lemma steps_throw {A} : steps R (@throw A).
Proof. intros w. reflexivity. Qed.

Lemma steps_of_option {A} (o : option A) : steps R (of_option o).
Proof. destruct o; [apply steps_ret | apply steps_throw]. Qed.

Lemma steps_bind {A C} (m : Eff A) (k : A -> Eff C) :
  steps R m -> (forall a, steps R (k a)) -> steps R (bind m k).
Proof.
  intros Hm Hk w. unfold bind. specialize (Hm w).
  destruct (m w) as [[a|] w1]; cbn in *; [|exact Hm].
  etransitivity; [exact Hm | apply Hk].
Qed.

Lemma steps_try_catch {A} (m h : Eff A) :
  steps R m -> steps R h -> steps R (try_catch m h).
Proof.
  intros Hm Hh w. unfold try_catch. specialize (Hm w).
  destruct (m w) as [[a|] w1]; cbn in *; [exact Hm|].
  etransitivity; [exact Hm | apply Hh].
Qed.

Lemma steps_destructure (req : Req) : steps R (destructure req).
Proof. unfold destructure. destruct (destructurable _); [apply steps_ret | apply steps_throw]. Qed.

Lemma steps_first_row_id (r : QueryResult) : steps R (first_row_id r).
Proof.
  unfold first_row_id. destruct (rows r) as [|o ?]; [apply steps_throw|].
  destruct (destructurable o); [apply steps_ret | apply steps_throw].
Qed.

Lemma steps_final (h : Req -> Eff Response) (req : Req) :
  steps R (h req) -> steps R (final h req).
Proof. intros H. apply steps_bind; [exact H | intros; apply steps_ret]. Qed.

End Steps.

(** Repeatedly splits a handler along the combinators; what is left are
    the primitive effects. *)
Ltac step prim :=
  repeat first
    [ prim
    | match goal with |- PreOrder _ => exact _ end
    | apply steps_ret | apply steps_throw | apply steps_of_option
    | apply steps_destructure | apply steps_first_row_id
    | apply steps_try_catch | apply steps_bind | apply steps_final
    | progress intros
    | match goal with
      | |- steps _ (if ?c then _ else _) => destruct c
      | |- steps _ (match ?x with _ => _ end) => destruct x
      end ].

#[global] Instance queried_preorder : PreOrder queried.
Proof.
  split.
  - intros w. exists []. split; [symmetry; apply app_nil_r | constructor].
  - intros w1 w2 w3 (t1 & H1 & F1) (t2 & H2 & F2). exists (t1 ++ t2). split.
    + rewrite H2, H1, app_assoc. reflexivity.
    + apply Forall_app. split; assumption.
Qed.

Lemma pool_query_queried {B : Builtins} (q : Sql) : steps queried (pool_query q).
Proof.
  intros w. unfold pool_query. run.
  exists [EvQuery q]. split; [reflexivity | repeat constructor].
Qed.

Lemma save_admin_queried (s : option ReqSession) : steps queried (save_admin s).
Proof.
  intros w. destruct s as [rs|]; cbn; exists []; (split; [|constructor]);
    symmetry; apply app_nil_r.
Qed.

Lemma destroy_session_queried (s : option ReqSession) : steps queried (destroy_session s).
Proof.
  intros w. destruct s as [[[i|] a]|]; cbn; exists []; (split; [|constructor]);
    symmetry; apply app_nil_r.
Qed.

Ltac queries :=
  step ltac:(first [ apply pool_query_queried | apply save_admin_queried
                   | apply destroy_session_queried ]).

Section HandlersQuery.
Context {B : Builtins}.

Lemma server_handlers_query (req : Req) :
  steps queried (Server.login req) /\ steps queried (Server.logout req) /\
  steps queried (Server.get_pizzas req) /\ steps queried (Server.post_pizzas req) /\
  steps queried (Server.delete_pizza req) /\ steps queried (Server.get_orders req) /\
  steps queried (Server.post_orders req) /\ steps queried (Server.patch_order req) /\
  steps queried (Server.delete_order req) /\ steps queried (Server.get_messages req) /\
  steps queried (Server.post_messages req) /\ steps queried (Server.health req).
Proof.
  unfold Server.login, Server.logout, Server.get_pizzas, Server.post_pizzas,
    Server.delete_pizza, Server.get_orders, Server.post_orders, Server.patch_order,
    Server.delete_order, Server.get_messages, Server.post_messages, Server.health.
  repeat split; queries.
Qed.

End HandlersQuery.

Section MoreHandlersQuery.
Context {B : Builtins}.

Lemma rev2_handlers_query (req : Req) :
  steps queried (Rev2.login req) /\ steps queried (Rev2.logout req) /\
  steps queried (Rev2.get_pizzas req) /\ steps queried (Rev2.post_pizzas req) /\
  steps queried (Rev2.delete_pizza req) /\ steps queried (Rev2.get_orders req) /\
  steps queried (Rev2.post_orders req) /\ steps queried (Rev2.confirm_payment req) /\
  steps queried (Rev2.patch_order req) /\ steps queried (Rev2.delete_order req) /\
  steps queried (Rev2.get_messages req) /\ steps queried (Rev2.post_messages req) /\
  steps queried (Rev2.delete_message req).
Proof.
  unfold Rev2.login, Rev2.logout, Rev2.get_pizzas, Rev2.post_pizzas,
    Rev2.delete_pizza, Rev2.get_orders, Rev2.post_orders, Rev2.confirm_payment,
    Rev2.patch_order, Rev2.delete_order, Rev2.get_messages, Rev2.post_messages,
    Rev2.delete_message.
  repeat split; queries.
Qed.

Lemma rev3_delete_message_query (req : Req) : steps queried (Rev3.delete_message req).
Proof. unfold Rev3.delete_message. queries. Qed.

Lemma rev3_login_query (req : Req) : steps queried (Rev3.login req).
Proof. unfold Rev3.login. queries. Qed.

End MoreHandlersQuery.

(** ** Which routes run the guard *)

Lemma chain_guarded (g : Middleware) (h : Req -> Eff Response) (req : Req)
    (w : World) (s : ReqSession) :
  guard_step g ->
  session req = Some s ->
  steps queried (h req) ->
  guard_first w (snd (run_chain [g; final h] req w)).
Proof.
  intros Hg Hs Hh. destruct (Hg req w s Hs) as (st & Hrun).
  cbn [run_chain]. unfold bind at 1. rewrite Hrun.
  destruct st as [|r].
  - specialize (Hh (guard_ran w)). run.
    destruct (h req (guard_ran w)) as [[r|] w']; cbn in *;
      destruct Hh as (t & Ht & Hq); exists t; (split; [|exact Hq]);
      rewrite Ht; symmetry; apply (app_assoc (trace w) [EvGuard] t).
  - exists []. split; [reflexivity | constructor].
Qed.

Lemma chain_public (h : Req -> Eff Response) (req : Req) (w : World) :
  steps queried (h req) ->
  queried w (snd (run_chain [final h] req w)).
Proof.
  intros Hh. specialize (Hh w). cbn [run_chain]. run.
  destruct (h req w) as [[r|] w']; exact Hh.
Qed.

Lemma server_guard_step : guard_step Server.adminAuth.
Proof.
  intros req w s Hs. rewrite adminAuth_run. eexists. reflexivity.
Qed.

Lemma rev2_guard_step {B : Builtins} : guard_step Rev2.adminAuth.
Proof.
  intros req w s Hs. unfold Rev2.adminAuth. run. rewrite Hs.
  destruct (truthy _); eexists; reflexivity.
Qed.

Lemma rev3_guard_step : guard_step Rev3.adminAuth.
Proof.
  intros req w s Hs. unfold Rev3.adminAuth. run. rewrite Hs.
  destruct (truthy _); eexists; reflexivity.
Qed.

Ltac route :=
  unfold dispatch;
  cbn [find_route match_path method_eqb route_method route_path route_chain
       http_method http_path http_body http_cookie endpoint_request
       String.eqb Ascii.eqb Bool.eqb].

(** C2: in [src/server.js] and in the second and third revisions, every
    privileged route that is registered - catalog create and delete, order
    list, update and delete, message list and delete - runs [adminAuth]
    before any query reaches the store, and the public routes - catalog
    list, order create, message create - never run it.  [src/server.js]
    registers no message deletion; the revisions do. *)
Theorem privileged_routes_guarded {B : Builtins} :
  guards Server.app (fun e => e <> MessageDelete) /\
  guards Rev2.app (fun _ => True) /\
  guards Rev3.app (fun _ => True) /\
  (forall i b cookie w,
     dispatch Server.app (endpoint_request MessageDelete i b cookie) w
       = (Ok not_found, w)).
Proof.
  split; [|split; [|split]].
  - intros e i b cookie w w'. subst w'.
    pose proof (server_handlers_query (incoming w cookie b "")) as H0.
    pose proof (server_handlers_query (incoming w cookie b i)) as Hi.
    destruct e; (split; cbn [privileged]; intros Hp; [intros Hr|]);
      try discriminate; try (exfalso; apply Hr; reflexivity);
      unfold Server.app; route;
      first [ eapply chain_guarded; [apply server_guard_step | reflexivity | tauto]
            | apply chain_public; tauto ].
  - intros e i b cookie w w'. subst w'.
    pose proof (rev2_handlers_query (incoming w cookie b "")) as H0.
    pose proof (rev2_handlers_query (incoming w cookie b i)) as Hi.
    destruct e; (split; cbn [privileged]; intros Hp; [intros Hr|]);
      try discriminate;
      unfold Rev2.app; route;
      first [ eapply chain_guarded; [apply rev2_guard_step | reflexivity | tauto]
            | apply chain_public; tauto ].
  - intros e i b cookie w w'. subst w'.
    pose proof (server_handlers_query (incoming w cookie b "")) as H0.
    pose proof (server_handlers_query (incoming w cookie b i)) as Hi.
    pose proof (rev3_delete_message_query (incoming w cookie b i)) as Hd.
    pose proof (rev3_login_query (incoming w cookie b "")) as Hl.
    destruct e; (split; cbn [privileged]; intros Hp; [intros Hr|]);
      try discriminate;
      unfold Rev3.app; route;
      first [ eapply chain_guarded; [apply rev3_guard_step | reflexivity | tauto]
            | apply chain_public; tauto ].
  - reflexivity.
Qed.

Lemma privileged_routes_guarded_witness :
  guard_first world0
    (snd (dispatch (Server.app (B := Runtime.builtins))
            (endpoint_request OrderList "" JNull None) world0)).
Proof.
  refine (proj1 (proj1 (privileged_routes_guarded (B := Runtime.builtins))
                   OrderList "" JNull None world0) eq_refl _).
  discriminate.
Defined.

(** ** Deletion *)

Lemma filter_none {A} (f : A -> bool) (l : list A) :
  Forall (fun x => f x = true) l -> List.filter f l = l.
Proof.
  induction 1 as [|x l Hx _ IH]; cbn; [reflexivity|]. rewrite Hx, IH. reflexivity.
Qed.

Lemma with_pizzas_id (d : DB) : with_pizzas d (pizzas d) (pizzas_id_seq d) = d.
Proof. destruct d; reflexivity. Qed.
Lemma with_orders_id (d : DB) : with_orders d (orders d) (orders_id_seq d) = d.
Proof. destruct d; reflexivity. Qed.
Lemma with_messages_id (d : DB) : with_messages d (messages d) (messages_id_seq d) = d.
Proof. destruct d; reflexivity. Qed.

Lemma exec_delete_pizza_missing {B : Builtins} (i : string) (d : DB) :
  no_pizza i d ->
  exec (DeletePizza i) d =
    (if executes i d then Some {| rows := []; rowCount := 0 |} else None, d).
Proof.
  intros Hno. unfold exec, executes. destruct (online d); [|reflexivity]. cbn.
  destruct (pg_int i) as [k|] eqn:Hk; cbn; [|reflexivity].
  rewrite filter_none.
  - rewrite Nat.sub_diag, with_pizzas_id. reflexivity.
  - eapply Forall_impl; [exact (Hno k Hk)|]. cbn. intros p Hp.
    apply negb_true_iff, Z.eqb_neq. exact Hp.
Qed.

Lemma exec_delete_order_missing {B : Builtins} (i : string) (d : DB) :
  no_order i d ->
  exec (DeleteOrder i) d =
    (if executes i d then Some {| rows := []; rowCount := 0 |} else None, d).
Proof.
  intros Hno. unfold exec, executes. destruct (online d); [|reflexivity]. cbn.
  destruct (pg_int i) as [k|] eqn:Hk; cbn; [|reflexivity].
  rewrite filter_none.
  - rewrite Nat.sub_diag, with_orders_id. reflexivity.
  - eapply Forall_impl; [exact (Hno k Hk)|]. cbn. intros p Hp.
    apply negb_true_iff, Z.eqb_neq. exact Hp.
Qed.

Lemma exec_delete_message_missing {B : Builtins} (i : string) (d : DB) :
  no_message i d ->
  exec (DeleteMessage i) d =
    (if executes i d then Some {| rows := []; rowCount := 0 |} else None, d).
Proof.
  intros Hno. unfold exec, executes. destruct (online d); [|reflexivity]. cbn.
  destruct (pg_int i) as [k|] eqn:Hk; cbn; [|reflexivity].
  rewrite filter_none.
  - rewrite Nat.sub_diag, with_messages_id. reflexivity.
  - eapply Forall_impl; [exact (Hno k Hk)|]. cbn. intros p Hp.
    apply negb_true_iff, Z.eqb_neq. exact Hp.
Qed.

(** The delete handlers on an id that matches no row. *)
Lemma delete_handlers_missing {B : Builtins} (req : Req) (w : World) :
  let i := params_id req in
  (no_pizza i (db w) ->
     Server.delete_pizza req w =
       (Ok (if executes i (db w) then success else failure),
        after_query (DeletePizza i) w)) /\
  (no_order i (db w) ->
     Server.delete_order req w =
       (Ok (if executes i (db w) then success else failure),
        after_query (DeleteOrder i) w)) /\
  (no_message i (db w) ->
     Rev3.delete_message req w =
       (Ok (if executes i (db w) then success else failure),
        after_query (DeleteMessage i) w)).
Proof.
  intros i. subst i. repeat split.
  - intros Hno. unfold Server.delete_pizza. run.
    rewrite (exec_delete_pizza_missing _ _ Hno).
    destruct (executes _ _); reflexivity.
  - intros Hno. unfold Server.delete_order. run.
    rewrite (exec_delete_order_missing _ _ Hno).
    destruct (executes _ _); reflexivity.
  - intros Hno. unfold Rev3.delete_message. run.
    rewrite (exec_delete_message_missing _ _ Hno).
    destruct (executes _ _); reflexivity.
Qed.

(** C5, as stated, fails: an administrator's DELETE /api/pizzas/42 on an
    empty catalog is answered 200 [{success: true}], not 404. *)
Lemma delete_missing_pizza_succeeds :
  admin_session world_admin (Some 1%positive) /\
  no_pizza "42" (db world_admin) /\
  fst (dispatch (Server.app (B := Runtime.builtins))
         (endpoint_request CatalogDelete "42" JUndefined (Some 1%positive)) world_admin)
    = Ok success /\
  code success = 200 /\
  code success <> 404.
Proof.
  split; [apply world_admin_session|].
  split; [intros k _; constructor|].
  split; [vm_compute; reflexivity|]. split; [reflexivity | discriminate].
Qed.

(** C5, amended: when the id matches no stored row, an administrator's
    DELETE on a pizza, an order or a message is answered 200 with a
    success body if the store executes the statement and 500 if it throws;
    it is never answered 404, no exception escapes, and the store is left
    as it was.  (Message deletion is the third revision's; [src/server.js]
    registers none.) *)
Theorem delete_missing_row {B : Builtins} (i : string) (b : JsValue)
    (cookie : option positive) (w : World) :
  admin_session w cookie ->
  let answered := Ok (if executes i (db w) then success else failure) in
  (no_pizza i (db w) ->
     dispatch Server.app (endpoint_request CatalogDelete i b cookie) w =
       (answered, after_query (DeletePizza i) (guard_ran w))) /\
  (no_order i (db w) ->
     dispatch Server.app (endpoint_request OrderDelete i b cookie) w =
       (answered, after_query (DeleteOrder i) (guard_ran w))) /\
  (no_message i (db w) ->
     dispatch Rev3.app (endpoint_request MessageDelete i b cookie) w =
       (answered, after_query (DeleteMessage i) (guard_ran w))) /\
  code success = 200 /\ code failure = 500.
Proof.
  intros Ha answered. subst answered. apply admin_session_truthy in Ha.
  pose proof (delete_handlers_missing (incoming w cookie b i) (guard_ran w)) as (Hp & Ho & Hm).
  split; [|split; [|split; [|split; reflexivity]]]; intros Hno.
  - change (dispatch Server.app (endpoint_request CatalogDelete i b cookie) w)
      with (run_chain [Server.adminAuth; final Server.delete_pizza] (incoming w cookie b i) w).
    rewrite (admin_passes _ _ _ _ _ Ha). exact (Hp Hno).
  - change (dispatch Server.app (endpoint_request OrderDelete i b cookie) w)
      with (run_chain [Server.adminAuth; final Server.delete_order] (incoming w cookie b i) w).
    rewrite (admin_passes _ _ _ _ _ Ha). exact (Ho Hno).
  - change (dispatch Rev3.app (endpoint_request MessageDelete i b cookie) w)
      with (run_chain [Rev3.adminAuth; final Rev3.delete_message] (incoming w cookie b i) w).
    rewrite (rev3_admin_passes _ _ _ _ _ Ha). exact (Hm Hno).
Qed.

Lemma delete_missing_row_witness :
  admin_session world_admin (Some 1%positive) /\
  no_pizza "42" (db world_admin) /\
  dispatch (Server.app (B := Runtime.builtins))
    (endpoint_request CatalogDelete "42" JUndefined (Some 1%positive)) world_admin =
    (Ok (if executes "42" (db world_admin) then success else failure),
     after_query (DeletePizza "42") (guard_ran world_admin)).
Proof.
  assert (H : no_pizza "42" (db world_admin)) by (intros k _; constructor).
  split; [apply world_admin_session|]. split; [exact H|].
  exact (proj1 (delete_missing_row (B := Runtime.builtins) "42" JUndefined
                  (Some 1%positive) world_admin (world_admin_session _ _)) H).
Defined.

(** ** Updating an order *)



Section Columns.
Context {B : Builtins}.




End Columns.



(** A paid order is put back to pending by an administrator's PATCH. *)
Example patch_reverts_paid :
  orders (db (snd (dispatch (Server.app (B := Runtime.builtins))
                     (endpoint_request OrderUpdate "7" revert_to_pending (Some 1%positive))
                     (world_admin_with_order paid_order))))
    = [pending_order].
Proof. vm_compute. reflexivity. Qed.


(** ** Payment confirmation (second revision) *)







(** ** Listing orders *)

Lemma append_length (a b : string) :
  String.length (a ++ b)%string = (String.length a + String.length b)%nat.
Proof.
  induction a as [|c a IH]; [reflexivity|].
  change (S (String.length (a ++ b)%string) = S (String.length a + String.length b)).
  rewrite IH. reflexivity.
Qed.

Lemma utf8_length (cp : Z) : (String.length (Json.utf8 cp) <= 3)%nat.
Proof.
  unfold Json.utf8. destruct (cp <? 128); [cbn; lia|].
  destruct (cp <? 2048); cbn; lia.
Qed.

(** A string literal is longer than the string it denotes: the closing
    quote is read, and an escape is never shorter than what it stands
    for. *)
Lemma string_body_shorter (n : nat) :
  forall s t rest,
    (String.length s <= n)%nat ->
    Json.string_body s = Some (t, rest) ->
    (String.length t + String.length rest < String.length s)%nat.
Proof.
  induction n as [|n IH]; intros s t rest Hn H.
  - destruct s; [discriminate | cbn in Hn; lia].
  - destruct s as [|c r]; [discriminate|]. cbn in Hn. cbn [Json.string_body] in H.
    destruct (c =? dquote)%char.
    { injection H as <- <-. cbn. lia. }
    destruct (c =? "\")%char.
    + destruct r as [|e r1]; [discriminate|]. cbn in Hn.
      destruct (e =? "u")%char.
      * destruct r1 as [|h1 [|h2 [|h3 [|h4 r2]]]]; try discriminate. cbn in Hn.
        destruct (Json.hex_val h1) as [a|]; [|discriminate].
        destruct (Json.hex_val h2) as [b|]; [|discriminate].
        destruct (Json.hex_val h3) as [c'|]; [|discriminate].
        destruct (Json.hex_val h4) as [d|]; [|discriminate]. cbn in H.
        destruct (Json.string_body r2) as [[t' rest']|] eqn:E; [|discriminate].
        cbn in H. injection H as <- <-.
        apply IH in E; [|lia]. rewrite append_length.
        pose proof (utf8_length (((a * 16 + b) * 16 + c') * 16 + d)). cbn. lia.
      * destruct (Json.simple_escape e) as [x|]; [|discriminate]. cbn in H.
        destruct (Json.string_body r1) as [[t' rest']|] eqn:E; [|discriminate].
        cbn in H. injection H as <- <-. apply IH in E; [|lia]. cbn. lia.
    + destruct (Json.code c <? 32); [discriminate|].
      destruct (Json.string_body r) as [[t' rest']|] eqn:E; [|discriminate].
      cbn in H. injection H as <- <-. apply IH in E; [|lia]. cbn. lia.
Qed.

Lemma skip_ws_length (s : string) :
  (String.length (Json.skip_ws s) <= String.length s)%nat.
Proof.
  induction s as [|c r IH]; cbn; [lia|]. destruct (Json.is_ws c); cbn; lia.
Qed.

Lemma keyword_not_string (kw : string) (v : JsValue) (s : string) (t rest : string) :
  typeof_string v = false ->
  Json.keyword kw v s <> Some (JStr t, rest).
Proof.
  intros Hv H. unfold Json.keyword in H. destruct (String.prefix kw s); [|discriminate].
  injection H as -> _. discriminate.
Qed.

(** [value] yields a string only by reading a string literal. *)
Lemma value_string (fuel : nat) (s t rest : string) :
  Json.value fuel s = Some (JStr t, rest) ->
  exists r, Json.skip_ws s = String dquote r /\ Json.string_body r = Some (t, rest).
Proof.
  destruct fuel as [|n]; [discriminate|]. cbn [Json.value].
  destruct (Json.skip_ws s) as [|c r]; [discriminate|].
  destruct (c =? dquote)%char eqn:Eq.
  { apply Ascii.eqb_eq in Eq. subst c.
    destruct (Json.string_body r) as [[t' rest']|] eqn:Eb; [|discriminate].
    cbn. intros [= <- <-]. exists r. split; [reflexivity | exact Eb]. }
  destruct (c =? "[")%char.
  { destruct (Json.skip_ws r) as [|c' r']; [discriminate|].
    destruct (c' =? "]")%char; [discriminate|].
    destruct (Json.elements n r) as [[xs rest']|]; discriminate. }
  destruct (c =? "{")%char.
  { destruct (Json.skip_ws r) as [|c' r']; [discriminate|].
    destruct (c' =? "}")%char; [discriminate|].
    destruct (Json.members n r []) as [[ms rest']|]; discriminate. }
  destruct (c =? "t")%char.
  { intros H. exfalso. revert H. apply keyword_not_string. reflexivity. }
  destruct (c =? "f")%char.
  { intros H. exfalso. revert H. apply keyword_not_string. reflexivity. }
  destruct (c =? "n")%char.
  { intros H. exfalso. revert H. apply keyword_not_string. reflexivity. }
  destruct (Json.number (String c r)) as [[q rest']|]; discriminate.
Qed.

(** When [JSON.parse] yields a string, its argument was the text of a
    string literal, and the result is strictly shorter than the text. *)
Lemma JSON_parse_string (s t : string) :
  JSON_parse s = Some (JStr t) ->
  (exists r, Json.skip_ws s = String dquote r) /\
  (String.length t < String.length s)%nat.
Proof.
  unfold JSON_parse, Json.parse.
  destruct (Json.value _ s) as [[v rest]|] eqn:E; [|discriminate].
  destruct (Json.skip_ws rest); [|discriminate]. intros [= ->].
  apply value_string in E as (r & Hs & Hb). split; [eauto|].
  apply (string_body_shorter (String.length r)) in Hb; [|lia].
  pose proof (skip_ws_length s) as Hl. rewrite Hs in Hl. cbn in Hl. lia.
Qed.

(** *** The fuel of the parser is enough *)

Lemma digits_length (s : string) (ds : list Z) (rest : string) :
  Json.digits s = (ds, rest) ->
  (String.length rest + length ds = String.length s)%nat.
Proof.
  revert ds rest. induction s as [|c r IH]; cbn; intros ds rest H.
  - injection H as <- <-. reflexivity.
  - destruct (Json.digit_val c).
    + destruct (Json.digits r) as [ds' rest'] eqn:E. injection H as <- <-.
      specialize (IH _ _ eq_refl). cbn. lia.
    + injection H as <- <-. cbn. lia.
Qed.

Lemma minus_length (s : string) :
  (String.length (snd (Json.minus s)) <= String.length s)%nat.
Proof.
  destruct s as [|c r]; cbn; [lia|]. destruct (c =? "-")%char; cbn; lia.
Qed.

Lemma sign_length (s : string) :
  (String.length (snd (Json.sign s)) <= String.length s)%nat.
Proof.
  destruct s as [|c r]; cbn; [lia|].
  destruct (c =? "-")%char; [cbn; lia|]. destruct (c =? "+")%char; cbn; lia.
Qed.

Lemma fraction_length (s : string) (fs : list Z) (rest : string) :
  Json.fraction s = Some (fs, rest) -> (String.length rest <= String.length s)%nat.
Proof.
  destruct s as [|c r]; cbn; [intros [= <- <-]; cbn; lia|].
  destruct (c =? ".")%char; [|intros [= <- <-]; cbn; lia].
  destruct (Json.digits r) as [fs' r'] eqn:E. apply digits_length in E.
  destruct fs'; [discriminate|]. intros [= <- <-]. lia.
Qed.

Lemma exponent_length (s : string) (e : Z) (rest : string) :
  Json.exponent s = Some (e, rest) -> (String.length rest <= String.length s)%nat.
Proof.
  destruct s as [|c r]; cbn; [intros [= <- <-]; cbn; lia|].
  destruct ((c =? "e")%char || (c =? "E")%char); [|intros [= <- <-]; cbn; lia].
  pose proof (sign_length r) as Er. destruct (Json.sign r) as [sg r1]. cbn in Er.
  destruct (Json.digits r1) as [es r2] eqn:E. apply digits_length in E.
  destruct es; [discriminate|]. intros [= <- <-]. lia.
Qed.

Lemma number_consumes (s : string) (q : Q) (rest : string) :
  Json.number s = Some (q, rest) -> (String.length rest < String.length s)%nat.
Proof.
  unfold Json.number. pose proof (minus_length s) as Hm.
  destruct (Json.minus s) as [neg s1]. cbn in Hm.
  destruct (Json.digits s1) as [ds s2] eqn:E1. apply digits_length in E1.
  assert (Hrest : forall f : list Z -> Z -> Q,
            ('(fs, s3) ← Json.fraction s2; '(e, s4) ← Json.exponent s3;
             Some (f fs e, s4)) = Some (q, rest) ->
            (String.length rest <= String.length s2)%nat).
  { intros f H.
    destruct (Json.fraction s2) as [[fs s3]|] eqn:Ef; [|discriminate].
    apply fraction_length in Ef. cbn [mbind option_bind] in H.
    destruct (Json.exponent s3) as [[e s4]|] eqn:Ee; [|discriminate].
    apply exponent_length in Ee. cbn [mbind option_bind] in H.
    injection H as _ <-. lia. }
  destruct ds as [|d ds]; [discriminate|]. cbn in E1. intros H.
  assert (Hle : (String.length rest <= String.length s2)%nat).
  { destruct d as [|p|p]; [destruct ds; [|discriminate]| |];
      exact (Hrest (fun fs e => _) H). }
  lia.
Qed.

Lemma substring_length (n m : nat) (s : string) :
  (String.length (String.substring n m s) <= String.length s - n)%nat.
Proof.
  revert n m. induction s as [|c r IH]; intros [|n] [|m]; cbn; try lia.
  - specialize (IH 0%nat m). lia.
  - apply IH.
  - apply IH.
Qed.

Lemma keyword_consumes (kw : string) (v : JsValue) (s : string) (x : JsValue) (rest : string) :
  (0 < String.length kw)%nat ->
  (0 < String.length s)%nat ->
  Json.keyword kw v s = Some (x, rest) ->
  (String.length rest < String.length s)%nat.
Proof.
  intros Hk Hs. unfold Json.keyword. destruct (String.prefix kw s); [|discriminate].
  intros [= _ <-].
  pose proof (substring_length (String.length kw) (String.length s - String.length kw) s).
  lia.
Qed.

(** Whatever the fuel, a successful call reads at least one character. *)
Lemma value_consumes (n : nat) :
  (forall s v rest, Json.value n s = Some (v, rest) ->
     (String.length rest < String.length s)%nat) /\
  (forall s vs rest, Json.elements n s = Some (vs, rest) ->
     (String.length rest < String.length s)%nat) /\
  (forall s acc ms rest, Json.members n s acc = Some (ms, rest) ->
     (String.length rest < String.length s)%nat).
Proof.
  induction n as [|n (IHv & IHe & IHm)]; [repeat split; discriminate|].
  split; [|split].
  - intros s v rest. cbn [Json.value].
    pose proof (skip_ws_length s) as Hs.
    destruct (Json.skip_ws s) as [|c r]; [discriminate|]. cbn in Hs.
    destruct (c =? dquote)%char.
    { destruct (Json.string_body r) as [[t rest']|] eqn:E; [|discriminate].
      intros [= _ <-]. apply (string_body_shorter (String.length r)) in E; lia. }
    destruct (c =? "[")%char.
    { pose proof (skip_ws_length r) as Hr.
      destruct (Json.skip_ws r) as [|c' r']; [discriminate|]. cbn in Hr.
      destruct (c' =? "]")%char; [intros [= _ <-]; lia|].
      destruct (Json.elements n r) as [[xs rest']|] eqn:E; [|discriminate].
      intros [= _ <-]. apply IHe in E. lia. }
    destruct (c =? "{")%char.
    { pose proof (skip_ws_length r) as Hr.
      destruct (Json.skip_ws r) as [|c' r']; [discriminate|]. cbn in Hr.
      destruct (c' =? "}")%char; [intros [= _ <-]; lia|].
      destruct (Json.members n r []) as [[ms rest']|] eqn:E; [|discriminate].
      intros [= _ <-]. apply IHm in E. lia. }
    destruct (c =? "t")%char.
    { intros H. apply keyword_consumes in H; cbn in *; lia. }
    destruct (c =? "f")%char.
    { intros H. apply keyword_consumes in H; cbn in *; lia. }
    destruct (c =? "n")%char.
    { intros H. apply keyword_consumes in H; cbn in *; lia. }
    destruct (Json.number (String c r)) as [[q rest']|] eqn:E; [|discriminate].
    intros [= _ <-]. apply number_consumes in E. cbn in E. lia.
  - intros s vs rest. cbn [Json.elements].
    destruct (Json.value n s) as [[v r1]|] eqn:E; [|discriminate].
    apply IHv in E. cbn [mbind option_bind].
    pose proof (skip_ws_length r1) as Hr.
    destruct (Json.skip_ws r1) as [|c r2]; [discriminate|]. cbn in Hr.
    destruct (c =? ",")%char.
    { destruct (Json.elements n r2) as [[vs' r3]|] eqn:E2; [|discriminate].
      intros [= _ <-]. apply IHe in E2. lia. }
    destruct (c =? "]")%char; [|discriminate]. intros [= _ <-]. lia.
  - intros s acc ms rest. cbn [Json.members].
    pose proof (skip_ws_length s) as Hs.
    destruct (Json.skip_ws s) as [|q r]; [discriminate|]. cbn in Hs.
    destruct (q =? dquote)%char; [|discriminate].
    destruct (Json.string_body r) as [[k r1]|] eqn:E; [|discriminate].
    apply (string_body_shorter (String.length r)) in E; [|lia].
    cbn [mbind option_bind].
    pose proof (skip_ws_length r1) as Hr1.
    destruct (Json.skip_ws r1) as [|c r2]; [discriminate|]. cbn in Hr1.
    destruct (c =? ":")%char; [|discriminate].
    destruct (Json.value n r2) as [[v r3]|] eqn:E2; [|discriminate].
    apply IHv in E2. cbn [mbind option_bind].
    pose proof (skip_ws_length r3) as Hr3.
    destruct (Json.skip_ws r3) as [|c' r4]; [discriminate|]. cbn in Hr3.
    destruct (c' =? ",")%char.
    { intros H. apply IHm in H. lia. }
    destruct (c' =? "}")%char; [|discriminate]. intros [= _ <-]. lia.
Qed.

(** Beyond twice the length of the text, more fuel changes nothing: a
    [None] of [JSON_parse] is a syntax error, never exhausted fuel. *)
Lemma fuel_stable (n : nat) :
  (forall m s, (2 * String.length s + 1 <= n)%nat -> (2 * String.length s + 1 <= m)%nat ->
     Json.value n s = Json.value m s) /\
  (forall m s, (2 * String.length s + 2 <= n)%nat -> (2 * String.length s + 2 <= m)%nat ->
     Json.elements n s = Json.elements m s) /\
  (forall m s acc,
     (2 * String.length s + 1 <= n)%nat -> (2 * String.length s + 1 <= m)%nat ->
     Json.members n s acc = Json.members m s acc).
Proof.
  induction n as [|n (IHv & IHe & IHm)]; [repeat split; intros; lia|].
  split; [|split].
  - intros [|m] s Hn Hm; [lia|]. cbn [Json.value].
    pose proof (skip_ws_length s) as Hs.
    destruct (Json.skip_ws s) as [|c r]; [reflexivity|]. cbn in Hs.
    destruct (c =? dquote)%char; [reflexivity|].
    destruct (c =? "[")%char.
    { destruct (Json.skip_ws r) as [|c' r']; [reflexivity|].
      destruct (c' =? "]")%char; [reflexivity|].
      rewrite (IHe m r) by lia. reflexivity. }
    destruct (c =? "{")%char.
    { destruct (Json.skip_ws r) as [|c' r']; [reflexivity|].
      destruct (c' =? "}")%char; [reflexivity|].
      rewrite (IHm m r []) by lia. reflexivity. }
    reflexivity.
  - intros [|m] s Hn Hm; [lia|]. cbn [Json.elements].
    rewrite (IHv m s) by lia.
    destruct (Json.value m s) as [[v r1]|] eqn:E; [|reflexivity].
    apply (proj1 (value_consumes m)) in E. cbn [mbind option_bind].
    pose proof (skip_ws_length r1) as Hr.
    destruct (Json.skip_ws r1) as [|c r2]; [reflexivity|]. cbn in Hr.
    destruct (c =? ",")%char; [|reflexivity].
    rewrite (IHe m r2) by lia. reflexivity.
  - intros [|m] s acc Hn Hm; [lia|]. cbn [Json.members].
    pose proof (skip_ws_length s) as Hs.
    destruct (Json.skip_ws s) as [|q r]; [reflexivity|]. cbn in Hs.
    destruct (q =? dquote)%char; [|reflexivity].
    destruct (Json.string_body r) as [[k r1]|] eqn:E; [|reflexivity].
    apply (string_body_shorter (String.length r)) in E; [|lia].
    cbn [mbind option_bind].
    pose proof (skip_ws_length r1) as Hr1.
    destruct (Json.skip_ws r1) as [|c r2]; [reflexivity|]. cbn in Hr1.
    destruct (c =? ":")%char; [|reflexivity].
    rewrite (IHv m r2) by lia.
    destruct (Json.value m r2) as [[v r3]|] eqn:E2; [|reflexivity].
    apply (proj1 (value_consumes m)) in E2. cbn [mbind option_bind].
    pose proof (skip_ws_length r3) as Hr3.
    destruct (Json.skip_ws r3) as [|c' r4]; [reflexivity|]. cbn in Hr3.
    destruct (c' =? ",")%char; [|reflexivity].
    apply IHm; lia.
Qed.

Lemma JSON_parse_fuel (n : nat) (s : string) :
  (2 * String.length s + 1 <= n)%nat ->
  JSON_parse s =
    match Json.value n s with
    | Some (v, rest) =>
        match Json.skip_ws rest with EmptyString => Some v | String _ _ => None end
    | None => None
    end.
Proof.
  intros Hn. unfold JSON_parse, Json.parse.
  rewrite (proj1 (fuel_stable (2 * String.length s + 2)) n s) by lia. reflexivity.
Qed.

Lemma JSON_parse_not_identity (s : string) : JSON_parse s <> Some (JStr s).
Proof. intros H. apply JSON_parse_string in H as [_ H]. lia. Qed.

Lemma assoc_put_eq (k : string) (v : JsValue) (l : list (string * JsValue)) :
  assoc k (put k v l) = Some v.
Proof.
  induction l as [|[k' v'] l IH]; cbn.
  - rewrite String.eqb_refl. reflexivity.
  - destruct (String.eqb k k') eqn:E; cbn.
    + rewrite String.eqb_refl. reflexivity.
    + destruct (precedes k k'); cbn.
      * rewrite String.eqb_refl. reflexivity.
      * rewrite E. exact IH.
Qed.

Lemma assoc_put_ne (k k' : string) (v : JsValue) (l : list (string * JsValue)) :
  k <> k' -> assoc k (put k' v l) = assoc k l.
Proof.
  intros Hne. induction l as [|[k0 v0] l IH]; cbn.
  - apply String.eqb_neq in Hne. rewrite Hne. reflexivity.
  - destruct (String.eqb k' k0) eqn:E; cbn.
    + apply String.eqb_eq in E. subst k0.
      apply String.eqb_neq in Hne. rewrite Hne. reflexivity.
    + destruct (precedes k' k0); cbn.
      * apply String.eqb_neq in Hne. rewrite Hne. reflexivity.
      * destruct (String.eqb k k0); [reflexivity | exact IH].
Qed.

Section Listing.
Context {B : Builtins}.

Lemma fix_items_row (o : Order) :
  Server.fix_items (order_row o) =
    match items o with
    | JStr s => v ← JSON_parse s; Some (spread_with (order_row o) "items" v)
    | it => Some (spread_with (order_row o) "items" it)
    end.
Proof.
  unfold Server.fix_items.
  change (destructurable (order_row o)) with true. cbv iota.
  change (get_prop (order_row o) "items") with (items o).
  destruct (items o); reflexivity.
Qed.

Lemma fix_items_listed (o : Order) (out : JsValue) :
  Server.fix_items (order_row o) = Some out -> listed o out.
Proof.
  rewrite fix_items_row.
  assert (Hother : forall v k, k <> "items" ->
            get_prop (spread_with (order_row o) "items" v) k = get_prop (order_row o) k).
  { intros v k Hk. unfold order_row. cbn [spread_with get_prop].
    rewrite assoc_put_ne by exact Hk. reflexivity. }
  assert (Hitems : forall v, get_prop (spread_with (order_row o) "items" v) "items" = v).
  { intros v. unfold order_row. cbn [spread_with get_prop].
    rewrite assoc_put_eq. reflexivity. }
  unfold listed.
  destruct (items o) as [| |b|q|s|xs|fs] eqn:Ei.
  5:{ destruct (JSON_parse s) as [v|] eqn:Ep; [|discriminate].
      cbn [mbind option_bind]. intros [= <-].
      split; [apply Hother|]. split.
      - intros s' [= <-]. exists v. split; [exact Ep|]. split; [apply Hitems|]. split.
        + intros ->. exact (JSON_parse_not_identity s Ep).
        + destruct v; try discriminate. intros _.
          apply JSON_parse_string in Ep as [Hq _]. exact Hq.
      - discriminate. }
  all: intros [= <-]; split; [apply Hother|]; split;
    [discriminate | intros _; apply Hitems].
Qed.

Lemma fix_items_parses (o : Order) :
  is_Some (Server.fix_items (order_row o)) <->
  (forall s, items o = JStr s -> is_Some (JSON_parse s)).
Proof.
  rewrite fix_items_row.
  destruct (items o) as [| |b|q|s|xs|fs];
    try (split; [intros _ s' [=] | intros _; eexists; reflexivity]).
  destruct (JSON_parse s) as [v|] eqn:E.
  - split; [intros _ s' [= <-]; rewrite E; eexists; reflexivity
           | intros _; eexists; reflexivity].
  - split; [intros [? [=]]|].
    intros H. destruct (H s eq_refl) as [? Hx]. rewrite E in Hx. discriminate.
Qed.

(** The statement the listing issues, against a reachable store. *)
Lemma select_orders_run (w : World) :
  pool_query SelectOrders w =
    if online (db w)
    then (Ok {| rows := map order_row (merge_sort newest_first (orders (db w)));
                rowCount := length (merge_sort newest_first (orders (db w))) |},
          after_query SelectOrders w)
    else (Thrown, after_query SelectOrders w).
Proof.
  run. unfold exec. destruct (online (db w)); reflexivity.
Qed.

(** What the listing handler answers, from any state, once the guard has
    let the request through. *)
Lemma get_orders_run (req : Req) (w : World) :
  exists resp w',
    Server.get_orders req w = (Ok resp, w') /\
    (code resp = 200 \/ resp = respond 500 (JArr [])) /\
    (code resp = 200 <-> online (db w) = true /\ items_parse (db w)) /\
    (code resp = 200 ->
       exists outs,
         json resp = JArr outs /\
         Forall2 listed (merge_sort newest_first (orders (db w))) outs).
Proof.
  unfold Server.get_orders, try_catch, bind, of_option, ret, throw.
  rewrite select_orders_run.
  destruct (online (db w)) eqn:Hon; cbn [rows].
  2:{ eexists _, _. split; [reflexivity|].
      split; [right; reflexivity|]. split; [|discriminate].
      split; [discriminate | intros [? _]; discriminate]. }
  set (l := merge_sort newest_first (orders (db w))).
  assert (Hall : is_Some (mapM Server.fix_items (map order_row l)) <-> items_parse (db w)).
  { rewrite mapM_is_Some, Forall_fmap. unfold items_parse.
    rewrite !Forall_forall. unfold compose.
    split; intros H o Ho.
    - apply fix_items_parses. apply H. subst l. rewrite merge_sort_Permutation. exact Ho.
    - apply fix_items_parses. apply H. subst l. rewrite merge_sort_Permutation in Ho.
      exact Ho. }
  destruct (mapM Server.fix_items (map order_row l)) as [outs|] eqn:E.
  - eexists _, _. split; [reflexivity|].
    split; [left; reflexivity|]. split.
    + split; [intros _; split; [reflexivity|]; apply Hall; eexists; reflexivity
             | reflexivity].
    + intros _. exists outs. split; [reflexivity|].
      apply mapM_Some_1 in E. apply Forall2_fmap_l in E.
      eapply Forall2_impl; [exact E|]. cbn. intros o out. apply fix_items_listed.
  - eexists _, _. split; [reflexivity|].
    split; [right; reflexivity|]. split; [|discriminate].
    split; [discriminate|]. intros [_ Hp]. apply Hall in Hp as [? [=]].
Qed.

End Listing.

(** C7, as stated, fails: an order posted with the text of a JSON string
    literal as its [items] is stored as the JSON document for that text;
    the driver returns the text, the listing parses it once, and the
    administrator gets a string for [items], here the serialized array
    ["[1]"]. *)
Lemma get_orders_returns_string :
  admin_session world_admin (Some 1%positive) /\
  get_prop (http_body quoted_items_request) "items" = JStr quoted_items /\
  exists out,
    fst (serve (Server.app (B := Runtime.builtins))
           [quoted_items_request; list_orders_as_admin] world_admin) =
      [ Ok (respond 200 (JObj [("orderId", int 1); ("paymentRequired", JBool false)]));
        Ok (respond 200 (JArr [out])) ] /\
    get_prop out "items" = JStr "[1]" /\
    typeof_string (get_prop out "items") = true /\
    JSON_parse "[1]" = Some (JArr [int 1]).
Proof.
  split; [apply world_admin_session|]. split; [reflexivity|].
  eexists. split; [vm_compute; reflexivity|]. repeat split.
Qed.

(** The first revision returns the rows as the driver gave them: an
    [items] document that is a string comes back as that string. *)
Lemma rev1_get_orders_raw :
  exists out w',
    Rev1.get_orders (B := Runtime.builtins) (anonymous JUndefined "")
      (world_with_order order_with_text_items)
      = (Ok (respond 200 (JArr [out])), w') /\
    get_prop out "items" = JStr "[1]".
Proof.
  eexists _, _. split; [vm_compute; reflexivity|]. reflexivity.
Qed.

(** C7, amended: GET /api/orders of [src/server.js] succeeds exactly when
    the store answers and every stored [items] document that is a string
    holds JSON text.  A successful response returns the stored orders,
    newest first, each with its columns as the driver returned them
    except [items]: a document that is a string is replaced by the result
    of [JSON.parse] on it - never by the string itself - and any other
    document is returned as it is.  The returned [items] is a string
    only when the document is a string that holds a JSON string
    literal. *)
Theorem get_orders_items {B : Builtins} (b : JsValue) (cookie : option positive)
    (w : World) :
  admin_session w cookie ->
  exists resp w',
    dispatch Server.app (endpoint_request OrderList "" b cookie) w = (Ok resp, w') /\
    (code resp = 200 \/ resp = respond 500 (JArr [])) /\
    (code resp = 200 <-> online (db w) = true /\ items_parse (db w)) /\
    (code resp = 200 ->
       exists outs,
         json resp = JArr outs /\
         Forall2 listed (merge_sort newest_first (orders (db w))) outs).
Proof.
  intros Ha. apply admin_session_truthy in Ha.
  change (dispatch Server.app (endpoint_request OrderList "" b cookie) w)
    with (run_chain [Server.adminAuth; final Server.get_orders] (incoming w cookie b "") w).
  rewrite (admin_passes _ _ _ _ _ Ha).
  exact (get_orders_run (incoming w cookie b "") (guard_ran w)).
Qed.

Lemma get_orders_items_witness :
  admin_session (world_admin_with_order order_with_text_items) (Some 1%positive) /\
  exists resp w',
    dispatch (Server.app (B := Runtime.builtins))
      (endpoint_request OrderList "" JUndefined (Some 1%positive))
      (world_admin_with_order order_with_text_items) = (Ok resp, w') /\
    code resp = 200 /\
    exists outs,
      json resp = JArr outs /\
      Forall2 (listed (B := Runtime.builtins))
        (merge_sort newest_first
           (orders (db (world_admin_with_order order_with_text_items))))
        outs.
Proof.
  split; [apply world_admin_session|].
  destruct (get_orders_items (B := Runtime.builtins) JUndefined (Some 1%positive)
              (world_admin_with_order order_with_text_items) (world_admin_session _ _))
    as (resp & w' & Hrun & _ & Hiff & Hok).
  exists resp, w'. split; [exact Hrun|].
  assert (Hc : code resp = 200).
  { apply Hiff. split; [reflexivity|].
    repeat constructor. intros s [= <-]. eexists. reflexivity. }
  split; [exact Hc | exact (Hok Hc)].
Defined.

(** ** The session store stays typed

    Only the login writes a session record, with [admin = true]; the
    logout removes one.  So [sessions_typed], the assumption under which
    the guard was characterised, holds in every state the application
    reaches from a typed one. *)

#[global] Instance keeps_typed_preorder : PreOrder keeps_typed.
Proof.
  split.
  - intros w H. exact H.
  - intros w1 w2 w3 H12 H23 H. apply H23, H12, H.
Qed.

Lemma pool_query_keeps_typed {B : Builtins} (q : Sql) : steps keeps_typed (pool_query q).
Proof. intros w. unfold pool_query. run. intros H. exact H. Qed.

Lemma save_admin_keeps_typed (s : option ReqSession) : steps keeps_typed (save_admin s).
Proof.
  intros w. destruct s as [rs|]; cbn; intros H; [|exact H].
  unfold sessions_typed in *. cbn. apply map_Forall_insert_2; [reflexivity | exact H].
Qed.

Lemma destroy_session_keeps_typed (s : option ReqSession) :
  steps keeps_typed (destroy_session s).
Proof.
  intros w. destruct s as [[[i|] a]|]; cbn; intros H; try exact H.
  unfold sessions_typed in *. cbn. apply map_Forall_delete. exact H.
Qed.

Lemma emit_keeps_typed (e : Event) : steps keeps_typed (emit e).
Proof. intros w H. exact H. Qed.

Ltac typed :=
  step ltac:(first [ apply pool_query_keeps_typed | apply save_admin_keeps_typed
                   | apply destroy_session_keeps_typed | apply emit_keeps_typed ]).

Lemma run_chain_keeps_typed (ms : list Middleware) (req : Req) :
  Forall (fun m : Middleware => forall req, steps keeps_typed (m req)) ms ->
  steps keeps_typed (run_chain ms req).
Proof.
  induction 1 as [|m ms Hm _ IH]; cbn [run_chain].
  - apply steps_ret; exact _.
  - apply steps_bind; [exact _ | apply Hm |].
    intros [|r]; [exact IH | apply steps_ret; exact _].
Qed.

Lemma find_route_In (rs : list Route) (m : Method) (p : list string) (r : Route) (i : string) :
  find_route rs m p = Some (r, i) -> In r rs.
Proof.
  induction rs as [|r0 rs IH]; cbn; [discriminate|].
  destruct (method_eqb (route_method r0) m).
  - destruct (match_path (route_path r0) p "") as [i0|].
    + intros [= <- <-]. left. reflexivity.
    + intros H. right. apply IH, H.
  - intros H. right. apply IH, H.
Qed.

Lemma dispatch_keeps_typed (rs : list Route) (h : HttpRequest) :
  Forall chain_keeps_typed rs ->
  steps keeps_typed (dispatch rs h).
Proof.
  intros Hrs w. unfold dispatch.
  destruct (find_route rs (http_method h) (http_path h)) as [[r i]|] eqn:E.
  - apply find_route_In in E. rewrite Forall_forall in Hrs.
    apply run_chain_keeps_typed. apply Hrs. apply list_elem_of_In. exact E.
  - intros H. exact H.
Qed.

Lemma server_keeps_typed {B : Builtins} (h : HttpRequest) :
  steps keeps_typed (dispatch Server.app h).
Proof.
  apply dispatch_keeps_typed. unfold Server.app, chain_keeps_typed.
  repeat constructor; cbn [route_chain]; repeat constructor; intros req;
    unfold Server.adminAuth, Server.login, Server.logout, Server.get_pizzas,
      Server.post_pizzas, Server.delete_pizza, Server.get_orders,
      Server.post_orders, Server.patch_order, Server.delete_order,
      Server.get_messages, Server.post_messages, Server.health;
    typed.
Qed.

(** Starting from no sessions, every sequence of requests leaves the
    store typed. *)
Lemma server_sessions_typed {B : Builtins} (hs : list HttpRequest) (w : World) :
  sessions w = ∅ ->
  sessions_typed (fold_left (fun w h => snd (dispatch Server.app h w)) hs w).
Proof.
  intros He.
  assert (H : sessions_typed w) by (unfold sessions_typed; rewrite He; apply map_Forall_empty).
  clear He. revert w H. induction hs as [|h hs IH]; intros w H; cbn; [exact H|].
  apply IH. apply server_keeps_typed. exact H.
Qed.

(** ** The end-to-end scenarios of the specification *)

(** A cash-on-delivery order is answered with its id and
    [paymentRequired = false]; the administrator's listing then shows it
    as paid, with its items as they were sent, its total as the text of
    the stored number and its creation time as a date string. *)
Example cod_order_then_listing :
  fst (serve (Server.app (B := Runtime.builtins))
         [cod_order_request; list_orders_as_admin] world_admin) =
    [ Ok (respond 200 (JObj [("orderId", int 1); ("paymentRequired", JBool false)]));
      Ok (respond 200
            (JArr [JObj [("id", int 1); ("name", JStr "A"); ("phone", JStr "1");
                         ("address", JStr "x");
                         ("items", JArr [JObj [("id", int 1); ("qty", int 2)]]);
                         ("total", JStr "20"); ("payment_method", JStr "COD");
                         ("payment_status", JStr "Paid");
                         ("transaction_id", JNull); ("status", JNull);
                         ("created_at", JStr "1970-01-01T00:00:01.000Z")]])) ].
Proof. vm_compute. reflexivity. Qed.

(** Two wrong passwords in a row are both answered 401, and no session is
    created; the right password then still logs in. *)
Example wrong_password_twice :
  fst (serve (Server.app (B := Runtime.builtins))
         [bad_login; bad_login; good_login] world0) =
    [ Ok login_denied; Ok login_denied;
      Ok {| code := 200; json := obj1 "success" (JBool true);
            cookie_op := CookieSet 1%positive |} ] /\
  sessions (snd (serve (Server.app (B := Runtime.builtins)) [bad_login; bad_login] world0))
    = ∅.
Proof. split; vm_compute; reflexivity. Qed.

(** An administrator adds a pizza that has all its fields. *)
Example admin_adds_pizza :
  fst (dispatch (Server.app (B := Runtime.builtins))
         (post_pizzas_request margherita (Some 1%positive)) world_admin) = Ok success.
Proof. vm_compute. reflexivity. Qed.

(** In the second revision a cash-on-delivery order is stored with
    [payment_status = "COD"]; an anonymous confirmation then makes it
    ["Paid"] and records the default transaction id. *)
Example rev2_cod_order_then_confirmation :
  map payment_status
    (orders (db (snd (serve (Rev2.app (B := Runtime.builtins)) [cod_order_request] world0))))
    = [JStr "COD"] /\
  map (fun o => (payment_status o, transaction_id o))
    (orders (db (snd (serve (Rev2.app (B := Runtime.builtins))
                        [cod_order_request; confirm_request "1" (JObj []) None] world0))))
    = [(JStr "Paid", JStr "N/A")].
Proof. split; vm_compute; reflexivity. Qed.

(** A pending order is confirmed with the transaction id the caller
    supplies. *)
Example pending_order_confirmed :
  orders (db (snd (dispatch (Rev2.app (B := Runtime.builtins))
                     (confirm_request "7" (JObj [("transactionId", JStr "TX-1")]) None)
                     (world_with_order pending_order))))
    = [set_transaction_id (JStr "TX-1") paid_order].
Proof. vm_compute. reflexivity. Qed.

(** * Further properties of the handlers *)

(** ** Login and logout *)

Lemma dispatch_login {B : Builtins} (b : JsValue) (cookie : option positive) (w : World) :
  dispatch Server.app (login_request b cookie) w =
    run_chain [final Server.login] (incoming w cookie b "") w.
Proof. reflexivity. Qed.

Lemma dispatch_logout {B : Builtins} (b : JsValue) (cookie : option positive) (w : World) :
  dispatch Server.app (logout_request b cookie) w =
    run_chain [final Server.logout] (incoming w cookie b "") w.
Proof. reflexivity. Qed.

Lemma run_final (h : Req -> Eff Response) (req : Req) (w : World) :
  run_chain [final h] req w = h req w.
Proof.
  cbn [run_chain]. run. destruct (h req w) as [[r|] w']; reflexivity.
Qed.

Lemma load_session_live (w : World) (cookie : option positive) (i : positive) :
  loaded_from (load_session w cookie) = Some i ->
  cookie = Some i /\ live_session w cookie.
Proof.
  unfold load_session, live_session. destruct cookie as [j|]; [|discriminate].
  destruct (sessions w !! j) as [s|] eqn:Hs; [|discriminate].
  destruct (clock w <? expires s) eqn:Hc; [|discriminate].
  cbn. intros [= ->]. split; [reflexivity|]. exists i, s.
  repeat split; [exact Hs | apply Z.ltb_lt; exact Hc].
Qed.

Lemma load_session_not_live (w : World) (cookie : option positive) :
  loaded_from (load_session w cookie) = None ->
  ~ live_session w cookie /\ session_admin (load_session w cookie) = JUndefined.
Proof.
  unfold load_session, live_session. destruct cookie as [j|].
  - destruct (sessions w !! j) as [s|] eqn:Hs.
    + destruct (clock w <? expires s) eqn:Hc; [discriminate|]. intros _.
      split; [|reflexivity]. intros (i & s' & [= <-] & Hs' & Hlt).
      rewrite Hs in Hs'. injection Hs' as <-. apply Z.ltb_ge in Hc. lia.
    + intros _. split; [|reflexivity]. intros (i & s' & [= <-] & Hs' & _). congruence.
  - intros _. split; [|reflexivity]. intros (i & s' & [=] & _).
Qed.

(** X1. A login with the administrator's name and a password that
    [bcrypt.compare] accepts answers 200 [{success: true}] and sets a
    cookie; the session the cookie names is stored with [admin = true] and
    an expiry one hour ahead, so the guard lets the next request with that
    cookie through.  The session written is the caller's own live one or
    one under an id no stored session has; every other session, and the
    store, stay as they were. *)
Theorem login_establishes_session {B : Builtins}
    (b : JsValue) (cookie : option positive) (w : World) :
  destructurable b = true ->
  get_prop b "username" = JStr Server.adminUser_username ->
  bcrypt_compare (get_prop b "password") Server.adminUser_passwordHash = Some true ->
  exists i w',
    dispatch Server.app (login_request b cookie) w = (Ok (logged_in i), w') /\
    sessions w' !! i = Some {| admin := JBool true; expires := clock w + 3600000 |} /\
    (forall j, j <> i -> sessions w' !! j = sessions w !! j) /\
    ((cookie = Some i /\ live_session w cookie) \/
     (~ live_session w cookie /\ sessions w !! i = None)) /\
    db w' = db w /\ clock w' = clock w /\
    admin_session w' (Some i) /\
    (forall b' i', fst (Server.adminAuth (incoming w' (Some i) b' i') w') = Ok Next).
Proof.
  intros Hb Hu Hp. rewrite dispatch_login, run_final.
  unfold Server.login. run. cbn [incoming body session].
  rewrite Hb. apply strict_eq_str_spec in Hu. rewrite Hu. cbn [negb].
  rewrite Hp. cbn [negb]. unfold save_admin.
  set (i := match loaded_from (load_session w cookie) with
            | Some i => i
            | None => fresh (dom (sessions w))
            end).
  eexists i, _. split; [reflexivity|]. cbn [sessions db clock].
  assert (Hi : sessions (
            {| db := db w;
               sessions := <[i := {| admin := JBool true; expires := clock w + maxAge |}]>
                             (sessions w);
               clock := clock w; trace := trace w |}) !! i
          = Some {| admin := JBool true; expires := clock w + 3600000 |}).
  { cbn. rewrite lookup_insert_eq. reflexivity. }
  cbn in Hi.
  split; [exact Hi|].
  split; [intros j Hj; apply lookup_insert_ne; congruence|].
  split.
  { subst i. destruct (loaded_from (load_session w cookie)) as [j|] eqn:Hl.
    - left. apply load_session_live. exact Hl.
    - right. split; [apply load_session_not_live; exact Hl|].
      apply not_elem_of_dom. apply is_fresh. }
  split; [reflexivity|]. split; [reflexivity|].
  assert (Ha : admin_session
            {| db := db w;
               sessions := <[i := {| admin := JBool true; expires := clock w + maxAge |}]>
                             (sessions w);
               clock := clock w; trace := trace w |} (Some i)).
  { exists i, {| admin := JBool true; expires := clock w + 3600000 |}.
    split; [reflexivity|]. split; [exact Hi|]. cbn. split; [lia | reflexivity]. }
  split; [exact Ha|].
  intros b' i'. rewrite adminAuth_run. cbn [fst session incoming].
  rewrite (admin_session_truthy _ _ Ha). reflexivity.
Qed.

Lemma login_establishes_session_witness :
  exists i w',
    dispatch (Server.app (B := Runtime.builtins)) (login_request good_login_body None) world0
      = (Ok (logged_in i), w') /\
    admin_session w' (Some i).
Proof.
  destruct (login_establishes_session (B := Runtime.builtins) good_login_body None world0
              eq_refl eq_refl eq_refl)
    as (i & w' & Hrun & _ & _ & _ & _ & _ & Ha & _).
  exists i, w'. split; assumption.
Defined.

(** X2. A logout always answers 200 [{success: true}] and clears the
    cookie, with or without a live session.  Afterwards the caller's
    cookie names no live session, so the guard answers 401 to it; the
    session is removed from the store and no other session, nor the
    store, changes; without a live session nothing changes at all. *)
Theorem logout_ends_session {B : Builtins}
    (b : JsValue) (cookie : option positive) (w : World) :
  exists w',
    dispatch Server.app (logout_request b cookie) w = (Ok logged_out, w') /\
    ~ live_session w' cookie /\
    (forall b' i',
       fst (Server.adminAuth (incoming w' cookie b' i') w')
         = Ok (Done Server.unauthorized)) /\
    (forall j, cookie <> Some j -> sessions w' !! j = sessions w !! j) /\
    (forall j, live_session w cookie -> cookie = Some j -> sessions w' !! j = None) /\
    (~ live_session w cookie -> sessions w' = sessions w) /\
    db w' = db w /\ clock w' = clock w.
Proof.
  rewrite dispatch_logout, run_final. unfold Server.logout. run.
  cbn [incoming session]. unfold destroy_session.
  assert (Hdeny : forall w', ~ live_session w' cookie ->
            forall b' i',
              fst (Server.adminAuth (incoming w' cookie b' i') w')
                = Ok (Done Server.unauthorized)).
  { intros w' Hn b' i'. rewrite adminAuth_run. cbn [fst session incoming].
    destruct (loaded_from (load_session w' cookie)) as [j|] eqn:Hl.
    - apply load_session_live in Hl as [_ Hlive]. contradiction.
    - apply load_session_not_live in Hl as [_ ->]. reflexivity. }
  destruct (loaded_from (load_session w cookie)) as [i|] eqn:Hl.
  - apply load_session_live in Hl as [-> Hlive]. run.
    eexists. split; [reflexivity|]. cbn [sessions db clock].
    assert (Hn : ~ live_session
              {| db := db w; sessions := delete i (sessions w); clock := clock w;
                 trace := trace w |} (Some i)).
    { intros (j & s & [= <-] & Hs & _). cbn in Hs.
      rewrite lookup_delete_eq in Hs. discriminate. }
    split; [exact Hn|]. split; [apply Hdeny; exact Hn|].
    split; [intros j Hj; apply lookup_delete_ne; congruence|].
    split; [intros j _ [= <-]; apply lookup_delete_eq|].
    split; [intros Hc; contradiction|]. split; reflexivity.
  - apply load_session_not_live in Hl as [Hn _]. run.
    eexists. split; [reflexivity|].
    split; [exact Hn|]. split; [apply Hdeny; exact Hn|].
    split; [reflexivity|]. split; [intros j Hc; contradiction|].
    repeat split.
Qed.

(** ** What the routes leave alone *)

#[global] Instance same_sessions_preorder : PreOrder same_sessions.
Proof.
  split.
  - intros w. split; reflexivity.
  - intros w1 w2 w3 [H1 H1'] [H2 H2']. split; congruence.
Qed.

#[global] Instance same_db_preorder : PreOrder same_db.
Proof.
  split.
  - intros w. reflexivity.
  - intros w1 w2 w3 H1 H2. unfold same_db in *. congruence.
Qed.

Lemma run_chain_steps (R : World -> World -> Prop) `{!PreOrder R}
    (ms : list Middleware) (req : Req) :
  Forall (fun m : Middleware => steps R (m req)) ms ->
  steps R (run_chain ms req).
Proof.
  induction 1 as [|m ms Hm _ IH]; cbn [run_chain].
  - apply steps_ret; exact _.
  - apply steps_bind; [exact _ | apply Hm |].
    intros [|r]; [exact IH | apply steps_ret; exact _].
Qed.

Lemma emit_same_sessions (e : Event) : steps same_sessions (emit e).
Proof. intros w. split; reflexivity. Qed.

Lemma pool_query_same_sessions {B : Builtins} (q : Sql) :
  steps same_sessions (pool_query q).
Proof. intros w. unfold pool_query. run. split; reflexivity. Qed.

Ltac keeps_sessions :=
  step ltac:(first [ apply pool_query_same_sessions | apply emit_same_sessions ]).

Lemma emit_same_db (e : Event) : steps same_db (emit e).
Proof. intros w. reflexivity. Qed.

Lemma save_admin_same_db (s : option ReqSession) : steps same_db (save_admin s).
Proof. intros w. destruct s; reflexivity. Qed.

Lemma destroy_session_same_db (s : option ReqSession) : steps same_db (destroy_session s).
Proof. intros w. destruct s as [[[i|] a]|]; reflexivity. Qed.

Lemma select_same_db {B : Builtins} (q : Sql) :
  q = SelectPizzas \/ q = SelectOrders \/ q = SelectMessages ->
  steps same_db (pool_query q).
Proof.
  intros Hq w. unfold pool_query. run. unfold exec.
  destruct (online (db w)); [|reflexivity].
  destruct Hq as [-> | [-> | ->]]; reflexivity.
Qed.

Ltac keeps_db :=
  step ltac:(first [ apply select_same_db; tauto | apply emit_same_db
                   | apply save_admin_same_db | apply destroy_session_same_db ]).

Ltac chain R :=
  apply (run_chain_steps R);
  repeat first [ apply List.Forall_nil | apply List.Forall_cons ].

(** X3. The catalog, order and message routes never touch the session
    store: whatever the request and its outcome, the sessions are the
    same afterwards - in [src/server.js] and in the second and third
    revisions, the public payment confirmation included.  Only login and
    logout write sessions. *)
Theorem data_routes_keep_sessions {B : Builtins}
    (e : Endpoint) (i : string) (b : JsValue) (cookie : option positive) (w : World) :
  same_sessions w (snd (dispatch Server.app (endpoint_request e i b cookie) w)) /\
  same_sessions w (snd (dispatch Rev2.app (endpoint_request e i b cookie) w)) /\
  same_sessions w (snd (dispatch Rev3.app (endpoint_request e i b cookie) w)) /\
  same_sessions w (snd (dispatch Rev2.app (confirm_request i b cookie) w)).
Proof.
  split; [|split; [|split]].
  - destruct e; unfold Server.app; route; try (split; reflexivity);
      chain same_sessions;
      unfold Server.adminAuth, Server.get_pizzas, Server.post_pizzas,
        Server.delete_pizza, Server.get_orders, Server.post_orders,
        Server.patch_order, Server.delete_order, Server.get_messages,
        Server.post_messages;
      keeps_sessions.
  - destruct e; unfold Rev2.app; route;
      chain same_sessions;
      unfold Rev2.adminAuth, Rev2.get_pizzas, Rev2.post_pizzas,
        Rev2.delete_pizza, Rev2.get_orders, Rev2.post_orders,
        Rev2.patch_order, Rev2.delete_order, Rev2.get_messages,
        Rev2.post_messages, Rev2.delete_message;
      keeps_sessions.
  - destruct e; unfold Rev3.app; route;
      chain same_sessions;
      unfold Rev3.adminAuth, Rev3.delete_message, Server.get_pizzas, Server.post_pizzas,
        Server.delete_pizza, Server.get_orders, Server.post_orders,
        Server.patch_order, Server.delete_order, Server.get_messages,
        Server.post_messages;
      keeps_sessions.
  - unfold Rev2.app; route. chain same_sessions. unfold Rev2.confirm_payment.
    keeps_sessions.
Qed.

(** X4. Listing pizzas, orders or messages, the health check, a login and
    a logout never change the store: every table, sequence and row is the
    same afterwards, whatever the request and its outcome. *)
Theorem reads_keep_store {B : Builtins}
    (i : string) (b : JsValue) (cookie : option positive) (w : World) :
  (forall e, e = CatalogList \/ e = OrderList \/ e = MessageList ->
     db (snd (dispatch Server.app (endpoint_request e i b cookie) w)) = db w) /\
  db (snd (dispatch Server.app (health_request b cookie) w)) = db w /\
  db (snd (dispatch Server.app (login_request b cookie) w)) = db w /\
  db (snd (dispatch Server.app (logout_request b cookie) w)) = db w.
Proof.
  split; [|split; [|split]].
  - intros e [-> | [-> | ->]]; unfold Server.app; route;
      change (same_db w (snd (run_chain [final Server.get_pizzas]
                                (incoming w cookie b "") w))) ||
      change (same_db w (snd (run_chain [Server.adminAuth; final Server.get_orders]
                                (incoming w cookie b "") w))) ||
      change (same_db w (snd (run_chain [Server.adminAuth; final Server.get_messages]
                                (incoming w cookie b "") w)));
      chain same_db;
      unfold Server.adminAuth, Server.get_pizzas, Server.get_orders, Server.get_messages;
      keeps_db.
  - reflexivity.
  - change (same_db w (snd (run_chain [final Server.login] (incoming w cookie b "") w))).
    chain same_db. unfold Server.login. keeps_db.
  - change (same_db w (snd (run_chain [final Server.logout] (incoming w cookie b "") w))).
    chain same_db. unfold Server.logout. keeps_db.
Qed.

(** ** Refusals and failures *)

Lemma rev3_guarded_denied (h : Req -> Eff Response) (req : Req) (w : World)
    (s : ReqSession) :
  session req = Some s ->
  truthy (session_admin s) = false ->
  run_chain [Rev3.adminAuth; final h] req w = (Ok Server.unauthorized, guard_ran w).
Proof.
  intros Hs Ht. cbn [run_chain]. unfold Rev3.adminAuth. run. rewrite Hs, Ht.
  reflexivity.
Qed.

(** X5. Without an admin session every privileged route - creating or
    deleting a pizza, listing, updating or deleting an order, listing or
    deleting a message - answers 401 [{error: "Unauthorized"}] and does
    nothing else: no query is issued, and store and sessions are as
    before.  ([src/server.js] registers no message deletion; the third
    revision does.) *)
Theorem unauthenticated_is_refused {B : Builtins}
    (e : Endpoint) (i : string) (b : JsValue) (cookie : option positive) (w : World) :
  sessions_typed w ->
  ~ admin_session w cookie ->
  privileged e = true ->
  (e <> MessageDelete ->
     dispatch Server.app (endpoint_request e i b cookie) w
       = (Ok Server.unauthorized, guard_ran w)) /\
  dispatch Rev3.app (endpoint_request e i b cookie) w
    = (Ok Server.unauthorized, guard_ran w) /\
  code Server.unauthorized = 401 /\
  db (guard_ran w) = db w /\ sessions (guard_ran w) = sessions w /\
  trace (guard_ran w) = trace w ++ [EvGuard].
Proof.
  intros Hty Hn Hp. apply (no_admin_session_falsy _ _ Hty) in Hn.
  split; [|split; [|repeat split]].
  - intros He. destruct e; try discriminate; try contradiction;
      unfold Server.app; route;
      apply guarded_denied with (s := load_session w cookie); auto.
  - destruct e; try discriminate; unfold Rev3.app; route;
      apply rev3_guarded_denied with (s := load_session w cookie); auto.
Qed.

Lemma unauthenticated_is_refused_witness :
  sessions_typed world_admin /\
  ~ admin_session world_admin None /\
  dispatch (Server.app (B := Runtime.builtins))
    (endpoint_request OrderList "" JUndefined None) world_admin
    = (Ok Server.unauthorized, guard_ran world_admin).
Proof.
  assert (Hn : ~ admin_session world_admin None).
  { intros (i & s & Hc & _). discriminate Hc. }
  split; [exact admin_store_typed|]. split; [exact Hn|].
  refine (proj1 (unauthenticated_is_refused (B := Runtime.builtins) OrderList ""
                   JUndefined None world_admin admin_store_typed Hn eq_refl) _).
  discriminate.
Defined.

Lemma answers_ret {A} (a : A) : answers (ret a).
Proof. intros w. eauto. Qed.

Lemma answers_bind {A C} (m : Eff A) (k : A -> Eff C) :
  answers m -> (forall a, answers (k a)) -> answers (bind m k).
Proof.
  intros Hm Hk w. unfold bind. destruct (Hm w) as (a & w1 & ->). apply Hk.
Qed.

(** A [try] whose [catch] responds always responds. *)
Lemma answers_try_catch {A} (m h : Eff A) : answers h -> answers (try_catch m h).
Proof.
  intros Hh w. unfold try_catch. destruct (m w) as [[a|] w1]; [eauto | apply Hh].
Qed.

Lemma answers_emit (e : Event) : answers (emit e).
Proof. intros w. unfold emit. eauto. Qed.

Lemma answers_run_chain (ms : list Middleware) (req : Req) :
  Forall (fun m : Middleware => answers (m req)) ms ->
  answers (run_chain ms req).
Proof.
  induction 1 as [|m ms Hm _ IH]; cbn [run_chain]; [apply answers_ret|].
  apply answers_bind; [exact Hm|]. intros [|r]; [exact IH | apply answers_ret].
Qed.

Lemma answers_final (h : Req -> Eff Response) (req : Req) :
  answers (h req) -> answers (final h req).
Proof. intros H. apply answers_bind; [exact H | intros; apply answers_ret]. Qed.

Lemma server_chains_answer {B : Builtins} (req : Req) (s : ReqSession) :
  session req = Some s ->
  Forall (fun r => answers (run_chain (route_chain r) req)) Server.app.
Proof.
  intros Hs.
  assert (Hg : answers (Server.adminAuth req)).
  { intros w. rewrite adminAuth_run. eauto. }
  assert (Hl : answers (Server.logout req)).
  { unfold Server.logout. rewrite Hs. apply answers_bind; [|intros; apply answers_ret].
    intros w. destruct s as [[i|] a]; cbn; eauto. }
  unfold Server.app.
  repeat first [ apply List.Forall_nil | apply List.Forall_cons ];
    cbn [route_chain]; apply answers_run_chain;
    repeat first [ apply List.Forall_nil | apply List.Forall_cons ];
    try exact Hg; apply answers_final; try exact Hl;
    first [ apply answers_try_catch; apply answers_ret | apply answers_ret ].
Qed.

(** X6. [src/server.js] answers every request: whatever the method, path,
    body, cookie and state - store unreachable, body absent, malformed id,
    [bcrypt] rejecting - no exception escapes a route; a response is
    always sent. *)
Theorem server_always_answers {B : Builtins} (h : HttpRequest) (w : World) :
  exists resp w', dispatch Server.app h w = (Ok resp, w').
Proof.
  unfold dispatch.
  destruct (find_route Server.app (http_method h) (http_path h)) as [[r i]|] eqn:E;
    [|eauto].
  apply find_route_In in E.
  pose proof (server_chains_answer
                {| body := http_body h; params_id := i;
                   session := Some (load_session w (http_cookie h)) |}
                (load_session w (http_cookie h)) eq_refl) as Hall.
  rewrite List.Forall_forall in Hall. exact (Hall r E w).
Qed.

Lemma rev2_admin_passes {B : Builtins} (h : Req -> Eff Response) (w : World)
    (cookie : option positive) (b : JsValue) (i : string) :
  truthy (session_admin (load_session w cookie)) = true ->
  run_chain [Rev2.adminAuth; final h] (incoming w cookie b i) w =
    h (incoming w cookie b i) (guard_ran w).
Proof.
  intros Ht. cbn [run_chain]. unfold Rev2.adminAuth. run.
  cbn [incoming session]. rewrite Ht. fold (guard_ran w).
  fold (incoming w cookie b i).
  destruct (h (incoming w cookie b i) (guard_ran w)) as [[r|] w']; reflexivity.
Qed.

(** X7. When a request reaches the handlers with no body at all
    ([req.body] is [undefined]), the routes of [src/server.js] that read
    the body answer 500 from their [catch], without a query.  The second
    revision destructures before its [try]: there the handler itself
    throws, sends no response of its own and issues no query.  In both,
    nothing is stored. *)
Theorem missing_body_is_caught {B : Builtins}
    (i : string) (cookie : option positive) (w : World) :
  let b := JUndefined in
  (dispatch Server.app (endpoint_request OrderCreate i b cookie) w = (Ok failure, w) /\
   dispatch Server.app (endpoint_request MessageCreate i b cookie) w = (Ok failure, w) /\
   dispatch Server.app (login_request b cookie) w = (Ok failure, w) /\
   (admin_session w cookie ->
      dispatch Server.app (endpoint_request CatalogCreate i b cookie) w
        = (Ok (respond 500 (obj1 "error" (JStr "Failed to add pizza"))), guard_ran w) /\
      dispatch Server.app (endpoint_request OrderUpdate i b cookie) w
        = (Ok failure, guard_ran w))) /\
  (dispatch Rev2.app (endpoint_request OrderCreate i b cookie) w = (Thrown, w) /\
   dispatch Rev2.app (endpoint_request MessageCreate i b cookie) w = (Thrown, w) /\
   dispatch Rev2.app (login_request b cookie) w = (Thrown, w) /\
   dispatch Rev2.app (confirm_request i b cookie) w = (Thrown, w) /\
   (admin_session w cookie ->
      dispatch Rev2.app (endpoint_request CatalogCreate i b cookie) w
        = (Thrown, guard_ran w) /\
      dispatch Rev2.app (endpoint_request OrderUpdate i b cookie) w
        = (Thrown, guard_ran w))) /\
  db (guard_ran w) = db w.
Proof.
  intros b. split; [|split; [|reflexivity]].
  - split; [reflexivity|]. split; [reflexivity|]. split; [reflexivity|].
    intros Ha. apply admin_session_truthy in Ha. split.
    + change (run_chain [Server.adminAuth; final Server.post_pizzas]
                (incoming w cookie b "") w
              = (Ok (respond 500 (obj1 "error" (JStr "Failed to add pizza"))),
                 guard_ran w)).
      rewrite (admin_passes _ _ _ _ _ Ha). reflexivity.
    + change (run_chain [Server.adminAuth; final Server.patch_order]
                (incoming w cookie b i) w = (Ok failure, guard_ran w)).
      rewrite (admin_passes _ _ _ _ _ Ha). reflexivity.
  - split; [reflexivity|]. split; [reflexivity|]. split; [reflexivity|].
    split; [reflexivity|].
    intros Ha. apply admin_session_truthy in Ha. split.
    + change (run_chain [Rev2.adminAuth; final Rev2.post_pizzas]
                (incoming w cookie b "") w = (Thrown, guard_ran w)).
      rewrite (rev2_admin_passes _ _ _ _ _ Ha). reflexivity.
    + change (run_chain [Rev2.adminAuth; final Rev2.patch_order]
                (incoming w cookie b i) w = (Thrown, guard_ran w)).
      rewrite (rev2_admin_passes _ _ _ _ _ Ha). reflexivity.
Qed.

Lemma pool_query_offline {B : Builtins} (q : Sql) (w : World) :
  online (db w) = false -> pool_query q w = (Thrown, after_query q w).
Proof.
  intros Hoff. unfold pool_query. run. unfold exec. rewrite Hoff. reflexivity.
Qed.

Lemma server_routes {B : Builtins}
    (e : Endpoint) (i : string) (b : JsValue) (cookie : option positive) (w : World) :
  dispatch Server.app (endpoint_request e i b cookie) w =
    match e with
    | CatalogList => run_chain [final Server.get_pizzas] (incoming w cookie b "") w
    | CatalogCreate =>
        run_chain [Server.adminAuth; final Server.post_pizzas] (incoming w cookie b "") w
    | CatalogDelete =>
        run_chain [Server.adminAuth; final Server.delete_pizza] (incoming w cookie b i) w
    | OrderList =>
        run_chain [Server.adminAuth; final Server.get_orders] (incoming w cookie b "") w
    | OrderCreate => run_chain [final Server.post_orders] (incoming w cookie b "") w
    | OrderUpdate =>
        run_chain [Server.adminAuth; final Server.patch_order] (incoming w cookie b i) w
    | OrderDelete =>
        run_chain [Server.adminAuth; final Server.delete_order] (incoming w cookie b i) w
    | MessageList =>
        run_chain [Server.adminAuth; final Server.get_messages] (incoming w cookie b "") w
    | MessageCreate => run_chain [final Server.post_messages] (incoming w cookie b "") w
    | MessageDelete => (Ok not_found, w)
    end.
Proof. destruct e; reflexivity. Qed.

Ltac offline Hoff :=
  run; cbn [incoming body params_id];
  repeat match goal with
         | |- context [destructurable ?b] => destruct (destructurable b)
         | |- context [truthy ?v] => destruct (truthy v)
         end;
  cbn [negb orb]; eexists _, _; run;
  cbn [guard_ran db];
  unfold exec; rewrite ?Hoff; cbn [negb fst snd];
  (split; [reflexivity | split; [reflexivity | auto]]).

(** X8. While the store cannot be reached, every data route of
    [src/server.js] still answers, for an administrator as well: the
    listings with 500 and an empty array, catalog creation with 400 when a
    field is missing and with 500 otherwise, and every other route with
    [500 {success: false}].  The store is left as it was. *)
Theorem store_outage_answers_500 {B : Builtins}
    (e : Endpoint) (i : string) (b : JsValue) (cookie : option positive) (w : World) :
  online (db w) = false ->
  admin_session w cookie ->
  e <> MessageDelete ->
  exists resp w',
    dispatch Server.app (endpoint_request e i b cookie) w = (Ok resp, w') /\
    db w' = db w /\
    match e with
    | CatalogList | OrderList | MessageList => resp = respond 500 (JArr [])
    | CatalogCreate =>
        resp = missing_fields \/
        resp = respond 500 (obj1 "error" (JStr "Failed to add pizza"))
    | _ => resp = failure
    end.
Proof.
  intros Hoff Ha Hne. apply admin_session_truthy in Ha.
  rewrite server_routes.
  destruct e; try (exfalso; apply Hne; reflexivity);
    rewrite ?(admin_passes _ _ _ _ _ Ha), ?run_final;
    unfold Server.get_pizzas, Server.post_pizzas, Server.delete_pizza,
      Server.get_orders, Server.post_orders, Server.patch_order,
      Server.delete_order, Server.get_messages, Server.post_messages,
      destructure, bind, try_catch;
    offline Hoff.
Qed.

Lemma store_outage_answers_500_witness :
  online (db world_admin_offline) = false /\
  admin_session world_admin_offline (Some 1%positive) /\
  OrderList <> MessageDelete /\
  exists resp w',
    dispatch (Server.app (B := Runtime.builtins))
      (endpoint_request OrderList "" JNull (Some 1%positive)) world_admin_offline
      = (Ok resp, w') /\
    db w' = db world_admin_offline /\
    resp = respond 500 (JArr []).
Proof.
  split; [reflexivity|]. split; [apply world_admin_session|].
  split; [discriminate|].
  apply (store_outage_answers_500 (B := Runtime.builtins) OrderList "" JNull
           (Some 1%positive) world_admin_offline);
    [reflexivity | apply world_admin_session | discriminate].
Defined.

(** ** Deleting a row that exists *)

Lemma filter_drops {A} (key : A -> Z) (k : Z) (l : list A) :
  Forall (fun x => key x <> k) (List.filter (fun x => negb (key x =? k)) l).
Proof.
  apply List.Forall_forall. intros x Hx. apply filter_In in Hx as [_ Hx].
  apply negb_true_iff, Z.eqb_neq in Hx. exact Hx.
Qed.

Lemma rev3_delete_route {B : Builtins}
    (i : string) (b : JsValue) (cookie : option positive) (w : World) :
  dispatch Rev3.app (endpoint_request MessageDelete i b cookie) w =
    run_chain [Rev3.adminAuth; final Rev3.delete_message] (incoming w cookie b i) w.
Proof. reflexivity. Qed.

Ltac delete_once Hon Hk :=
  run; cbn [incoming params_id guard_ran db]; unfold exec;
  rewrite Hon; cbn [negb]; rewrite Hk; cbn [mbind option_bind];
  run.

Lemma executes_online (i : string) (k : Z) (d : DB) :
  online d = true -> pg_int i = Some k -> executes i d = true.
Proof. intros Hd Hk. unfold executes. rewrite Hd, Hk. reflexivity. Qed.

Lemma delete_pizza_again {B : Builtins}
    (i : string) (k : Z) (b : JsValue) (cookie : option positive) (w : World) :
  truthy (session_admin (load_session w cookie)) = true ->
  online (db w) = true -> pg_int i = Some k -> no_pizza i (db w) ->
  dispatch Server.app (endpoint_request CatalogDelete i b cookie) w =
    (Ok success, after_query (DeletePizza i) (guard_ran w)).
Proof.
  intros Ha Hon Hk Hno. rewrite server_routes, (admin_passes _ _ _ _ _ Ha).
  destruct (delete_handlers_missing (incoming w cookie b i) (guard_ran w)) as (H1 & _ & _).
  cbn [incoming params_id] in H1. rewrite (H1 Hno).
  change (db (guard_ran w)) with (db w). rewrite (executes_online i k _ Hon Hk).
  reflexivity.
Qed.

Lemma delete_order_again {B : Builtins}
    (i : string) (k : Z) (b : JsValue) (cookie : option positive) (w : World) :
  truthy (session_admin (load_session w cookie)) = true ->
  online (db w) = true -> pg_int i = Some k -> no_order i (db w) ->
  dispatch Server.app (endpoint_request OrderDelete i b cookie) w =
    (Ok success, after_query (DeleteOrder i) (guard_ran w)).
Proof.
  intros Ha Hon Hk Hno. rewrite server_routes, (admin_passes _ _ _ _ _ Ha).
  destruct (delete_handlers_missing (incoming w cookie b i) (guard_ran w)) as (_ & H1 & _).
  cbn [incoming params_id] in H1. rewrite (H1 Hno).
  change (db (guard_ran w)) with (db w). rewrite (executes_online i k _ Hon Hk).
  reflexivity.
Qed.

Lemma delete_message_again {B : Builtins}
    (i : string) (k : Z) (b : JsValue) (cookie : option positive) (w : World) :
  truthy (session_admin (load_session w cookie)) = true ->
  online (db w) = true -> pg_int i = Some k -> no_message i (db w) ->
  dispatch Rev3.app (endpoint_request MessageDelete i b cookie) w =
    (Ok success, after_query (DeleteMessage i) (guard_ran w)).
Proof.
  intros Ha Hon Hk Hno. rewrite rev3_delete_route, (rev3_admin_passes _ _ _ _ _ Ha).
  destruct (delete_handlers_missing (incoming w cookie b i) (guard_ran w)) as (_ & _ & H1).
  cbn [incoming params_id] in H1. rewrite (H1 Hno).
  change (db (guard_ran w)) with (db w). rewrite (executes_online i k _ Hon Hk).
  reflexivity.
Qed.

(** X9. An administrator's DELETE with a key the store accepts is answered
    200 [{success: true}] and removes exactly the rows of that table with
    that key: the remaining rows keep their order, the other tables and the
    sequences are untouched, and no row with the key is left, so repeating
    the request changes nothing.  This holds for pizzas and orders in
    [src/server.js] and for messages in the third revision. *)
Theorem delete_removes_row {B : Builtins}
    (i : string) (k : Z) (b : JsValue) (cookie : option positive) (w : World) :
  online (db w) = true ->
  admin_session w cookie ->
  pg_int i = Some k ->
  (exists w' w'',
     dispatch Server.app (endpoint_request CatalogDelete i b cookie) w = (Ok success, w') /\
     db w' = with_pizzas (db w)
               (List.filter (fun p => negb (pz_id p =? k)) (pizzas (db w)))
               (pizzas_id_seq (db w)) /\
     no_pizza i (db w') /\
     dispatch Server.app (endpoint_request CatalogDelete i b cookie) w' = (Ok success, w'') /\
     db w'' = db w') /\
  (exists w' w'',
     dispatch Server.app (endpoint_request OrderDelete i b cookie) w = (Ok success, w') /\
     db w' = with_orders (db w)
               (List.filter (fun o => negb (id o =? k)) (orders (db w)))
               (orders_id_seq (db w)) /\
     no_order i (db w') /\
     dispatch Server.app (endpoint_request OrderDelete i b cookie) w' = (Ok success, w'') /\
     db w'' = db w') /\
  (exists w' w'',
     dispatch Rev3.app (endpoint_request MessageDelete i b cookie) w = (Ok success, w') /\
     db w' = with_messages (db w)
               (List.filter (fun m => negb (msg_id m =? k)) (messages (db w)))
               (messages_id_seq (db w)) /\
     no_message i (db w') /\
     dispatch Rev3.app (endpoint_request MessageDelete i b cookie) w' = (Ok success, w'') /\
     db w'' = db w').
Proof.
  intros Hon Ha Hk. apply admin_session_truthy in Ha.
  split; [|split].
  - rewrite server_routes, (admin_passes _ _ _ _ _ Ha).
    unfold Server.delete_pizza. delete_once Hon Hk.
    assert (Hno : no_pizza i (with_pizzas (db w)
               (List.filter (fun p => negb (pz_id p =? k)) (pizzas (db w)))
               (pizzas_id_seq (db w)))).
    { intros k' Hk'. replace k' with k by congruence.
      destruct (db w); cbn. apply (filter_drops pz_id). }
    eexists _, _. split; [reflexivity|]. cbn [db]. split; [reflexivity|].
    split; [exact Hno|]. split.
    + apply (delete_pizza_again i k); [exact Ha | destruct (db w); exact Hon | exact Hk | exact Hno].
    + reflexivity.
  - rewrite server_routes, (admin_passes _ _ _ _ _ Ha).
    unfold Server.delete_order. delete_once Hon Hk.
    assert (Hno : no_order i (with_orders (db w)
               (List.filter (fun o => negb (id o =? k)) (orders (db w)))
               (orders_id_seq (db w)))).
    { intros k' Hk'. replace k' with k by congruence.
      destruct (db w); cbn. apply (filter_drops id). }
    eexists _, _. split; [reflexivity|]. cbn [db]. split; [reflexivity|].
    split; [exact Hno|]. split.
    + apply (delete_order_again i k); [exact Ha | destruct (db w); exact Hon | exact Hk | exact Hno].
    + reflexivity.
  - rewrite rev3_delete_route, (rev3_admin_passes _ _ _ _ _ Ha).
    unfold Rev3.delete_message. delete_once Hon Hk.
    assert (Hno : no_message i (with_messages (db w)
               (List.filter (fun m => negb (msg_id m =? k)) (messages (db w)))
               (messages_id_seq (db w)))).
    { intros k' Hk'. replace k' with k by congruence.
      destruct (db w); cbn. apply (filter_drops msg_id). }
    eexists _, _. split; [reflexivity|]. cbn [db]. split; [reflexivity|].
    split; [exact Hno|]. split.
    + apply (delete_message_again i k); [exact Ha | destruct (db w); exact Hon | exact Hk | exact Hno].
    + reflexivity.
Qed.

Lemma delete_removes_row_witness :
  online (db (world_admin_with_order paid_order)) = true /\
  admin_session (world_admin_with_order paid_order) (Some 1%positive) /\
  pg_int "7" = Some 7 /\
  orders (db (world_admin_with_order paid_order)) = [paid_order] /\
  exists w' w'',
    dispatch (Server.app (B := Runtime.builtins))
      (endpoint_request OrderDelete "7" JUndefined (Some 1%positive))
      (world_admin_with_order paid_order)
      = (Ok success, w') /\
    orders (db w') = [] /\
    no_order "7" (db w') /\
    dispatch (Server.app (B := Runtime.builtins))
      (endpoint_request OrderDelete "7" JUndefined (Some 1%positive)) w'
      = (Ok success, w'') /\
    db w'' = db w'.
Proof.
  split; [reflexivity|]. split; [apply world_admin_session|].
  split; [reflexivity|]. split; [reflexivity|].
  destruct (delete_removes_row (B := Runtime.builtins) "7" 7 JUndefined (Some 1%positive)
              (world_admin_with_order paid_order) eq_refl (world_admin_session _ _) eq_refl)
    as (_ & (w' & w'' & H1 & H2 & H3 & H4 & H5) & _).
  exists w', w''. split; [exact H1|]. split; [rewrite H2; reflexivity|].
  split; [exact H3|]. split; [exact H4 | exact H5].
Defined.

(** ** Keys are unique and never reused *)

Lemma fresh_append {A} (key : A -> Z) (seq : Z) (l : list A) (x : A) :
  key x = seq ->
  Forall (fun a => key a < seq) l /\ NoDup (map key l) ->
  Forall (fun a => key a < seq + 1) (l ++ [x]) /\ NoDup (map key (l ++ [x])).
Proof.
  intros Hx [Hl Hn]. split.
  - apply List.Forall_app. split.
    + eapply List.Forall_impl; [|exact Hl]. cbn. intros a Ha. lia.
    + constructor; [lia | constructor].
  - apply NoDup_ListNoDup in Hn. apply NoDup_ListNoDup.
    rewrite map_app. cbn [map]. induction l as [|a l IH]; cbn.
    + constructor; [intros []|constructor].
    + apply List.Forall_cons_iff in Hl as [Ha Hl].
      apply List.NoDup_cons_iff in Hn as [Hna Hn].
      apply List.NoDup_cons_iff. split; [|exact (IH Hl Hn)].
      intros Hin. apply in_app_or in Hin as [Hin | [Hin | []]]; [exact (Hna Hin)|].
      lia.
Qed.

Lemma fresh_filter {A} (key : A -> Z) (seq : Z) (f : A -> bool) (l : list A) :
  Forall (fun a => key a < seq) l /\ NoDup (map key l) ->
  Forall (fun a => key a < seq) (List.filter f l) /\ NoDup (map key (List.filter f l)).
Proof.
  intros [Hl Hn]. split.
  - apply List.Forall_forall. intros a Ha. apply filter_In in Ha as [Ha _].
    rewrite List.Forall_forall in Hl. exact (Hl a Ha).
  - clear Hl. apply NoDup_ListNoDup in Hn. apply NoDup_ListNoDup.
    induction l as [|a l IH]; cbn; [constructor|].
    apply List.NoDup_cons_iff in Hn as [Hna Hn].
    destruct (f a); [|exact (IH Hn)]. cbn. apply List.NoDup_cons_iff.
    split; [|exact (IH Hn)]. intros Hin. apply Hna.
    apply in_map_iff in Hin as (a' & Ha' & Hin). apply filter_In in Hin as [Hin _].
    apply in_map_iff. exists a'. split; assumption.
Qed.

Lemma fresh_update (k seq : Z) (f : Order -> Order) (l : list Order) :
  (forall o, id (f o) = id o) ->
  Forall (fun o => id o < seq) l /\ NoDup (map id l) ->
  Forall (fun o => id o < seq) (update_where k f l) /\
  NoDup (map id (update_where k f l)).
Proof.
  intros Hf [Hl Hn].
  assert (Hid : map id (update_where k f l) = map id l).
  { unfold update_where. rewrite map_map. apply map_ext. intros o.
    destruct (id o =? k); [apply Hf | reflexivity]. }
  split; [|rewrite Hid; exact Hn].
  unfold update_where. apply List.Forall_map.
  eapply List.Forall_impl; [|exact Hl]. cbn. intros o Ho.
  destruct (id o =? k); [rewrite Hf|]; exact Ho.
Qed.

Lemma seqs_grow_refl (d : DB) : seqs_grow d d.
Proof. repeat split; lia. Qed.

Lemma fresh_bump {A} (key : A -> Z) (seq : Z) (l : list A) :
  Forall (fun a => key a < seq) l /\ NoDup (map key l) ->
  Forall (fun a => key a < seq + 1) l /\ NoDup (map key l).
Proof.
  intros [Hl Hn]. split; [|exact Hn].
  eapply List.Forall_impl; [|exact Hl]. cbn. intros a Ha. lia.
Qed.

Section Keys.
Context {B : Builtins}.

Lemma new_pizza_id (d : DB) (n : JsValue) (p : JsNumber) (i : JsValue) (row : Pizza) :
  new_pizza d n p i = Some row -> pz_id row = pizzas_id_seq d.
Proof.
  unfold new_pizza.
  destruct (as_varchar 100 (prepareValue n)); [|discriminate].
  destruct (as_numeric _); [|discriminate].
  destruct (as_text (prepareValue i)); [|discriminate].
  cbn. intros [= <-]. reflexivity.
Qed.

Lemma new_message_id (d : DB) (n e m : JsValue) (row : Message) :
  new_message d n e m = Some row -> msg_id row = messages_id_seq d.
Proof.
  unfold new_message.
  destruct (as_varchar 100 (prepareValue n)); [|discriminate].
  destruct (as_varchar 100 (prepareValue e)); [|discriminate].
  destruct (as_text (prepareValue m)); [|discriminate].
  cbn. intros [= <-]. reflexivity.
Qed.

Lemma update_order_keeps_keys (d : DB) (n : nat) (v : JsValue) (i : string)
    (set : JsValue -> Order -> Order) :
  (forall c o, id (set c o) = id o) ->
  keys_fresh d ->
  keys_fresh (snd (update_order d n v i set)) /\
  seqs_grow d (snd (update_order d n v i set)).
Proof.
  intros Hset Hk. unfold update_order.
  destruct (pg_int i) as [k|]; [|split; [exact Hk | apply seqs_grow_refl]].
  destruct (as_varchar n (prepareValue v)) as [c|];
    [|split; [exact Hk | apply seqs_grow_refl]].
  destruct Hk as (Hp & Ho & Hm). cbn [snd]. unfold keys_fresh, seqs_grow.
  cbn [with_orders pizzas orders messages pizzas_id_seq orders_id_seq messages_id_seq].
  split; [|lia]. split; [assumption|]. split; [|assumption].
  apply fresh_update; [apply Hset | assumption].
Qed.

Lemma exec_keeps_keys (q : Sql) (d : DB) :
  keys_fresh d -> keys_fresh (snd (exec q d)) /\ seqs_grow d (snd (exec q d)).
Proof.
  intros Hk. unfold exec.
  destruct (online d); cbn [negb]; [|split; [exact Hk | apply seqs_grow_refl]].
  destruct q; try (split; [exact Hk | apply seqs_grow_refl]);
    try (apply update_order_keeps_keys; [intros; reflexivity | exact Hk]).
  - destruct (new_pizza d name0 price image) as [row|] eqn:E;
      [|split; [exact Hk | apply seqs_grow_refl]].
    apply new_pizza_id in E. destruct Hk as (Hp & Ho & Hm).
    destruct (is_null (pz_name row) || is_null (pz_price row));
      cbn [snd]; unfold keys_fresh, seqs_grow;
      cbn [with_pizzas pizzas orders messages pizzas_id_seq orders_id_seq messages_id_seq];
      (split; [|lia]); (split; [|split; assumption]).
    + apply fresh_bump. exact Hp.
    + apply fresh_append; assumption.
  - destruct (pg_int id0) as [k|]; [|split; [exact Hk | apply seqs_grow_refl]].
    destruct Hk as (Hp & Ho & Hm). cbn [snd]. unfold keys_fresh, seqs_grow.
    cbn [with_pizzas pizzas orders messages pizzas_id_seq orders_id_seq messages_id_seq].
    split; [|lia]. split; [|split; assumption]. apply fresh_filter. exact Hp.
  - destruct (new_order d name0 phone0 address0 items0 total0 payment_method0
                payment_status0) as [row|] eqn:E;
      [|split; [exact Hk | apply seqs_grow_refl]].
    apply new_order_columns in E as (E & _). destruct Hk as (Hp & Ho & Hm).
    cbn [snd]. unfold keys_fresh, seqs_grow.
    cbn [with_orders pizzas orders messages pizzas_id_seq orders_id_seq messages_id_seq].
    split; [|lia]. split; [assumption|]. split; [|assumption].
    apply fresh_append; assumption.
  - destruct (pg_int id0) as [k|]; [|split; [exact Hk | apply seqs_grow_refl]].
    destruct Hk as (Hp & Ho & Hm). cbn [snd]. unfold keys_fresh, seqs_grow.
    cbn [with_orders pizzas orders messages pizzas_id_seq orders_id_seq messages_id_seq].
    split; [|lia]. split; [assumption|]. split; [|assumption].
    apply fresh_filter. exact Ho.
  - destruct (new_message d name0 email message) as [row|] eqn:E;
      [|split; [exact Hk | apply seqs_grow_refl]].
    apply new_message_id in E. destruct Hk as (Hp & Ho & Hm).
    cbn [snd]. unfold keys_fresh, seqs_grow.
    cbn [with_messages pizzas orders messages pizzas_id_seq orders_id_seq
         messages_id_seq].
    split; [|lia]. split; [assumption|]. split; [assumption|].
    apply fresh_append; assumption.
  - destruct (pg_int id0) as [k|]; [|split; [exact Hk | apply seqs_grow_refl]].
    destruct Hk as (Hp & Ho & Hm). cbn [snd]. unfold keys_fresh, seqs_grow.
    cbn [with_messages pizzas orders messages pizzas_id_seq orders_id_seq
         messages_id_seq].
    split; [|lia]. split; [assumption|]. split; [assumption|].
    apply fresh_filter. exact Hm.
Qed.

End Keys.

#[global] Instance keeps_keys_preorder : PreOrder keeps_keys.
Proof.
  split.
  - intros w H. split; [exact H | apply seqs_grow_refl].
  - intros w1 w2 w3 H12 H23 H1.
    destruct (H12 H1) as [H2 (a & b & c)].
    destruct (H23 H2) as [H3 (a' & b' & c')].
    split; [exact H3|]. repeat split; lia.
Qed.

Lemma pool_query_keeps_keys {B : Builtins} (q : Sql) : steps keeps_keys (pool_query q).
Proof.
  intros w. unfold pool_query. run. exact (exec_keeps_keys q (db w)).
Qed.

Lemma same_db_keeps_keys {A} (m : Eff A) : steps same_db m -> steps keeps_keys m.
Proof.
  intros H w Hk. specialize (H w). unfold same_db in H. rewrite H.
  split; [exact Hk | apply seqs_grow_refl].
Qed.

Ltac keeps_fresh :=
  step ltac:(first [ apply pool_query_keeps_keys
                   | apply same_db_keeps_keys;
                     first [ apply emit_same_db | apply save_admin_same_db
                           | apply destroy_session_same_db ] ]).

Lemma dispatch_steps (R : World -> World -> Prop) `{!PreOrder R}
    (rs : list Route) (h : HttpRequest) :
  List.Forall (fun r => forall req,
                 List.Forall (fun m : Middleware => steps R (m req)) (route_chain r)) rs ->
  steps R (dispatch rs h).
Proof.
  intros Hrs w. unfold dispatch.
  destruct (find_route rs (http_method h) (http_path h)) as [[r i]|] eqn:E.
  - apply find_route_In in E. rewrite List.Forall_forall in Hrs.
    apply (run_chain_steps R). apply Hrs, E.
  - reflexivity.
Qed.

Lemma serve_steps (R : World -> World -> Prop) `{!PreOrder R}
    (app : list Route) (hs : list HttpRequest) (w : World) :
  (forall h, steps R (dispatch app h)) ->
  R w (snd (serve app hs w)).
Proof.
  intros Hd. revert w. induction hs as [|h hs IH]; intros w; cbn [serve].
  - reflexivity.
  - specialize (Hd h w). destruct (dispatch app h w) as [r w1]. cbn [snd] in Hd.
    specialize (IH w1). destruct (serve app hs w1) as [rs w2]. cbn [snd] in *.
    etransitivity; eassumption.
Qed.

Ltac routes :=
  repeat first [ apply List.Forall_nil | apply List.Forall_cons ];
  intros ?; cbn [route_chain];
  repeat first [ apply List.Forall_nil | apply List.Forall_cons ].

(** X10. Primary keys stay unique and are never reused.  If, in each
    table, the keys are pairwise different and below the table's sequence,
    then this still holds after any sequence of requests - well-formed or
    not, authorised or not - and no sequence has gone back; so a key
    freed by a DELETE is never given to a later row.  This holds for
    [src/server.js] and for the second and third revisions. *)
Theorem keys_stay_fresh {B : Builtins} (hs : list HttpRequest) (w : World) :
  keys_fresh (db w) ->
  (keys_fresh (db (snd (serve Server.app hs w))) /\
   seqs_grow (db w) (db (snd (serve Server.app hs w)))) /\
  (keys_fresh (db (snd (serve Rev2.app hs w))) /\
   seqs_grow (db w) (db (snd (serve Rev2.app hs w)))) /\
  (keys_fresh (db (snd (serve Rev3.app hs w))) /\
   seqs_grow (db w) (db (snd (serve Rev3.app hs w)))).
Proof.
  intros Hk. split; [|split].
  - refine (serve_steps keeps_keys Server.app hs w _ Hk).
    intros h. apply (dispatch_steps keeps_keys). unfold Server.app. routes;
      unfold Server.adminAuth, Server.login, Server.logout, Server.get_pizzas,
        Server.post_pizzas, Server.delete_pizza, Server.get_orders,
        Server.post_orders, Server.patch_order, Server.delete_order,
        Server.get_messages, Server.post_messages, Server.health;
      keeps_fresh.
  - refine (serve_steps keeps_keys Rev2.app hs w _ Hk).
    intros h. apply (dispatch_steps keeps_keys). unfold Rev2.app. routes;
      unfold Rev2.adminAuth, Rev2.login, Rev2.logout, Rev2.get_pizzas,
        Rev2.post_pizzas, Rev2.delete_pizza, Rev2.get_orders,
        Rev2.post_orders, Rev2.confirm_payment, Rev2.patch_order, Rev2.delete_order,
        Rev2.get_messages, Rev2.post_messages, Rev2.delete_message;
      keeps_fresh.
  - refine (serve_steps keeps_keys Rev3.app hs w _ Hk).
    intros h. apply (dispatch_steps keeps_keys). unfold Rev3.app. routes;
      unfold Rev3.adminAuth, Rev3.delete_message, Rev3.login,
        Server.logout, Server.get_pizzas,
        Server.post_pizzas, Server.delete_pizza, Server.get_orders,
        Server.post_orders, Server.patch_order, Server.delete_order,
        Server.get_messages, Server.post_messages, Server.health;
      keeps_fresh.
Qed.

Lemma keys_stay_fresh_witness :
  keys_fresh (db world0) /\
  keys_fresh (db (snd (serve (Server.app (B := Runtime.builtins))
                         [cod_order_request; cod_order_request] world0))).
Proof.
  assert (H : keys_fresh (db world0)).
  { repeat split; constructor. }
  split; [exact H|].
  apply (keys_stay_fresh (B := Runtime.builtins) [cod_order_request; cod_order_request]
           world0 H).
Defined.

(** ** The listings *)

#[global] Instance by_id_total : Total by_id.
Proof. intros a b. unfold by_id. lia. Qed.
#[global] Instance by_id_trans : Transitive by_id.
Proof. intros a b c. unfold by_id. lia. Qed.
#[global] Instance newest_first_total : Total newest_first.
Proof. intros a b. unfold newest_first. lia. Qed.
#[global] Instance newest_first_trans : Transitive newest_first.
Proof. intros a b c. unfold newest_first. lia. Qed.
#[global] Instance newest_msg_first_total : Total newest_msg_first.
Proof. intros a b. unfold newest_msg_first. lia. Qed.
#[global] Instance newest_msg_first_trans : Transitive newest_msg_first.
Proof. intros a b c. unfold newest_msg_first. lia. Qed.

Section Statements.
Context {B : Builtins}.

Lemma select_pizzas_run (w : World) :
  online (db w) = true ->
  pool_query SelectPizzas w =
    (Ok {| rows := map pizza_row (merge_sort by_id (pizzas (db w)));
           rowCount := length (merge_sort by_id (pizzas (db w))) |},
     after_query SelectPizzas w).
Proof. intros Hon. run. unfold exec. rewrite Hon. reflexivity. Qed.

Lemma select_messages_run (w : World) :
  online (db w) = true ->
  pool_query SelectMessages w =
    (Ok {| rows := map message_row (merge_sort newest_msg_first (messages (db w)));
           rowCount := length (merge_sort newest_msg_first (messages (db w))) |},
     after_query SelectMessages w).
Proof. intros Hon. run. unfold exec. rewrite Hon. reflexivity. Qed.

Lemma get_pizzas_run (req : Req) (w : World) :
  online (db w) = true ->
  Server.get_pizzas req w =
    (Ok (respond 200 (JArr (map pizza_row (merge_sort by_id (pizzas (db w)))))),
     after_query SelectPizzas w).
Proof.
  intros Hon. unfold Server.get_pizzas, try_catch, bind, ret.
  rewrite (select_pizzas_run w Hon). reflexivity.
Qed.

Lemma get_messages_run (req : Req) (w : World) :
  online (db w) = true ->
  Server.get_messages req w =
    (Ok (respond 200
           (JArr (map message_row (merge_sort newest_msg_first (messages (db w)))))),
     after_query SelectMessages w).
Proof.
  intros Hon. unfold Server.get_messages, try_catch, bind, ret.
  rewrite (select_messages_run w Hon). reflexivity.
Qed.

(** One [INSERT INTO pizzas] against a reachable store. *)
Lemma insert_pizza_run (n : JsValue) (p : JsNumber) (i : JsValue) (w : World) :
  online (db w) = true ->
  pool_query (InsertPizza n p i) w =
    match new_pizza (db w) n p i with
    | Some row =>
        if is_null (pz_name row) || is_null (pz_price row)
        then (Thrown,
              {| db := with_pizzas (db w) (pizzas (db w)) (pizzas_id_seq (db w) + 1);
                 sessions := sessions w; clock := clock w;
                 trace := trace w ++ [EvQuery (InsertPizza n p i)] |})
        else (Ok {| rows := []; rowCount := 1 |},
              {| db := with_pizzas (db w) (pizzas (db w) ++ [row])
                         (pizzas_id_seq (db w) + 1);
                 sessions := sessions w; clock := clock w;
                 trace := trace w ++ [EvQuery (InsertPizza n p i)] |})
    | None => (Thrown, after_query (InsertPizza n p i) w)
    end.
Proof.
  intros Hon. run. unfold exec. rewrite Hon. cbn [negb].
  destruct (new_pizza (db w) n p i) as [row|]; [|reflexivity].
  destruct (is_null (pz_name row) || is_null (pz_price row)); reflexivity.
Qed.

(** One [INSERT INTO messages] against a reachable store. *)
Lemma insert_message_run (n e m : JsValue) (w : World) :
  online (db w) = true ->
  pool_query (InsertMessage n e m) w =
    match new_message (db w) n e m with
    | Some row =>
        (Ok {| rows := []; rowCount := 1 |},
         {| db := with_messages (db w) (messages (db w) ++ [row])
                    (messages_id_seq (db w) + 1);
            sessions := sessions w; clock := clock w;
            trace := trace w ++ [EvQuery (InsertMessage n e m)] |})
    | None => (Thrown, after_query (InsertMessage n e m) w)
    end.
Proof.
  intros Hon. run. unfold exec. rewrite Hon. cbn [negb].
  destruct (new_message (db w) n e m); reflexivity.
Qed.

Lemma new_pizza_columns (d : DB) (n : JsValue) (p : JsNumber) (i : JsValue) (row : Pizza) :
  new_pizza d n p i = Some row ->
  pz_id row = pizzas_id_seq d /\
  as_varchar 100 (prepareValue n) = Some (pz_name row) /\
  numeric_in (Number_toString p) = Some (default "" (match pz_price row with
                                                     | JStr r => Some r
                                                     | _ => None
                                                     end)) /\
  typeof_string (pz_price row) = true /\
  as_text (prepareValue i) = Some (pz_image row).
Proof.
  unfold new_pizza, as_numeric.
  destruct (as_varchar 100 (prepareValue n)); [|discriminate].
  destruct (has_nul (Number_toString p)); [discriminate|].
  destruct (numeric_in (Number_toString p)); [|discriminate].
  destruct (as_text (prepareValue i)); [|discriminate].
  cbn. intros [= <-]. cbn. repeat split.
Qed.

Lemma new_message_columns (d : DB) (n e m : JsValue) (row : Message) :
  new_message d n e m = Some row ->
  msg_id row = messages_id_seq d /\
  as_varchar 100 (prepareValue n) = Some (msg_name row) /\
  as_varchar 100 (prepareValue e) = Some (msg_email row) /\
  as_text (prepareValue m) = Some (msg_message row) /\
  msg_created_at row = current_timestamp d.
Proof.
  unfold new_message.
  destruct (as_varchar 100 (prepareValue n)); [|discriminate].
  destruct (as_varchar 100 (prepareValue e)); [|discriminate].
  destruct (as_text (prepareValue m)); [|discriminate].
  cbn. intros [= <-]. cbn. repeat split.
Qed.

Lemma new_message_accepted (d : DB) (n e m : JsValue) :
  is_Some (new_message d n e m) <-> message_accepted n e m.
Proof.
  unfold new_message, message_accepted.
  destruct (as_varchar 100 (prepareValue n));
    [|cbn; split; [intros [? [=]] | intros ([? [=]] & _)]].
  destruct (as_varchar 100 (prepareValue e));
    [|cbn; split; [intros [? [=]] | intros (_ & [? [=]] & _)]].
  destruct (as_text (prepareValue m));
    [|cbn; split; [intros [? [=]] | intros (_ & _ & [? [=]])]].
  cbn. split; intros _; repeat split; eexists; reflexivity.
Qed.

Lemma in_listing {A} (R : relation A) `{!forall a b, Decision (R a b)}
    (l : list A) (x : A) :
  In x (merge_sort R (l ++ [x])).
Proof.
  apply list_elem_of_In. rewrite merge_sort_Permutation.
  apply list_elem_of_In, in_or_app. right. left. reflexivity.
Qed.

End Statements.

(** X11. While the store is reachable, each listing of [src/server.js]
    returns every stored row exactly once, in the order of its query: the
    pizzas by ascending id, the messages and the orders from the newest
    [created_at] to the oldest; each row is before every later one in
    that order.  The order listing needs every [items] document that is
    a string to hold JSON text, and shows the rows as [listed]. *)
Theorem listings_complete_and_sorted {B : Builtins}
    (b : JsValue) (cookie : option positive) (w : World) :
  online (db w) = true ->
  (exists l,
     fst (dispatch Server.app (endpoint_request CatalogList "" b cookie) w)
       = Ok (respond 200 (JArr (map pizza_row l))) /\
     l ≡ₚ pizzas (db w) /\ StronglySorted by_id l) /\
  (admin_session w cookie ->
   (exists l,
      fst (dispatch Server.app (endpoint_request MessageList "" b cookie) w)
        = Ok (respond 200 (JArr (map message_row l))) /\
      l ≡ₚ messages (db w) /\ StronglySorted newest_msg_first l) /\
   (items_parse (db w) ->
    exists l outs resp,
      fst (dispatch Server.app (endpoint_request OrderList "" b cookie) w) = Ok resp /\
      code resp = 200 /\ json resp = JArr outs /\
      l ≡ₚ orders (db w) /\ StronglySorted newest_first l /\
      Forall2 listed l outs)).
Proof.
  intros Hon. split.
  - exists (merge_sort by_id (pizzas (db w))). split; [|split].
    + rewrite server_routes, run_final, (get_pizzas_run _ w Hon). reflexivity.
    + apply merge_sort_Permutation.
    + apply StronglySorted_merge_sort; exact _.
  - intros Ha. apply admin_session_truthy in Ha. split.
    + exists (merge_sort newest_msg_first (messages (db w))). split; [|split].
      * rewrite server_routes, (admin_passes _ _ _ _ _ Ha).
        rewrite (get_messages_run _ (guard_ran w) Hon). reflexivity.
      * apply merge_sort_Permutation.
      * apply StronglySorted_merge_sort; exact _.
    + intros Hp. rewrite server_routes, (admin_passes _ _ _ _ _ Ha).
      destruct (get_orders_run (incoming w cookie b "") (guard_ran w))
        as (resp & w' & Hrun & _ & Hok & Hrows).
      assert (Hc : code resp = 200) by (apply Hok; split; assumption).
      destruct (Hrows Hc) as (outs & Hj & Hl).
      exists (merge_sort newest_first (orders (db w))), outs, resp.
      rewrite Hrun. split; [reflexivity|]. split; [exact Hc|]. split; [exact Hj|].
      split; [apply merge_sort_Permutation|].
      split; [apply StronglySorted_merge_sort; exact _ | exact Hl].
Qed.

Lemma listings_complete_and_sorted_witness :
  online (db world_admin_with_catalog) = true /\
  pizzas (db world_admin_with_catalog) = [funghi_row; margherita_row] /\
  fst (dispatch (Server.app (B := Runtime.builtins))
         (endpoint_request CatalogList "" JUndefined None) world_admin_with_catalog)
    = Ok (respond 200
            (JArr [ JObj [("id", int 1); ("name", JStr "Margherita");
                          ("price", JStr "9"); ("image", JStr "m.png")];
                    JObj [("id", int 2); ("name", JStr "Funghi");
                          ("price", JStr "10.50"); ("image", JStr "f.png")] ])) /\
  exists l,
    fst (dispatch (Server.app (B := Runtime.builtins))
           (endpoint_request CatalogList "" JUndefined None) world_admin_with_catalog)
      = Ok (respond 200 (JArr (map pizza_row l))) /\
    l ≡ₚ pizzas (db world_admin_with_catalog) /\ StronglySorted by_id l.
Proof.
  split; [reflexivity|]. split; [reflexivity|]. split; [vm_compute; reflexivity|].
  exact (proj1 (listings_complete_and_sorted (B := Runtime.builtins) JUndefined None
                  world_admin_with_catalog eq_refl)).
Defined.

(** ** Creating rows *)

(** X12. A POST /api/orders that reaches the store with values it accepts
    appends one order and nothing else: its id is the sequence value,
    which the response returns as [orderId] and which then advances by
    one; each of name, phone, address, total and payment method is held as
    its column reads the value sent (an absent one as NULL), [items] as
    the document its serialized text denotes, [transaction_id] and
    [status] as NULL, [created_at] as the store's current time.  The
    response asks for payment exactly when the stored status is
    ["Pending"].  With fresh keys, no earlier order has the new id.  When
    the store refuses a value, the answer is 500 and the store is as
    before. *)
Theorem order_creation_record {B : Builtins}
    (b : JsValue) (cookie : option positive) (w : World) :
  destructurable b = true ->
  online (db w) = true ->
  let pm := js_or (get_prop b "paymentMethod") (JStr "COD") in
  let accepted :=
    order_accepted (get_prop b "name") (get_prop b "phone") (get_prop b "address")
      (JSON_stringify (get_prop b "items")) (get_prop b "total") pm in
  (accepted ->
   exists o resp w',
     dispatch Server.app (endpoint_request OrderCreate "" b cookie) w = (Ok resp, w') /\
     db w' = with_orders (db w) (orders (db w) ++ [o]) (orders_id_seq (db w) + 1) /\
     code resp = 200 /\
     get_prop (json resp) "orderId" = int (id o) /\
     (paymentRequired resp = JBool true <-> payment_status o = JStr "Pending") /\
     (paymentRequired resp = JBool false <-> payment_status o = JStr "Paid") /\
     id o = orders_id_seq (db w) /\
     as_varchar 100 (prepareValue (get_prop b "name")) = Some (name o) /\
     as_varchar 20 (prepareValue (get_prop b "phone")) = Some (phone o) /\
     as_text (prepareValue (get_prop b "address")) = Some (address o) /\
     as_json (prepareValue (JSON_stringify (get_prop b "items"))) = Some (items o) /\
     as_numeric (prepareValue (get_prop b "total")) = Some (total o) /\
     as_varchar 50 (prepareValue pm) = Some (payment_method o) /\
     transaction_id o = JNull /\ status o = JNull /\
     created_at o = current_timestamp (db w) /\
     same_sessions w w' /\
     (keys_fresh (db w) -> Forall (fun o' => id o' <> id o) (orders (db w)))) /\
  (~ accepted ->
   exists w',
     dispatch Server.app (endpoint_request OrderCreate "" b cookie) w = (Ok failure, w') /\
     orders (db w') = orders (db w) /\ same_sessions w w').
Proof.
  intros Hb Hon pm accepted. subst accepted.
  rewrite server_routes, run_final.
  rewrite (post_orders_run (incoming w cookie b "") w Hb Hon).
  cbn [incoming body]. fold pm.
  set (ps := if strict_eq_str pm "COD" then JStr "Paid" else JStr "Pending").
  assert (Hps : as_varchar 20 (prepareValue ps) = Some ps).
  { subst ps. destruct (strict_eq_str pm "COD"); reflexivity. }
  pose proof (new_order_accepted (db w) (get_prop b "name") (get_prop b "phone")
                (get_prop b "address") (JSON_stringify (get_prop b "items"))
                (get_prop b "total") pm ps (ex_intro _ _ Hps)) as Hacc.
  destruct (new_order _ _ _ _ _ _ _ _) as [o|] eqn:E.
  - split; [|intros Hn; contradiction Hn; apply Hacc; eexists; reflexivity].
    intros _. exists o. eexists _, _. split; [reflexivity|].
    apply new_order_columns in E
      as (Hid & Hn & Hp & Ha & Hi & Ht & Hpm & Hs & Htx & Hst & Hca).
    rewrite Hps in Hs. injection Hs as Hs.
    split; [reflexivity|]. split; [reflexivity|].
    split; [cbn; rewrite Hid; reflexivity|].
    unfold paymentRequired. cbn [json respond get_prop assoc String.eqb Ascii.eqb
                                 Bool.eqb default].
    rewrite <- Hs. subst ps.
    split; [|split].
    + destruct (strict_eq_str pm "COD"); cbn; split; congruence.
    + destruct (strict_eq_str pm "COD"); cbn; split; congruence.
    + repeat (split; [assumption|]). split; [split; reflexivity|].
      intros (_ & (Hlt & _) & _). eapply List.Forall_impl; [|exact Hlt].
      cbn. intros o' Ho'. lia.
  - split; [intros Ha; apply Hacc in Ha as [? [=]]|].
    intros _. eexists. split; [reflexivity|]. split; [reflexivity | split; reflexivity].
Qed.

Lemma order_creation_record_witness :
  destructurable (body order_paid_online) = true /\
  online (db world0) = true /\
  exists o resp w',
    dispatch (Server.app (B := Runtime.builtins))
      (endpoint_request OrderCreate "" (body order_paid_online) None) world0
      = (Ok resp, w') /\
    code resp = 200 /\
    get_prop (json resp) "orderId" = int (id o) /\
    orders (db w') = [o] /\
    total o = JStr "20" /\
    items o = JArr [JObj [("id", int 1); ("qty", int 2)]].
Proof.
  split; [reflexivity|]. split; [reflexivity|].
  destruct (proj1 (order_creation_record (B := Runtime.builtins) (body order_paid_online)
                     None world0 eq_refl eq_refl))
    as (o & resp & w' & H1 & H2 & H3 & H4 & _ & _ & _ & _ & _ & _ & H5 & H6 & _).
  { vm_compute. repeat split; eexists; reflexivity. }
  exists o, resp, w'. split; [exact H1|]. split; [exact H3|]. split; [exact H4|].
  split; [rewrite H2; reflexivity|].
  split.
  - match type of H6 with
    | ?l = _ => assert (E : l = Some (JStr "20")) by (vm_compute; reflexivity)
    end.
    rewrite E in H6. injection H6 as <-. reflexivity.
  - match type of H5 with
    | ?l = _ =>
        assert (E : l = Some (JArr [JObj [("id", int 1); ("qty", int 2)]]))
          by (vm_compute; reflexivity)
    end.
    rewrite E in H5. injection H5 as <-. reflexivity.
Defined.

(** X13. What is created is then listed.  An administrator's POST
    /api/pizzas with all three fields, whose values the store accepts,
    appends a pizza with the next id - its name and image as their columns
    read them, its price as the text of the stored number - and the public
    catalog listing that follows contains its row; when the store refuses
    a value the answer is 500 and no pizza is stored.  A public POST
    /api/messages whose values the store accepts appends a message that
    the administrator's listing then contains; otherwise the answer is 500
    and the store is as before. *)
Theorem created_rows_are_listed {B : Builtins}
    (b : JsValue) (cookie : option positive) (w : World) :
  destructurable b = true ->
  online (db w) = true ->
  admin_session w cookie ->
  (truthy (get_prop b "name") = true ->
   truthy (get_prop b "price") = true ->
   truthy (get_prop b "image") = true ->
   (forall p,
      new_pizza (db w) (get_prop b "name") (js_Number (get_prop b "price"))
        (get_prop b "image") = Some p ->
      is_null (pz_name p) = false ->
      pz_id p = pizzas_id_seq (db w) /\
      as_varchar 100 (prepareValue (get_prop b "name")) = Some (pz_name p) /\
      typeof_string (pz_price p) = true /\
      as_text (prepareValue (get_prop b "image")) = Some (pz_image p) /\
      exists w' l,
        dispatch Server.app (endpoint_request CatalogCreate "" b cookie) w
          = (Ok success, w') /\
        db w' = with_pizzas (db w) (pizzas (db w) ++ [p]) (pizzas_id_seq (db w) + 1) /\
        fst (dispatch Server.app (endpoint_request CatalogList "" b None) w')
          = Ok (respond 200 (JArr (map pizza_row l))) /\
        In p l) /\
   (new_pizza (db w) (get_prop b "name") (js_Number (get_prop b "price"))
      (get_prop b "image") = None ->
    exists w',
      dispatch Server.app (endpoint_request CatalogCreate "" b cookie) w
        = (Ok (respond 500 (obj1 "error" (JStr "Failed to add pizza"))), w') /\
      pizzas (db w') = pizzas (db w))) /\
  (forall m,
     new_message (db w) (get_prop b "name") (get_prop b "email") (get_prop b "message")
       = Some m ->
     msg_id m = messages_id_seq (db w) /\
     as_varchar 100 (prepareValue (get_prop b "name")) = Some (msg_name m) /\
     as_varchar 100 (prepareValue (get_prop b "email")) = Some (msg_email m) /\
     as_text (prepareValue (get_prop b "message")) = Some (msg_message m) /\
     msg_created_at m = current_timestamp (db w) /\
     exists w' l,
       dispatch Server.app (endpoint_request MessageCreate "" b None) w = (Ok success, w') /\
       db w' = with_messages (db w) (messages (db w) ++ [m]) (messages_id_seq (db w) + 1) /\
       fst (dispatch Server.app (endpoint_request MessageList "" b cookie) w')
         = Ok (respond 200 (JArr (map message_row l))) /\
       In m l) /\
  (new_message (db w) (get_prop b "name") (get_prop b "email") (get_prop b "message")
     = None ->
   exists w',
     dispatch Server.app (endpoint_request MessageCreate "" b None) w = (Ok failure, w') /\
     messages (db w') = messages (db w)).
Proof.
  intros Hb Hon Ha. apply admin_session_truthy in Ha. split; [|split].
  - intros Hn Hp Hi.
    assert (Hrun : forall w0, online (db w0) = true ->
              Server.post_pizzas (incoming w cookie b "") w0 =
                match pool_query (InsertPizza (get_prop b "name")
                                    (js_Number (get_prop b "price")) (get_prop b "image")) w0
                with
                | (Ok _, w1) => (Ok success, w1)
                | (Thrown, w1) =>
                    (Ok (respond 500 (obj1 "error" (JStr "Failed to add pizza"))), w1)
                end).
    { intros w0 _. unfold Server.post_pizzas, try_catch, bind, destructure, ret.
      cbn [incoming body]. rewrite Hb, Hn, Hp, Hi. cbn [negb orb].
      destruct (pool_query _ w0) as [[r|] w1]; reflexivity. }
    split.
    + intros p Hnew Hnn.
      pose proof (new_pizza_columns _ _ _ _ _ Hnew) as (Hid & Hname & _ & Hprice & Himg).
      repeat (split; [assumption|]).
      rewrite server_routes, (admin_passes _ _ _ _ _ Ha), (Hrun (guard_ran w) Hon).
      rewrite (insert_pizza_run _ _ _ (guard_ran w) Hon).
      cbn [guard_ran db]. rewrite Hnew, Hnn.
      assert (Hpn : is_null (pz_price p) = false).
      { destruct (pz_price p); try discriminate. reflexivity. }
      rewrite Hpn. cbn [orb].
      eexists _, _. split; [reflexivity|]. cbn [db]. split; [reflexivity|].
      rewrite server_routes, run_final, get_pizzas_run by exact Hon.
      cbn [fst db with_pizzas pizzas]. split; [reflexivity|]. apply in_listing.
    + intros Hnew.
      rewrite server_routes, (admin_passes _ _ _ _ _ Ha), (Hrun (guard_ran w) Hon).
      rewrite (insert_pizza_run _ _ _ (guard_ran w) Hon).
      cbn [guard_ran db]. rewrite Hnew.
      eexists. split; [reflexivity|]. reflexivity.
  - intros m Hnew.
    pose proof (new_message_columns _ _ _ _ _ Hnew) as (Hid & Hn & He & Hm & Hc).
    repeat (split; [assumption|]).
    rewrite server_routes, run_final.
    unfold Server.post_messages, try_catch, bind, destructure, ret.
    cbn [incoming body]. rewrite Hb, (insert_message_run _ _ _ w Hon), Hnew.
    eexists _, _. split; [reflexivity|]. cbn [db]. split; [reflexivity|].
    rewrite server_routes, admin_passes by exact Ha.
    rewrite get_messages_run by exact Hon.
    cbn [fst db guard_ran with_messages messages]. split; [reflexivity|]. apply in_listing.
  - intros Hnew. rewrite server_routes, run_final.
    unfold Server.post_messages, try_catch, bind, destructure, ret.
    cbn [incoming body]. rewrite Hb, (insert_message_run _ _ _ w Hon), Hnew.
    eexists. split; reflexivity.
Qed.

Lemma created_rows_are_listed_witness :
  destructurable margherita = true /\
  online (db world_admin) = true /\
  admin_session world_admin (Some 1%positive) /\
  new_pizza (B := Runtime.builtins) (db world_admin) (get_prop margherita "name")
    (js_Number (Builtins := Runtime.builtins) (get_prop margherita "price"))
    (get_prop margherita "image")
    = Some margherita_row /\
  exists w' l,
    dispatch (Server.app (B := Runtime.builtins))
      (endpoint_request CatalogCreate "" margherita (Some 1%positive)) world_admin
      = (Ok success, w') /\
    fst (dispatch (Server.app (B := Runtime.builtins))
           (endpoint_request CatalogList "" margherita None) w')
      = Ok (respond 200 (JArr (map pizza_row l))) /\
    In margherita_row l.
Proof.
  split; [reflexivity|]. split; [reflexivity|]. split; [apply world_admin_session|].
  split; [reflexivity|].
  destruct (proj1 (proj1 (created_rows_are_listed (B := Runtime.builtins) margherita
                            (Some 1%positive) world_admin eq_refl eq_refl
                            (world_admin_session empty_db []))
                     eq_refl eq_refl eq_refl) margherita_row eq_refl eq_refl)
    as (_ & _ & _ & _ & w' & l & H1 & _ & H3 & H4).
  exists w', l. repeat split; assumption.
Defined.

(** ** Updating an order in the second revision *)





(** ** Creating an order in the second revision *)

Lemma rev2_post_orders_route {B : Builtins}
    (b : JsValue) (cookie : option positive) (w : World) :
  dispatch Rev2.app (endpoint_request OrderCreate "" b cookie) w =
    run_chain [final Rev2.post_orders] (incoming w cookie b "") w.
Proof. reflexivity. Qed.

(** X15. In the second revision a POST /api/orders whose values the store
    accepts stores the [paymentMethod] as its column reads the value
    sent, without a default: cash on delivery is stored with
    [payment_status = "COD"] and asks for no payment; every other request
    - one without a [paymentMethod] included - is stored as ["Pending"]
    and asks for payment.  No order is ["Paid"] when created.  When the
    store refuses a value the answer is 500 and nothing is stored. *)
Theorem rev2_post_orders_status {B : Builtins}
    (b : JsValue) (cookie : option positive) (w : World) :
  destructurable b = true ->
  online (db w) = true ->
  let accepted :=
    order_accepted (get_prop b "name") (get_prop b "phone") (get_prop b "address")
      (JSON_stringify (get_prop b "items")) (get_prop b "total")
      (get_prop b "paymentMethod") in
  (accepted ->
   exists o resp w',
     dispatch Rev2.app (endpoint_request OrderCreate "" b cookie) w = (Ok resp, w') /\
     db w' = with_orders (db w) (orders (db w) ++ [o]) (orders_id_seq (db w) + 1) /\
     code resp = 200 /\
     get_prop (json resp) "orderId" = int (id o) /\
     as_varchar 50 (prepareValue (get_prop b "paymentMethod")) = Some (payment_method o) /\
     (get_prop b "paymentMethod" = JStr "COD" ->
        payment_status o = JStr "COD" /\ paymentRequired resp = JBool false) /\
     (get_prop b "paymentMethod" <> JStr "COD" ->
        payment_status o = JStr "Pending" /\ paymentRequired resp = JBool true) /\
     payment_status o <> JStr "Paid") /\
  (~ accepted ->
   exists w',
     dispatch Rev2.app (endpoint_request OrderCreate "" b cookie) w
       = (Ok Rev2.database_error, w') /\
     orders (db w') = orders (db w)).
Proof.
  intros Hb Hon accepted. subst accepted.
  rewrite rev2_post_orders_route, run_final.
  unfold Rev2.post_orders, try_catch, bind, destructure, first_row_id, ret.
  cbn [incoming body]. rewrite Hb, (insert_order_run _ _ _ _ _ _ _ w Hon).
  set (pm := get_prop b "paymentMethod").
  set (ps := if strict_eq_str pm "COD" then JStr "COD" else JStr "Pending").
  assert (Hps : as_varchar 20 (prepareValue ps) = Some ps).
  { subst ps. destruct (strict_eq_str pm "COD"); reflexivity. }
  pose proof (new_order_accepted (db w) (get_prop b "name") (get_prop b "phone")
                (get_prop b "address") (JSON_stringify (get_prop b "items"))
                (get_prop b "total") pm ps (ex_intro _ _ Hps)) as Hacc.
  destruct (new_order _ _ _ _ _ _ _ _) as [o|] eqn:E.
  - split; [|intros Hn; contradiction Hn; apply Hacc; eexists; reflexivity].
    intros _. exists o. eexists _, _. split; [reflexivity|].
    apply new_order_columns in E as (Hid & _ & _ & _ & _ & _ & Hpm & Hs & _).
    rewrite Hps in Hs. injection Hs as Hs.
    split; [reflexivity|]. split; [reflexivity|].
    split; [cbn; rewrite Hid; reflexivity|]. split; [exact Hpm|].
    unfold paymentRequired. cbn [json respond get_prop assoc String.eqb Ascii.eqb
                                 Bool.eqb default].
    rewrite <- Hs. subst ps.
    destruct (strict_eq_str pm "COD") eqn:Ec; cbn.
    + split; [split; reflexivity|]. split; [|discriminate].
      intros Hne. apply strict_eq_str_false in Hne. congruence.
    + split; [|split; [split; reflexivity | discriminate]].
      intros Heq. rewrite Heq in Ec. discriminate Ec.
  - split; [intros Ha; apply Hacc in Ha as [? [=]]|].
    intros _. eexists. split; reflexivity.
Qed.

Lemma rev2_post_orders_status_witness :
  destructurable (body order_without_method) = true /\
  online (db world0) = true /\
  exists o resp w',
    dispatch (Rev2.app (B := Runtime.builtins))
      (endpoint_request OrderCreate "" (body order_without_method) None) world0
      = (Ok resp, w') /\
    orders (db w') = [o] /\
    payment_status o = JStr "Pending" /\ paymentRequired resp = JBool true.
Proof.
  split; [reflexivity|]. split; [reflexivity|].
  destruct (proj1 (rev2_post_orders_status (B := Runtime.builtins)
                     (body order_without_method) None world0 eq_refl eq_refl))
    as (o & resp & w' & H1 & Hdb & _ & _ & _ & _ & H2 & _).
  { vm_compute. repeat split; eexists; reflexivity. }
  exists o, resp, w'. split; [exact H1|]. split; [rewrite Hdb; reflexivity|].
  apply H2. discriminate.
Defined.

(** ** The guard in each revision *)

Lemma load_session_strict (w : World) (cookie : option positive) :
  Rev1.strict_true (session_admin (load_session w cookie)) = true <->
  admin_session w cookie.
Proof.
  unfold load_session, admin_session. split.
  - destruct cookie as [i|]; [|discriminate].
    destruct (sessions w !! i) as [s|] eqn:Hs; [|discriminate].
    destruct (clock w <? expires s) eqn:Hc; [|discriminate].
    cbn. intros Ht. exists i, s. repeat split; try assumption.
    + apply Z.ltb_lt. exact Hc.
    + destruct (admin s) as [| |[|]| | | |]; cbn in *; congruence.
  - intros (i & s & -> & Hs & Hc & Ha). rewrite Hs.
    apply Z.ltb_lt in Hc. rewrite Hc. cbn. rewrite Ha. reflexivity.
Qed.

(** X16. The four versions of [adminAuth] compared.  The first revision
    tests [req.session.admin === true]: it lets a request through exactly
    when the cookie names a stored, unexpired session whose [admin] is
    [true], whatever else the session store holds, and answers 401
    [{success: false}] otherwise.  While every stored [admin] is a boolean
    or absent, the four guards let the same requests through.  On a
    request without a session object, only [src/server.js], which tests
    [req.session] first, answers 401; the revisions throw.  Every guard
    leaves the store and the sessions as they were. *)
Theorem guards_across_revisions (w : World) (cookie : option positive)
    (b : JsValue) (i : string) (req : Req) :
  let r := incoming w cookie b i in
  ((fst (Rev1.adminAuth r w) = Ok Next <-> admin_session w cookie) /\
   (~ admin_session w cookie -> fst (Rev1.adminAuth r w) = Ok (Done login_denied))) /\
  (sessions_typed w ->
   (fst (Server.adminAuth r w) = Ok Next <-> admin_session w cookie) /\
   (fst (Rev2.adminAuth r w) = Ok Next <-> admin_session w cookie) /\
   (fst (Rev3.adminAuth r w) = Ok Next <-> admin_session w cookie)) /\
  (session req = None ->
   Server.adminAuth req w = (Ok (Done Server.unauthorized), guard_ran w) /\
   Rev1.adminAuth req w = (Thrown, guard_ran w) /\
   Rev2.adminAuth req w = (Thrown, guard_ran w) /\
   Rev3.adminAuth req w = (Thrown, guard_ran w)) /\
  snd (Server.adminAuth req w) = guard_ran w /\
  snd (Rev1.adminAuth req w) = guard_ran w /\
  snd (Rev2.adminAuth req w) = guard_ran w /\
  snd (Rev3.adminAuth req w) = guard_ran w.
Proof.
  intros r. subst r. split; [|split; [|split]].
  - pose proof (load_session_strict w cookie) as Hiff.
    unfold Rev1.adminAuth. run. cbn [incoming session].
    destruct (Rev1.strict_true (session_admin (load_session w cookie))); cbn [fst].
    + split; [split; [intros _; apply Hiff; reflexivity | reflexivity]|].
      intros Hn. exfalso. apply Hn, Hiff. reflexivity.
    + split; [|reflexivity]. split; [discriminate|].
      intros Ha. apply Hiff in Ha. discriminate Ha.
  - intros Hty. pose proof (load_session_admin w cookie Hty) as Hiff.
    unfold Server.adminAuth, Rev2.adminAuth, Rev3.adminAuth. run. cbn [incoming session].
    destruct (truthy (session_admin (load_session w cookie))); cbn [fst];
      (split; [|split]); (split; [intros H; first [apply Hiff; reflexivity | discriminate H]
                                 | intros Ha; apply Hiff in Ha;
                                   first [reflexivity | discriminate Ha]]).
  - intros Hs. unfold Server.adminAuth, Rev1.adminAuth, Rev2.adminAuth, Rev3.adminAuth.
    run. rewrite Hs. repeat split.
  - unfold Server.adminAuth, Rev1.adminAuth, Rev2.adminAuth, Rev3.adminAuth. run.
    destruct (session req) as [s|]; cbn;
      [destruct (truthy (session_admin s)), (Rev1.strict_true (session_admin s))|];
      repeat split.
Qed.

(** ** Login across the revisions *)

(** X17. The login of [src/server.js] refines the login of the second
    revision: whenever the revision's handler answers, [src/server.js]
    gives the same answer and reaches the same state; whenever the
    revision's handler throws - no body, or the password comparison
    rejects - [src/server.js] answers 500 [{success: false}] from the
    state the revision stopped in.  In the other direction the login of
    [src/server.js] always answers. *)
Theorem login_refines_rev2 {B : Builtins} (req : Req) (w : World) :
  match Rev2.login req w with
  | (Ok r, w') => Server.login req w = (Ok r, w')
  | (Thrown, w') => Server.login req w = (Ok failure, w')
  end /\
  exists r w', Server.login req w = (Ok r, w').
Proof.
  unfold Rev2.login, Server.login. run.
  unfold Rev2.adminUser_username, Rev2.adminUser_passwordHash,
    Server.adminUser_username, Server.adminUser_passwordHash.
  destruct (destructurable (body req)); [|split; [reflexivity | eexists _, _; reflexivity]].
  destruct (strict_eq_str (get_prop (body req) "username") "Owner"); cbn [negb];
    [|split; [reflexivity | eexists _, _; reflexivity]].
  destruct (bcrypt_compare _ _) as [[|]|]; cbn [negb];
    try (split; [reflexivity | eexists _, _; reflexivity]).
  destruct (session req) as [rs|]; cbn;
    (split; [reflexivity | eexists _, _; reflexivity]).
Qed.

(** ** What a caller without an admin session can do *)

#[global] Instance appends_only_preorder : PreOrder appends_only.
Proof.
  split.
  - intros w. repeat split; reflexivity.
  - intros w1 w2 w3 (a & b & c) (a' & b' & c'). repeat split.
    + congruence.
    + etransitivity; eassumption.
    + etransitivity; eassumption.
Qed.

Lemma same_db_appends_only {A} (m : Eff A) : steps same_db m -> steps appends_only m.
Proof.
  intros H w. specialize (H w). unfold same_db in H. unfold appends_only.
  rewrite H. repeat split; reflexivity.
Qed.

Lemma pool_query_appends_only {B : Builtins} (q : Sql) :
  appending q = true -> steps appends_only (pool_query q).
Proof.
  intros Hq w. unfold pool_query. run. unfold exec.
  destruct (online (db w)); cbn [negb]; [|repeat split; reflexivity].
  destruct q; try discriminate Hq; try (repeat split; reflexivity).
  - destruct (new_order _ _ _ _ _ _ _ _); cbn; repeat split;
      first [ reflexivity | apply prefix_app_r; reflexivity ].
  - destruct (new_message _ _ _ _); cbn; repeat split;
      first [ reflexivity | apply prefix_app_r; reflexivity ].
Qed.

Ltac only_appends :=
  step ltac:(first [ apply pool_query_appends_only; reflexivity
                   | apply same_db_appends_only;
                     first [ apply emit_same_db | apply save_admin_same_db
                           | apply destroy_session_same_db ] ]).

Lemma dispatch_by_route (R : World -> World -> Prop) `{!PreOrder R}
    (rs : list Route) (h : HttpRequest) (w : World) :
  List.Forall
    (fun r => forall i,
       R w (snd (run_chain (route_chain r)
                   (incoming w (http_cookie h) (http_body h) i) w))) rs ->
  R w (snd (dispatch rs h w)).
Proof.
  intros Hrs. unfold dispatch.
  destruct (find_route rs (http_method h) (http_path h)) as [[r i]|] eqn:E.
  - apply find_route_In in E. rewrite List.Forall_forall in Hrs. exact (Hrs r E i).
  - reflexivity.
Qed.

Ltac anonymous Hf lemma :=
  first
    [ rewrite (lemma _ (incoming _ _ _ _) _ _ eq_refl Hf);
      repeat split; reflexivity
    | rewrite run_final;
      match goal with
      | |- appends_only ?w (snd (?m ?w)) =>
          cut (steps appends_only m); [intros H; exact (H w)|]
      end;
      unfold Server.login, Rev3.login, Server.logout, Server.get_pizzas,
        Server.post_orders, Server.post_messages, Server.health;
      only_appends ].

(** X18. Without an admin session nothing stored can be changed or
    removed.  Whatever request such a caller sends to [src/server.js] or
    to the third revision - any method, any path, any body - the catalog
    is the same afterwards, and the orders and messages that were stored
    are still there, unchanged and in the same positions: the caller can
    at most append an order or a message. *)
Theorem anonymous_only_appends {B : Builtins} (h : HttpRequest) (w : World) :
  sessions_typed w ->
  ~ admin_session w (http_cookie h) ->
  appends_only w (snd (dispatch Server.app h w)) /\
  appends_only w (snd (dispatch Rev3.app h w)).
Proof.
  intros Hty Hn. pose proof (no_admin_session_falsy w _ Hty Hn) as Hf. split.
  - apply (dispatch_by_route appends_only). unfold Server.app.
    repeat first [ apply List.Forall_nil | apply List.Forall_cons ];
      intros i; cbn [route_chain]; anonymous Hf guarded_denied.
  - apply (dispatch_by_route appends_only). unfold Rev3.app.
    repeat first [ apply List.Forall_nil | apply List.Forall_cons ];
      intros i; cbn [route_chain]; anonymous Hf rev3_guarded_denied.
Qed.

Lemma anonymous_only_appends_witness :
  sessions_typed world0 /\
  ~ admin_session world0 (http_cookie cod_order_request) /\
  appends_only world0
    (snd (dispatch (Server.app (B := Runtime.builtins)) cod_order_request world0)).
Proof.
  assert (Hty : sessions_typed world0) by apply map_Forall_empty.
  assert (Hn : ~ admin_session world0 (http_cookie cod_order_request)).
  { intros (i & s & _ & Hs & _). cbn in Hs. rewrite lookup_empty in Hs. discriminate Hs. }
  split; [exact Hty|]. split; [exact Hn|].
  exact (proj1 (anonymous_only_appends (B := Runtime.builtins) cod_order_request world0
                  Hty Hn)).
Defined.

(** ** How an admin session comes about *)

Lemma dispatch_cases (P : World -> Prop) (rs : list Route) (h : HttpRequest) (w : World) :
  P w ->
  List.Forall
    (fun r => forall i,
       P (snd (run_chain (route_chain r)
                 (incoming w (http_cookie h) (http_body h) i) w))) rs ->
  P (snd (dispatch rs h w)).
Proof.
  intros Hw Hrs. unfold dispatch.
  destruct (find_route rs (http_method h) (http_path h)) as [[r i]|] eqn:E.
  - apply find_route_In in E. rewrite List.Forall_forall in Hrs. exact (Hrs r E i).
  - exact Hw.
Qed.

Lemma same_sessions_admin (w w' : World) (c : option positive) :
  same_sessions w w' -> admin_session w' c -> admin_session w c.
Proof. intros [Hs Hc]. unfold admin_session. rewrite Hs, Hc. auto. Qed.

Lemma logout_admin (req : Req) (w : World) (c : option positive) :
  admin_session (snd (Server.logout req w)) c -> admin_session w c.
Proof.
  unfold Server.logout. run. unfold destroy_session.
  destruct (session req) as [[[j|] a]|]; cbn; try (intros H; exact H).
  intros (i & s & -> & Hs & Hc & Ha). exists i, s. cbn [sessions clock] in *.
  apply lookup_delete_Some in Hs as [_ Hs]. auto.
Qed.

Lemma login_admin {B : Builtins} (req : Req) (w : World) (c : option positive) :
  admin_session (snd (Server.login req w)) c ->
  admin_session w c \/ presents_credentials (body req).
Proof.
  unfold Server.login, presents_credentials. run.
  destruct (destructurable (body req)); [|left; assumption].
  destruct (strict_eq_str (get_prop (body req) "username") Server.adminUser_username)
    eqn:Hu; cbn [negb]; [|left; assumption].
  apply strict_eq_str_spec in Hu.
  destruct (bcrypt_compare _ _) as [[|]|]; cbn [negb]; try (left; assumption).
  intros _. right. auto.
Qed.

Lemma rev3_login_admin {B : Builtins} (req : Req) (w : World) (c : option positive) :
  admin_session (snd (Rev3.login req w)) c ->
  admin_session w c \/ presents_rev3_credentials (body req).
Proof.
  unfold Rev3.login, presents_rev3_credentials. run.
  destruct (destructurable (body req)); [|left; assumption].
  destruct (strict_eq_str (get_prop (body req) "username") Rev3.adminUser_username)
    eqn:Hu; cbn [negb]; [|left; assumption].
  apply strict_eq_str_spec in Hu.
  destruct (bcrypt_compare _ _) as [[|]|]; cbn [negb]; try (left; assumption).
  intros _. right. auto.
Qed.

Ltac session_origin guard :=
  first
    [ rewrite run_final;
      first [ apply login_admin | apply rev3_login_admin
            | intros H; left; revert H; apply logout_admin ]
    | intros H; left; revert H; apply same_sessions_admin;
      match goal with
      | |- same_sessions ?w (snd (?m ?w)) =>
          cut (steps same_sessions m); [intros H; exact (H w)|]
      end;
      chain same_sessions;
      unfold guard, Rev3.delete_message, Server.get_pizzas, Server.post_pizzas,
        Server.delete_pizza, Server.get_orders, Server.post_orders,
        Server.patch_order, Server.delete_order, Server.get_messages,
        Server.post_messages, Server.health;
      keeps_sessions ].

(** X19. An admin session comes from a login with the right credentials
    and from nothing else.  If, after any request to [src/server.js] or
    to the third revision, some cookie names a live admin session, then
    either it already did before the request, or the request's body
    carried the administrator's name and a password that [bcrypt.compare]
    accepts against the hash of that version. *)
Theorem admin_session_only_by_login {B : Builtins}
    (h : HttpRequest) (w : World) (c : option positive) :
  (admin_session (snd (dispatch Server.app h w)) c ->
   admin_session w c \/ presents_credentials (http_body h)) /\
  (admin_session (snd (dispatch Rev3.app h w)) c ->
   admin_session w c \/ presents_rev3_credentials (http_body h)).
Proof.
  split.
  - apply (dispatch_cases
             (fun w' => admin_session w' c ->
                        admin_session w c \/ presents_credentials (http_body h)));
      [intros H; left; exact H|].
    unfold Server.app.
    repeat first [ apply List.Forall_nil | apply List.Forall_cons ];
      intros i; cbn [route_chain]; session_origin Server.adminAuth.
  - apply (dispatch_cases
             (fun w' => admin_session w' c ->
                        admin_session w c \/ presents_rev3_credentials (http_body h)));
      [intros H; left; exact H|].
    unfold Rev3.app.
    repeat first [ apply List.Forall_nil | apply List.Forall_cons ];
      intros i; cbn [route_chain]; session_origin Rev3.adminAuth.
Qed.

(** ** An order from creation to listing *)

Lemma Forall2_In_l {A C} (P : A -> C -> Prop) (l : list A) (k : list C) (x : A) :
  Forall2 P l k -> In x l -> exists y, In y k /\ P x y.
Proof.
  induction 1 as [|a c l k Hac _ IH]; cbn; [intros []|].
  intros [<- | Hin].
  - exists c. split; [left; reflexivity | exact Hac].
  - destruct (IH Hin) as (y & Hy & Hxy). exists y. split; [right; exact Hy | exact Hxy].
Qed.

(** X20. An order goes through serialization and back.  After a POST
    /api/orders whose values the store accepts, the administrator's
    listing - provided every [items] document stored before that is a
    string holds JSON text - answers 200 exactly when the new [items]
    document is not a string, or is a string that holds JSON text.  It
    then contains an entry with the id the creation returned, with name,
    total and payment method as their columns read what was sent, and
    with [items] equal to the stored document, or to what it parses to
    when it is a string.  Otherwise the listing answers 500 with an empty
    array. *)
Theorem created_order_is_listed {B : Builtins}
    (b : JsValue) (cookie : option positive) (w : World) (d : JsValue) :
  destructurable b = true ->
  online (db w) = true ->
  admin_session w cookie ->
  items_parse (db w) ->
  order_accepted (get_prop b "name") (get_prop b "phone") (get_prop b "address")
    (JSON_stringify (get_prop b "items")) (get_prop b "total")
    (js_or (get_prop b "paymentMethod") (JStr "COD")) ->
  as_json (prepareValue (JSON_stringify (get_prop b "items"))) = Some d ->
  exists created w' listing,
    dispatch Server.app (endpoint_request OrderCreate "" b None) w = (Ok created, w') /\
    code created = 200 /\
    fst (dispatch Server.app (endpoint_request OrderList "" JUndefined cookie) w')
      = Ok listing /\
    (code listing = 200 <-> (forall s, d = JStr s -> is_Some (JSON_parse s))) /\
    (code listing <> 200 -> listing = respond 500 (JArr [])) /\
    (code listing = 200 ->
     exists outs out,
       json listing = JArr outs /\ In out outs /\
       get_prop out "id" = get_prop (json created) "orderId" /\
       get_prop out "id" = int (orders_id_seq (db w)) /\
       (typeof_string d = false -> get_prop out "items" = d) /\
       (forall s, d = JStr s -> JSON_parse s = Some (get_prop out "items")) /\
       as_varchar 100 (prepareValue (get_prop b "name")) = Some (get_prop out "name") /\
       as_numeric (prepareValue (get_prop b "total")) = Some (get_prop out "total") /\
       as_varchar 50 (prepareValue (js_or (get_prop b "paymentMethod") (JStr "COD")))
         = Some (get_prop out "payment_method") /\
       (get_prop out "payment_status" = JStr "Paid" <->
        paymentRequired created = JBool false)).
Proof.
  intros Hb Hon Ha Hp Hacc Hd. apply admin_session_truthy in Ha.
  rewrite server_routes, run_final.
  rewrite (post_orders_run (incoming w None b "") w Hb Hon).
  cbn [incoming body].
  set (pm := js_or (get_prop b "paymentMethod") (JStr "COD")) in *.
  set (ps := if strict_eq_str pm "COD" then JStr "Paid" else JStr "Pending").
  assert (Hps : as_varchar 20 (prepareValue ps) = Some ps).
  { subst ps. destruct (strict_eq_str pm "COD"); reflexivity. }
  apply (new_order_accepted (db w) _ _ _ _ _ _ ps (ex_intro _ _ Hps)) in Hacc
    as [o Hnew].
  rewrite Hnew.
  apply new_order_columns in Hnew
    as (Hid & Hn & _ & _ & Hi & Ht & Hpm & Hs & _).
  rewrite Hps in Hs. injection Hs as Hs.
  rewrite Hd in Hi. injection Hi as Hi.
  set (w' := {| db := with_orders (db w) (orders (db w) ++ [o]) (orders_id_seq (db w) + 1);
                sessions := sessions w; clock := clock w; trace := _ |}).
  destruct (get_orders_run (incoming w' cookie JUndefined "") (guard_ran w'))
    as (resp & w'' & Hrun & Hcode & Hok & Hrows).
  eexists _, w', resp. split; [reflexivity|]. split; [reflexivity|].
  split.
  { rewrite server_routes. rewrite admin_passes by exact Ha. rewrite Hrun. reflexivity. }
  assert (Hparse : items_parse (db (guard_ran w')) <->
                   (forall s, d = JStr s -> is_Some (JSON_parse s))).
  { unfold items_parse. cbn [guard_ran db w' with_orders orders].
    rewrite Forall_app, Forall_singleton, <- Hi. split.
    - intros [_ H]. exact H.
    - intros H. split; [exact Hp | exact H]. }
  split; [|split].
  - rewrite Hok, Hparse. split; [intros [_ H]; exact H | intros H; split; [exact Hon | exact H]].
  - intros Hne. destruct Hcode as [Hc | Hc]; [contradiction | exact Hc].
  - intros Hc. destruct (Hrows Hc) as (outs & Hj & Hl).
    assert (Hin : In o (merge_sort newest_first (orders (db (guard_ran w'))))).
    { apply (in_listing newest_first). }
    destruct (Forall2_In_l _ _ _ _ Hl Hin) as (out & Hout & Hk & Hitems & Hraw).
    exists outs, out. split; [exact Hj|]. split; [exact Hout|].
    rewrite (Hk "id"), (Hk "name"), (Hk "total"), (Hk "payment_method"),
      (Hk "payment_status") by discriminate.
    cbn [order_row get_prop assoc String.eqb Ascii.eqb Bool.eqb default json respond].
    rewrite Hid.
    split; [reflexivity|]. split; [reflexivity|].
    split; [intros Hty; rewrite Hi; apply Hraw; rewrite <- Hi; exact Hty|].
    split.
    { intros s Hds. rewrite Hds in Hi. destruct (Hitems s (eq_sym Hi)) as (v & Hv & Hg & _).
      rewrite Hg. exact Hv. }
    split; [exact Hn|]. split; [exact Ht|]. split; [exact Hpm|].
    unfold paymentRequired.
    cbn [json respond get_prop assoc String.eqb Ascii.eqb Bool.eqb default].
    rewrite <- Hs. subst ps.
    destruct (strict_eq_str pm "COD"); cbn; split; (reflexivity || discriminate).
Qed.

Lemma created_order_is_listed_witness :
  destructurable (order_body []) = true /\
  online (db world_admin) = true /\
  admin_session world_admin (Some 1%positive) /\
  items_parse (db world_admin) /\
  exists created w' listing outs out,
    dispatch (Server.app (B := Runtime.builtins))
      (endpoint_request OrderCreate "" (order_body []) None) world_admin
      = (Ok created, w') /\
    fst (dispatch (Server.app (B := Runtime.builtins))
           (endpoint_request OrderList "" JUndefined (Some 1%positive)) w')
      = Ok listing /\
    code listing = 200 /\
    json listing = JArr outs /\ In out outs /\
    get_prop out "items" = get_prop (order_body []) "items" /\
    get_prop out "total" = JStr "20".
Proof.
  assert (Hp : items_parse (db world_admin)) by constructor.
  split; [reflexivity|]. split; [reflexivity|]. split; [apply world_admin_session|].
  split; [exact Hp|].
  destruct (created_order_is_listed (B := Runtime.builtins) (order_body [])
              (Some 1%positive) world_admin
              (JArr [JObj [("id", int 1); ("qty", int 2)]]) eq_refl eq_refl
              (world_admin_session empty_db []) Hp)
    as (created & w' & listing & H1 & _ & H2 & Hiff & _ & Hok).
  { vm_compute. repeat split; eexists; reflexivity. }
  { vm_compute. reflexivity. }
  assert (Hc : code listing = 200) by (apply Hiff; intros s [=]).
  destruct (Hok Hc) as (outs & out & Hj & Hin & _ & _ & Hit & _ & _ & Ht & _).
  exists created, w', listing, outs, out.
  split; [exact H1|]. split; [exact H2|]. split; [exact Hc|]. split; [exact Hj|].
  split; [exact Hin|]. split; [exact (Hit eq_refl)|].
  match type of Ht with
  | ?l = _ => assert (E : l = Some (JStr "20")) by (vm_compute; reflexivity)
  end.
  rewrite E in Ht. injection Ht as <-. reflexivity.
Defined.

(** ** Creating a pizza in the second revision *)

Lemma rev2_post_pizzas_route {B : Builtins}
    (b : JsValue) (cookie : option positive) (w : World) :
  dispatch Rev2.app (endpoint_request CatalogCreate "" b cookie) w =
    run_chain [Rev2.adminAuth; final Rev2.post_pizzas] (incoming w cookie b "") w.
Proof. reflexivity. Qed.

(** X21. The second revision does not validate a new pizza: an
    administrator's request with a body always reaches the store.  When
    the store accepts the values and the name is not NULL the pizza is
    stored - with an empty name, a zero price or no image as well - and
    the answer is 200 [{message: "Pizza added"}]; when the name is NULL,
    or the store refuses a value, the answer is 500
    [{error: "Database error"}] and no pizza is stored.  A name that is
    absent or [null] is NULL; a name that is a string is not.
    [src/server.js] answers 400 to every request with a falsy field,
    without a query. *)
Theorem rev2_post_pizzas_unvalidated {B : Builtins}
    (b : JsValue) (cookie : option positive) (w : World) :
  admin_session w cookie ->
  destructurable b = true ->
  online (db w) = true ->
  let row := new_pizza (db w) (get_prop b "name") (js_Number (get_prop b "price"))
               (get_prop b "image") in
  (forall p, row = Some p ->
     pz_id p = pizzas_id_seq (db w) /\
     as_varchar 100 (prepareValue (get_prop b "name")) = Some (pz_name p) /\
     typeof_string (pz_price p) = true /\
     as_text (prepareValue (get_prop b "image")) = Some (pz_image p) /\
     (get_prop b "name" = JUndefined \/ get_prop b "name" = JNull ->
        is_null (pz_name p) = true) /\
     (typeof_string (get_prop b "name") = true -> is_null (pz_name p) = false) /\
     (is_null (pz_name p) = false ->
      exists w',
        dispatch Rev2.app (endpoint_request CatalogCreate "" b cookie) w
          = (Ok (respond 200 (obj1 "message" (JStr "Pizza added"))), w') /\
        db w' = with_pizzas (db w) (pizzas (db w) ++ [p]) (pizzas_id_seq (db w) + 1)) /\
     (is_null (pz_name p) = true ->
      exists w',
        dispatch Rev2.app (endpoint_request CatalogCreate "" b cookie) w
          = (Ok Rev2.database_error, w') /\
        pizzas (db w') = pizzas (db w))) /\
  (row = None ->
   exists w',
     dispatch Rev2.app (endpoint_request CatalogCreate "" b cookie) w
       = (Ok Rev2.database_error, w') /\
     pizzas (db w') = pizzas (db w)) /\
  (truthy (get_prop b "name") = false \/
   truthy (get_prop b "price") = false \/
   truthy (get_prop b "image") = false ->
   dispatch Server.app (endpoint_request CatalogCreate "" b cookie) w
     = (Ok missing_fields, guard_ran w)).
Proof.
  intros Ha Hb Hon row. subst row. apply admin_session_truthy in Ha.
  assert (Hrun :
    dispatch Rev2.app (endpoint_request CatalogCreate "" b cookie) w =
      match pool_query (InsertPizza (get_prop b "name")
                          (js_Number (get_prop b "price")) (get_prop b "image"))
              (guard_ran w)
      with
      | (Ok _, w1) => (Ok (respond 200 (obj1 "message" (JStr "Pizza added"))), w1)
      | (Thrown, w1) => (Ok Rev2.database_error, w1)
      end).
  { rewrite rev2_post_pizzas_route, (rev2_admin_passes _ _ _ _ _ Ha).
    unfold Rev2.post_pizzas, try_catch, bind, destructure, ret.
    cbn [incoming body]. rewrite Hb.
    destruct (pool_query _ (guard_ran w)) as [[r|] w1]; reflexivity. }
  rewrite Hrun, (insert_pizza_run _ _ _ (guard_ran w) Hon). cbn [guard_ran db].
  split; [|split].
  - intros p Hnew. rewrite Hnew.
    pose proof (new_pizza_columns _ _ _ _ _ Hnew) as (Hid & Hname & _ & Hprice & Himg).
    assert (Hpn : is_null (pz_price p) = false).
    { destruct (pz_price p); try discriminate. reflexivity. }
    rewrite Hpn, orb_false_r.
    repeat (split; [assumption|]).
    split; [|split; [|split]].
    + intros [Hu | Hu]; rewrite Hu in Hname; injection Hname as <-; reflexivity.
    + destruct (get_prop b "name") as [| | | |s| |]; try discriminate. intros _.
      cbn [prepareValue] in Hname. unfold as_varchar in Hname.
      destruct (has_nul (utf8_wire s)); [discriminate|].
      destruct (char_length (utf8_wire s) <=? 100)%nat.
      * injection Hname as <-. reflexivity.
      * destruct (split_chars 100 (utf8_wire s)) as [kept excess].
        destruct (all_blanks excess); [|discriminate].
        injection Hname as <-. reflexivity.
    + intros Hnn. rewrite Hnn. eexists. split; reflexivity.
    + intros Hnn. rewrite Hnn. eexists. split; reflexivity.
  - intros Hnew. rewrite Hnew. eexists. split; reflexivity.
  - intros Hf. rewrite server_routes, (admin_passes _ _ _ _ _ Ha).
    apply post_pizzas_falsy; assumption.
Qed.

Lemma rev2_post_pizzas_unvalidated_witness :
  admin_session world_admin (Some 1%positive) /\
  destructurable pizza_without_image = true /\
  online (db world_admin) = true /\
  (exists p w',
     dispatch (Rev2.app (B := Runtime.builtins))
       (endpoint_request CatalogCreate "" pizza_without_image (Some 1%positive)) world_admin
       = (Ok (respond 200 (obj1 "message" (JStr "Pizza added"))), w') /\
     pz_image p = JNull /\ pz_price p = JStr "9" /\
     pizzas (db w') = [p]) /\
  dispatch (Server.app (B := Runtime.builtins))
    (endpoint_request CatalogCreate "" pizza_without_image (Some 1%positive)) world_admin
    = (Ok missing_fields, guard_ran world_admin).
Proof.
  split; [apply world_admin_session|]. split; [reflexivity|]. split; [reflexivity|].
  destruct (rev2_post_pizzas_unvalidated (B := Runtime.builtins) pizza_without_image
              (Some 1%positive) world_admin (world_admin_session empty_db [])
              eq_refl eq_refl) as (H1 & _ & H3).
  split.
  - destruct (H1 {| pz_id := 1; pz_name := JStr "Margherita"; pz_price := JStr "9";
                    pz_image := JNull |} eq_refl)
      as (_ & _ & _ & _ & _ & _ & Hok & _).
    destruct (Hok eq_refl) as (w' & Hrun & Hdb).
    exists {| pz_id := 1; pz_name := JStr "Margherita"; pz_price := JStr "9";
              pz_image := JNull |}, w'.
    split; [exact Hrun|]. split; [reflexivity|]. split; [reflexivity|].
    rewrite Hdb. reflexivity.
  - apply H3. right. right. reflexivity.
Defined.

(** ** A stored order whose items do not parse *)

Lemma fix_items_unparsable {B : Builtins} (o : Order) (s : string) :
  items o = JStr s -> JSON_parse s = None -> Server.fix_items (order_row o) = None.
Proof.
  intros Hi Hp. rewrite fix_items_row, Hi, Hp. reflexivity.
Qed.

(** X22. One stored order whose [items] document is a string that is not
    JSON text - as an order posted with such a string for its [items] is
    stored - makes the whole order listing of [src/server.js] fail: the
    administrator gets 500 with an empty array, although the store
    answered, and nothing is changed.  The first revision, which returns
    the rows as the driver gave them, lists the same orders with 200. *)
Theorem get_orders_unparsable_items {B : Builtins}
    (b : JsValue) (cookie : option positive) (w : World) (o : Order) (s : string) :
  admin_session w cookie ->
  online (db w) = true ->
  In o (orders (db w)) ->
  items o = JStr s ->
  JSON_parse s = None ->
  dispatch Server.app (endpoint_request OrderList "" b cookie) w
    = (Ok (respond 500 (JArr [])), after_query SelectOrders (guard_ran w)) /\
  Rev1.get_orders (incoming w cookie b "") (guard_ran w)
    = (Ok (respond 200 (JArr (map order_row (merge_sort newest_first (orders (db w)))))),
       after_query SelectOrders (guard_ran w)).
Proof.
  intros Ha Hon Hin Hi Hp. apply admin_session_truthy in Ha. split.
  - rewrite server_routes, (admin_passes _ _ _ _ _ Ha).
    unfold Server.get_orders, try_catch, bind, of_option, ret, throw.
    rewrite select_orders_run. cbn [guard_ran db]. rewrite Hon. cbn [rows].
    destruct (mapM Server.fix_items
                (map order_row (merge_sort newest_first (orders (db w))))) as [outs|] eqn:E;
      [|reflexivity].
    exfalso.
    assert (Hs : is_Some (mapM Server.fix_items
                (map order_row (merge_sort newest_first (orders (db w))))))
      by (rewrite E; eexists; reflexivity).
    apply mapM_is_Some in Hs. rewrite Forall_fmap in Hs.
    rewrite Forall_forall in Hs.
    assert (Ho : o ∈ merge_sort newest_first (orders (db w))).
    { rewrite merge_sort_Permutation. apply list_elem_of_In. exact Hin. }
    specialize (Hs o Ho). unfold compose in Hs.
    rewrite (fix_items_unparsable o s Hi Hp) in Hs.
    destruct Hs as [? [=]].
  - unfold Rev1.get_orders, try_catch, bind, ret.
    rewrite select_orders_run. cbn [guard_ran db]. rewrite Hon. reflexivity.
Qed.

Lemma get_orders_unparsable_items_witness :
  get_prop (http_body oops_request) "items" = JStr "oops" /\
  orders (db world_after_oops) = [unparsable_order] /\
  admin_session world_after_oops (Some 1%positive) /\
  online (db world_after_oops) = true /\
  items unparsable_order = JStr "oops" /\
  JSON_parse "oops" = None /\
  dispatch (Server.app (B := Runtime.builtins))
    (endpoint_request OrderList "" JUndefined (Some 1%positive)) world_after_oops
    = (Ok (respond 500 (JArr [])),
       after_query SelectOrders (guard_ran world_after_oops)).
Proof.
  assert (Ho : orders (db world_after_oops) = [unparsable_order])
    by (vm_compute; reflexivity).
  assert (Ha : admin_session world_after_oops (Some 1%positive)).
  { exists 1%positive, {| admin := JBool true; expires := 5000 |}. repeat split. }
  assert (Hin : In unparsable_order (orders (db world_after_oops)))
    by (rewrite Ho; left; reflexivity).
  assert (Hp : JSON_parse "oops" = None) by (vm_compute; reflexivity).
  split; [reflexivity|]. split; [exact Ho|]. split; [exact Ha|].
  split; [reflexivity|]. split; [reflexivity|]. split; [exact Hp|].
  exact (proj1 (get_orders_unparsable_items (B := Runtime.builtins) JUndefined
                  (Some 1%positive) world_after_oops
                  unparsable_order "oops" Ha eq_refl Hin eq_refl Hp)).
Defined.
